(** * Grocery auto-clip extension: the background clipping orchestrator

    A shallow embedding of two scripts of the extension, both found in
    [src/src/content.ts]: the content script's clip classifier
    ([clipOffer], lines 205-294, with [handleClipOffer]) and the
    background service worker (lines 365-863:
    [handleStartBackgroundClipping], [processOffersInBackground],
    [saveClippingSession], [handleStopClipping] and the [onStartup]
    clean-up), with the types of [src/src/types.ts]; then the other
    commands of the service worker, the worker under message traffic,
    the content script's rate limiter
    and offer gallery, the first content script ([src/content.js]),
    the popup's start of a run and its pagination
    ([src/src/popup.ts]) and three helpers of [src/src/utils.ts];
    followed by the properties established about them. *)

From Stdlib Require Import ZArith String Ascii Bool Lia DecimalString List.
From Equations Require Import Equations.
Import ListNotations.

Local Open Scope Z_scope.

(** Matching on a value while keeping the equation with it, for the
    termination proof of the scheduler's loop. *)
Definition inspect {A : Type} (a : A) : {b : A | a = b} :=
  exist _ a eq_refl.

(** ** JavaScript values as they are used by the extension *)

Module Js.

(** [s.includes(pat)]: case-sensitive substring search. *)
Fixpoint includes (s pat : string) : bool :=
  if String.prefix pat s then true
  else match s with
       | EmptyString => false
       | String _ rest => includes rest pat
       end.

(** [m?.includes(pat)] used as a condition: an absent message is falsy. *)
Definition opt_includes (m : option string) (pat : string) : bool :=
  match m with
  | Some s => includes s pat
  | None => false
  end.

(** Truthiness of an optional string: absent and [''] are falsy. *)
Definition truthy_str (m : option string) : bool :=
  match m with
  | Some EmptyString | None => false
  | Some _ => true
  end.

(** Truthiness of an optional boolean flag. *)
Definition truthy_flag (m : option bool) : bool :=
  match m with
  | Some b => b
  | None => false
  end.

(** [m || dflt] on an optional string. *)
Definition str_or (m : option string) (dflt : string) : string :=
  if truthy_str m then
    match m with Some s => s | None => dflt end
  else dflt.

(** [n.toString()] and [`${n}`] for an integral number. *)
Definition number_toString (n : Z) : string :=
  NilZero.string_of_int (Z.to_int n).

(** [e instanceof Error ? e.message : 'Unknown error']: a thrown value
    is kept as its message when it is an [Error]. *)
Definition error_message (thrown : option string) : string :=
  match thrown with
  | Some msg => msg
  | None => "Unknown error"%string
  end.

End Js.

(** The host's [Date]: [new Date(t).toISOString()] and the time value of
    [new Date(s)], which is [NaN] ([None]) for an unparsable string. *)
Class HostDate := {
  Date_toISOString : Z -> string;
  Date_parse : string -> option Z
}.

(** ** [types.ts] *)

(** The provider's record an offer was built from ([originalOffer]). *)
Record RawOffer := {
  raw_status : option string;
  raw_clipId : option string;
  raw_clipTs : option string
}.

(** The fields of [CouponOffer] that the orchestrator reads or writes;
    the display metadata is carried along unchanged and is left out. *)
Record CouponOffer := {
  id : string;
  title : string;
  program : string;
  status : option string;
  clipId : option string;
  clipTs : option string;
  originalOffer : option RawOffer
}.

(** [{...offer, status: s}] *)
Definition with_status (o : CouponOffer) (s : string) : CouponOffer :=
  {| id := id o; title := title o; program := program o;
     status := Some s; clipId := clipId o; clipTs := clipTs o;
     originalOffer := originalOffer o |}.

(** [ClippedCoupon extends CouponOffer]: the offer's fields, with
    [status: 'clipped'], and [clippedDate]. *)
Record ClippedCoupon := {
  cc_offer : CouponOffer;
  clippedDate : string
}.

(** [SkippedCoupon extends CouponOffer]. *)
Record SkippedCoupon := {
  sc_offer : CouponOffer;
  skippedDate : string;
  skipReason : string;
  skipMessage : string
}.

Record ClippingStats := {
  total : Z;
  processed : Z;
  clipped : option Z;
  alreadyClipped : option Z;
  skipped : option Z;
  failed : option Z
}.

Record ClippingState := {
  isActive : bool;
  currentStats : ClippingStats;
  startTime : option Z;
  lastActivity : option Z
}.

Record ClippingSession := {
  session_id : string;
  session_date : string;
  session_stats : ClippingStats;
  duration : Z
}.

(** [ClipOfferResponse], also the reply the background script receives
    for a ['clipOffer'] message. *)
Record ClipOfferResponse := {
  success : bool;
  wasAlreadyClipped : option bool;
  wasSkipped : option bool;
  reason : option string;
  errorMsg : option string;
  error : option string;
  resp_clipId : option string;
  resp_clipTs : option string
}.

Inductive SkipReason :=
| EXPIRED_OR_INACTIVE
| NOT_AVAILABLE_IN_STORE
| NOT_ELIGIBLE
| DISPLAY_PERIOD_ENDED
| LIMIT_EXCEEDED
| UNKNOWN
| UNKNOWN_WITH_CLIPID
| UNEXPECTED_RESPONSE
| CANNOT_CLIP.

(** The string value of each member of the [SkipReason] enum. *)
Definition SkipReason_value (r : SkipReason) : string :=
  match r with
  | EXPIRED_OR_INACTIVE => "expired_or_inactive"
  | NOT_AVAILABLE_IN_STORE => "not_available_in_store"
  | NOT_ELIGIBLE => "not_eligible"
  | DISPLAY_PERIOD_ENDED => "display_period_ended"
  | LIMIT_EXCEEDED => "limit_exceeded"
  | UNKNOWN => "unknown"
  | UNKNOWN_WITH_CLIPID => "unknown_with_clipid"
  | UNEXPECTED_RESPONSE => "unexpected_response"
  | CANNOT_CLIP => "cannot_clip"
  end%string.

Definition CouponStatus_CLIPPED : string := "C".

(** ** The content script: [clipOffer] *)

Module Content.

(** [result.items[0]] of the provider's clip response. *)
Record ClipItem := {
  item_status : Z;
  item_clipId : option string;
  item_errorMsg : option string
}.

(** [{ success: true, wasAlreadyClipped: b }] *)
Definition clip_done (already : bool) : ClipOfferResponse :=
  {| success := true; wasAlreadyClipped := Some already;
     wasSkipped := None; reason := None; errorMsg := None;
     error := None; resp_clipId := None; resp_clipTs := None |}.

(** [{ success: true, wasSkipped: true, reason, errorMsg }] *)
Definition skip (r : SkipReason) (msg : option string) : ClipOfferResponse :=
  {| success := true; wasAlreadyClipped := None; wasSkipped := Some true;
     reason := Some (SkipReason_value r); errorMsg := msg; error := None;
     resp_clipId := None; resp_clipTs := None |}.

(** [{ success: false, error }] *)
Definition failure (msg : string) : ClipOfferResponse :=
  {| success := false; wasAlreadyClipped := None; wasSkipped := None;
     reason := None; errorMsg := None; error := Some msg;
     resp_clipId := None; resp_clipTs := None |}.

(** The reason chosen inside the [status === 0 && !clipId] branch. *)
Definition cannot_clip_reason (msg : option string) : SkipReason :=
  if Js.opt_includes msg "region" || Js.opt_includes msg "store"
  then NOT_AVAILABLE_IN_STORE
  else if Js.opt_includes msg "limit" || Js.opt_includes msg "maximum"
  then LIMIT_EXCEEDED
  else if Js.opt_includes msg "qualify" || Js.opt_includes msg "eligible"
  then NOT_ELIGIBLE
  else if Js.opt_includes msg "display"
          || Js.opt_includes msg "promotional period"
  then DISPLAY_PERIOD_ENDED
  else CANNOT_CLIP.

(** The [if]/[else if] chain over [item] in [clipOffer]. *)
Definition classifyItem (item : ClipItem) : ClipOfferResponse :=
  let st := item_status item in
  let hasClip := Js.truthy_str (item_clipId item) in
  let msg := item_errorMsg item in
  if (st =? 1) && hasClip then clip_done false
  else if (st =? 0) && hasClip && Js.opt_includes msg "already clipped"
  then clip_done true
  else if Js.opt_includes msg "not yet active"
          || Js.opt_includes msg "past expiry"
          || Js.opt_includes msg "shutoff date"
  then skip EXPIRED_OR_INACTIVE msg
  else if (st =? 0) && negb hasClip
  then skip (cannot_clip_reason msg) msg
  else if (st =? 0) && hasClip
  then if Js.opt_includes msg "already clipped" then clip_done true
       else skip UNKNOWN_WITH_CLIPID
                 (Some (Js.str_or msg "Has clipId but status 0"))
  else skip UNEXPECTED_RESPONSE (Some (Js.str_or msg "No error message")).

(** [isOfferAlreadyClipped] *)
Definition isOfferAlreadyClipped (offer : CouponOffer) : bool :=
  match originalOffer offer with
  | Some raw =>
      match raw_status raw with
      | Some s => String.eqb s CouponStatus_CLIPPED
      | None => false
      end && Js.truthy_str (raw_clipId raw) && Js.truthy_str (raw_clipTs raw)
  | None =>
      match status offer with
      | Some s => String.eqb s CouponStatus_CLIPPED
      | None => false
      end && Js.truthy_str (clipId offer) && Js.truthy_str (clipTs offer)
  end.

(** What the [fetch] of the clip endpoint and [response.json()] yield. *)
Inductive FetchOutcome :=
| FetchThrows (thrown : option string)
| HttpNotOk (code : Z)
| HttpOk (items : option (list ClipItem)).

(** [a || b] on two optional strings. *)
Definition first_truthy (a b : option string) : option string :=
  if Js.truthy_str a then a else b.

(** [clipOffer]: [authenticated] tells whether [getAuthHeaders()] is
    non-null, [net] what the network call yields when it is made. *)
Definition clipOffer (authenticated : bool) (net : FetchOutcome)
           (offer : CouponOffer) : ClipOfferResponse :=
  if isOfferAlreadyClipped offer then
    {| success := true; wasAlreadyClipped := Some true;
       wasSkipped := None; reason := None; errorMsg := None;
       error := None;
       resp_clipId :=
         first_truthy
           (match originalOffer offer with
            | Some raw => raw_clipId raw
            | None => None
            end) (clipId offer);
       resp_clipTs :=
         first_truthy
           (match originalOffer offer with
            | Some raw => raw_clipTs raw
            | None => None
            end) (clipTs offer) |}
  else if negb authenticated then failure "No authentication"
  else match net with
       | FetchThrows thrown => failure (Js.error_message thrown)
       | HttpNotOk code =>
           failure (String.append "HTTP " (Js.number_toString code))
       | HttpOk (Some (item :: _)) => classifyItem item
       | HttpOk _ => failure "No items in response"
       end.

(** [handleClipOffer]: the reply sent back for a ['clipOffer'] message
    forwards every field of the result but the clip identifiers. *)
Definition handleClipOffer (result : ClipOfferResponse) : ClipOfferResponse :=
  {| success := success result;
     wasAlreadyClipped := wasAlreadyClipped result;
     wasSkipped := wasSkipped result;
     reason := reason result;
     errorMsg := errorMsg result;
     error := error result;
     resp_clipId := None; resp_clipTs := None |}.

End Content.

(** ** The background service worker *)

(** [chrome.storage.local]: every key is absent until it is first set. *)
Module Storage.

Record t := {
  clippedCoupons : option (list ClippedCoupon);
  skippedCoupons : option (list SkippedCoupon);
  clippingStats : option ClippingStats;
  clippingState : option ClippingState;
  clippingSessions : option (list ClippingSession);
  lastClippingStart : option string;
  lastClippingSession : option ClippingSession;
  availableCoupons : option Z
}.

Definition empty : t :=
  {| clippedCoupons := None; skippedCoupons := None;
     clippingStats := None; clippingState := None;
     clippingSessions := None; lastClippingStart := None;
     lastClippingSession := None; availableCoupons := None |}.

Definition or_else {A} (new old : option A) : option A :=
  match new with
  | Some _ => new
  | None => old
  end.

(** [chrome.storage.local.set(patch)]: the keys present in [patch]
    replace the stored values, the others are kept. *)
Definition set (patch store : t) : t :=
  {| clippedCoupons := or_else (clippedCoupons patch) (clippedCoupons store);
     skippedCoupons := or_else (skippedCoupons patch) (skippedCoupons store);
     clippingStats := or_else (clippingStats patch) (clippingStats store);
     clippingState := or_else (clippingState patch) (clippingState store);
     clippingSessions :=
       or_else (clippingSessions patch) (clippingSessions store);
     lastClippingStart :=
       or_else (lastClippingStart patch) (lastClippingStart store);
     lastClippingSession :=
       or_else (lastClippingSession patch) (lastClippingSession store);
     availableCoupons :=
       or_else (availableCoupons patch) (availableCoupons store) |}.

(** The objects handed to [set] by the background script. *)
Definition patch_coupons (c : list ClippedCoupon) (k : list SkippedCoupon)
  : t :=
  {| clippedCoupons := Some c; skippedCoupons := Some k;
     clippingStats := None; clippingState := None;
     clippingSessions := None; lastClippingStart := None;
     lastClippingSession := None; availableCoupons := None |}.

Definition patch_progress (s : ClippingStats) (cs : ClippingState) : t :=
  {| clippedCoupons := None; skippedCoupons := None;
     clippingStats := Some s; clippingState := Some cs;
     clippingSessions := None; lastClippingStart := None;
     lastClippingSession := None; availableCoupons := None |}.

Definition patch_state (cs : ClippingState) : t :=
  {| clippedCoupons := None; skippedCoupons := None;
     clippingStats := None; clippingState := Some cs;
     clippingSessions := None; lastClippingStart := None;
     lastClippingSession := None; availableCoupons := None |}.

Definition patch_start (cs : ClippingState) (iso : string) : t :=
  {| clippedCoupons := None; skippedCoupons := None;
     clippingStats := None; clippingState := Some cs;
     clippingSessions := None; lastClippingStart := Some iso;
     lastClippingSession := None; availableCoupons := None |}.

Definition patch_sessions (l : list ClippingSession) (last : ClippingSession)
  : t :=
  {| clippedCoupons := None; skippedCoupons := None;
     clippingStats := None; clippingState := None;
     clippingSessions := Some l; lastClippingStart := None;
     lastClippingSession := Some last; availableCoupons := None |}.

Definition patch_clipped (c : list ClippedCoupon) : t :=
  {| clippedCoupons := Some c; skippedCoupons := None;
     clippingStats := None; clippingState := None;
     clippingSessions := None; lastClippingStart := None;
     lastClippingSession := None; availableCoupons := None |}.

Definition patch_history (l : list ClippingSession) : t :=
  {| clippedCoupons := None; skippedCoupons := None;
     clippingStats := None; clippingState := None;
     clippingSessions := Some l; lastClippingStart := None;
     lastClippingSession := None; availableCoupons := None |}.

(** [data.key || []] *)
Definition list_or_empty {A} (v : option (list A)) : list A :=
  match v with
  | Some l => l
  | None => []
  end.

End Storage.

Module Background.

Record Config := {
  BATCH_SIZE : nat;
  BATCH_DELAY_MS : Z;
  BATCH_DELAY_VARIANCE_MS : Z;
  MAX_SESSIONS : nat;
  DATA_RETENTION_DAYS : Z;
  MAX_SESSION_HISTORY : nat
}.

Definition CONFIG : Config :=
  {| BATCH_SIZE := 5;
     BATCH_DELAY_MS := 800;
     BATCH_DELAY_VARIANCE_MS := 400;
     MAX_SESSIONS := 50;
     DATA_RETENTION_DAYS := 90;
     MAX_SESSION_HISTORY := 100 |}.

(** The module-level [clippingState], the extension's storage, and
    the ['clipOffer'] messages sent to the tab so far, oldest first.
    The badge is written but never read back and is left out. *)
Record World := {
  state : ClippingState;
  storage : Storage.t;
  sent : list CouponOffer
}.

(** The initial value of the [clippingState] constant. *)
Definition initialState : ClippingState :=
  {| isActive := false;
     currentStats :=
       {| total := 0; processed := 0; clipped := None;
          alreadyClipped := None; skipped := None; failed := None |};
     startTime := None;
     lastActivity := None |}.

Definition initialWorld : World :=
  {| state := initialState; storage := Storage.empty; sent := [] |}.

Definition with_state (w : World) (cs : ClippingState) : World :=
  {| state := cs; storage := storage w; sent := sent w |}.

Definition set_active (cs : ClippingState) (b : bool) : ClippingState :=
  {| isActive := b; currentStats := currentStats cs;
     startTime := startTime cs; lastActivity := lastActivity cs |}.

Definition set_stats (cs : ClippingState) (s : ClippingStats)
  : ClippingState :=
  {| isActive := isActive cs; currentStats := s;
     startTime := startTime cs; lastActivity := lastActivity cs |}.

(** [stats.processed++] *)
Definition bump_processed (s : ClippingStats) : ClippingStats :=
  {| total := total s; processed := processed s + 1;
     clipped := clipped s; alreadyClipped := alreadyClipped s;
     skipped := skipped s; failed := failed s |}.

(** Replies of the background message handlers. *)
Record MessageResponse := {
  msg_success : bool;
  msg_state : option ClippingState;
  msg_error : option string
}.

Record OfferResult := {
  offer : CouponOffer;
  r_success : bool;
  r_wasAlreadyClipped : option bool;
  r_wasSkipped : option bool;
  r_reason : option string;
  r_errorMsg : option string;
  r_error : option string
}.

(** How [await chrome.tabs.sendMessage(tabId, ...)] ends: with the
    tab's reply, or by throwing (which includes a missing reply, whose
    fields cannot be read). *)
Inductive SendOutcome :=
| Resolved (response : ClipOfferResponse)
| Rejected (thrown : option string).

(** [response.error?.match(/(not yet active|past expiry|shutoff date)/)] *)
Definition expired_pattern (e : option string) : bool :=
  Js.opt_includes e "not yet active"
  || Js.opt_includes e "past expiry"
  || Js.opt_includes e "shutoff date".

Definition is_unknown (r : option string) : bool :=
  match r with
  | Some s => String.eqb s (SkipReason_value UNKNOWN)
  | None => false
  end.

(** The body of [batch.map(async (offer) => ...)]. *)
Definition toResult (o : CouponOffer) (out : SendOutcome) : OfferResult :=
  match out with
  | Resolved response =>
      let finalReason :=
        if Js.truthy_flag (wasSkipped response)
           && (negb (Js.truthy_str (reason response))
               || is_unknown (reason response))
        then Some (SkipReason_value EXPIRED_OR_INACTIVE)
        else reason response in
      if negb (Js.truthy_flag (wasSkipped response))
         && negb (success response)
         && expired_pattern (error response)
      then {| offer := o; r_success := true;
              r_wasAlreadyClipped := wasAlreadyClipped response;
              r_wasSkipped := Some true;
              r_reason := Some (SkipReason_value EXPIRED_OR_INACTIVE);
              r_errorMsg := errorMsg response;
              r_error := error response |}
      else {| offer := o; r_success := success response;
              r_wasAlreadyClipped := wasAlreadyClipped response;
              r_wasSkipped := wasSkipped response;
              r_reason := finalReason;
              r_errorMsg := errorMsg response;
              r_error := error response |}
  | Rejected thrown =>
      {| offer := o; r_success := false;
         r_wasAlreadyClipped := None; r_wasSkipped := None;
         r_reason := None; r_errorMsg := None;
         r_error := Some (Js.error_message thrown) |}
  end.

(** [Promise.all(batch.map(...))]: one result per offer of the batch,
    in the batch's order; [pos] is the offer's index in the run. *)
Fixpoint dispatch (send : nat -> CouponOffer -> SendOutcome) (pos : nat)
         (batch : list CouponOffer) : list OfferResult :=
  match batch with
  | [] => []
  | o :: rest => toResult o (send pos o) :: dispatch send (S pos) rest
  end.

(** The five reasons tracked as permanently unclippable. *)
Definition is_permanent (reasonText : string) : bool :=
  String.eqb reasonText (SkipReason_value EXPIRED_OR_INACTIVE)
  || String.eqb reasonText (SkipReason_value NOT_AVAILABLE_IN_STORE)
  || String.eqb reasonText (SkipReason_value NOT_ELIGIBLE)
  || String.eqb reasonText (SkipReason_value DISPLAY_PERIOD_ENDED)
  || String.eqb reasonText (SkipReason_value LIMIT_EXCEEDED).

(** [saveClippingSession]'s trimming: [splice(0, length - MAX_SESSIONS)]
    when the list is longer than [MAX_SESSIONS]. *)
Definition trim_sessions (sessions : list ClippingSession)
  : list ClippingSession :=
  if (MAX_SESSIONS CONFIG <? length sessions)%nat
  then skipn (length sessions - MAX_SESSIONS CONFIG) sessions
  else sessions.

(** The start-up listener's session clean-up: [slice(-MAX_SESSIONS)]
    when the list is longer than [MAX_SESSION_HISTORY]. *)
Definition startup_sessions (sessions : list ClippingSession)
  : option (list ClippingSession) :=
  if (MAX_SESSION_HISTORY CONFIG <? length sessions)%nat
  then Some (skipn (length sessions - MAX_SESSIONS CONFIG) sessions)
  else None.

Definition has_clipped_id (existing : list ClippedCoupon) (i : string)
  : bool :=
  existsb (fun c => String.eqb (id (cc_offer c)) i) existing.

Definition has_skipped_id (existing : list SkippedCoupon) (i : string)
  : bool :=
  existsb (fun c => String.eqb (id (sc_offer c)) i) existing.

(** The loop adding the permanently skipped coupons of a batch. *)
Definition mergeSkipped (existing : list SkippedCoupon)
           (news : list SkippedCoupon) : list SkippedCoupon :=
  fold_left
    (fun acc sc =>
       if has_skipped_id acc (id (sc_offer sc)) then acc else acc ++ [sc])
    news existing.

Section WithDate.

Context {host : HostDate}.

(** What has been gathered while going through [batchResults]. *)
Record Settled := {
  newClippedCoupons : list CouponOffer;
  newSkippedCoupons : list SkippedCoupon;
  stats : ClippingStats
}.

(** The body of [for (const result of batchResults)]; [now] is the
    clock read by [new Date()]. *)
Definition settle_one (now : Z) (acc : Settled) (result : OfferResult)
  : Settled :=
  let bumped := bump_processed (stats acc) in
  if r_success result then
    if Js.truthy_flag (r_wasAlreadyClipped result)
       || negb (Js.truthy_flag (r_wasSkipped result))
    then {| newClippedCoupons := newClippedCoupons acc ++ [offer result];
            newSkippedCoupons := newSkippedCoupons acc;
            stats := bumped |}
    else
      let reasonText :=
        Js.str_or (r_reason result) (SkipReason_value UNKNOWN) in
      if is_permanent reasonText
      then {| newClippedCoupons := newClippedCoupons acc;
              newSkippedCoupons :=
                newSkippedCoupons acc ++
                  [ {| sc_offer := with_status (offer result) "skipped";
                       skippedDate := Date_toISOString now;
                       skipReason := reasonText;
                       skipMessage :=
                         Js.str_or (r_errorMsg result)
                                   "No specific message" |} ];
              stats := bumped |}
      else {| newClippedCoupons := newClippedCoupons acc;
              newSkippedCoupons := newSkippedCoupons acc;
              stats := bumped |}
  else {| newClippedCoupons := newClippedCoupons acc;
          newSkippedCoupons := newSkippedCoupons acc;
          stats := bumped |}.

Definition settle (now : Z) (s : ClippingStats)
           (batchResults : list OfferResult) : Settled :=
  fold_left (settle_one now)
            batchResults
            {| newClippedCoupons := []; newSkippedCoupons := [];
               stats := s |}.

(** The loop adding the newly clipped coupons of a batch. *)
Definition mergeClipped (now : Z) (existing : list ClippedCoupon)
           (news : list CouponOffer) : list ClippedCoupon :=
  fold_left
    (fun acc o =>
       if has_clipped_id acc (id o) then acc
       else acc ++ [ {| cc_offer := with_status o "clipped";
                        clippedDate := Date_toISOString now |} ])
    news existing.

(** The update of the stored collections after a batch: nothing is
    read or written when the batch produced no new record. *)
Definition persist_batch (now : Z) (newClipped : list CouponOffer)
           (newSkipped : list SkippedCoupon) (st : Storage.t)
  : Storage.t :=
  match newClipped, newSkipped with
  | [], [] => st
  | _, _ =>
      let existingCoupons :=
        Storage.list_or_empty (Storage.clippedCoupons st) in
      let existingSkipped :=
        Storage.list_or_empty (Storage.skippedCoupons st) in
      Storage.set
        (Storage.patch_coupons
           (mergeClipped now existingCoupons newClipped)
           (mergeSkipped existingSkipped newSkipped))
        st
  end.

(** [saveClippingSession(stats)]; [cs] is the [clippingState] it
    reads [startTime] from, [now] the clock, which the function reads
    for the identifier, the date and the duration within one
    uninterrupted stretch and which is taken to be the same for the
    three.  A failing storage call is caught and logged there; the
    embedding follows the calls that succeed. *)
Definition saveClippingSession (now : Z) (cs : ClippingState)
           (s : ClippingStats) (st : Storage.t) : Storage.t :=
  let session :=
    {| session_id := Js.number_toString now;
       session_date := Date_toISOString now;
       session_stats := s;
       duration :=
         match startTime cs with
         | Some t0 => if t0 =? 0 then 0 else now - t0
         | None => 0
         end |} in
  let sessions :=
    Storage.list_or_empty (Storage.clippingSessions st) ++ [session] in
  Storage.set (Storage.patch_sessions (trim_sessions sessions) session) st.

(** [handleStopClipping]: [finalStats] is [message.finalStats]. *)
Definition handleStopClipping (finalStats : option ClippingStats)
           (now : Z) (w : World) : MessageResponse * World :=
  let wasActive := isActive (state w) in
  let cs :=
    {| isActive := false;
       currentStats := currentStats (state w);
       startTime := startTime (state w);
       lastActivity := Some now |} in
  let st1 :=
    match finalStats with
    | Some fs =>
        if wasActive then saveClippingSession now cs fs (storage w)
        else storage w
    | None => storage w
    end in
  ({| msg_success := true; msg_state := Some cs; msg_error := None |},
   {| state := cs;
      storage := Storage.set (Storage.patch_state cs) st1;
      sent := sent w |}).

(** What happens around one run of [processOffersInBackground].  All
    fields but [finishTime] are indexed by the loop variable [i] of
    the batch they concern. *)
Record Env := {
  (** the outcome of the message sent for the offer at an index *)
  tabs_sendMessage : nat -> CouponOffer -> SendOutcome;
  (** the clock when the batch's results are gone through *)
  classifyTime : nat -> Z;
  (** the clock when the batch's clipped coupons are stored *)
  mergeTime : nat -> Z;
  (** a ['stopClipping'] message handled while the batch is awaited
      or during the delay after it: its [finalStats] and the clock *)
  stopDuring : nat -> option (option ClippingStats * Z);
  (** the clock when the run completes *)
  finishTime : Z
}.

(** [offers.slice(i, Math.min(i + batchSize, offers.length))] *)
Definition batch_at (offers : list CouponOffer) (i : nat)
  : list CouponOffer :=
  firstn (Nat.min (i + BATCH_SIZE CONFIG) (length offers) - i)
         (skipn i offers).

(** One pass through the body of the [for] loop, its storage calls
    succeeding (a throwing one leaves through the [catch] of
    [processOffersInBackground], which is not part of the runs studied
    here). *)
Definition iteration (env : Env) (offers : list CouponOffer) (i : nat)
           (w : World) : World :=
  let batch := batch_at offers i in
  let batchResults := dispatch (tabs_sendMessage env) i batch in
  let done :=
    settle (classifyTime env i) (currentStats (state w)) batchResults in
  let cs := set_stats (state w) (stats done) in
  let st1 :=
    persist_batch (mergeTime env i) (newClippedCoupons done)
                  (newSkippedCoupons done) (storage w) in
  {| state := cs;
     storage := Storage.set (Storage.patch_progress (stats done) cs) st1;
     sent := sent w ++ batch |}.

(** The stop message, if any, that arrives before the loop condition
    is evaluated again.  The loop body reads [isActive] nowhere, so a
    stop handled at an earlier suspension point of the same pass
    leaves the same state and stored collections.  The other messages
    the listener can handle during a run (another start, an update of
    the statistics) are not among what [Env] describes; [Traffic]
    has them. *)
Definition deliver (env : Env) (i : nat) (w : World) : World :=
  match stopDuring env i with
  | Some (finalStats, now) => snd (handleStopClipping finalStats now w)
  | None => w
  end.

(** [for (let i = ...; i < offers.length && clippingState.isActive;
    i += batchSize)] *)
Equations? loop (env : Env) (offers : list CouponOffer) (i : nat)
           (w : World) : World by wf (length offers - i)%nat lt :=
  loop env offers i w
    with inspect ((i <? length offers)%nat && isActive (state w)) := {
    | exist _ true _ =>
        loop env offers (i + BATCH_SIZE CONFIG)%nat
             (deliver env i (iteration env offers i w))
    | exist _ false _ => w }.
Proof.
  apply andb_prop in e. destruct e as [e _].
  apply Nat.ltb_lt in e. simpl. lia.
Qed.

(** [processOffersInBackground], run to its end. *)
Definition processOffersInBackground (env : Env)
           (offers : list CouponOffer) (w : World) : World :=
  let w1 := loop env offers 0 w in
  if isActive (state w1) then
    let cs := set_active (state w1) false in
    let st1 :=
      saveClippingSession (finishTime env) cs (currentStats cs)
                          (storage w1) in
    {| state := cs;
       storage := Storage.set (Storage.patch_state cs) st1;
       sent := sent w1 |}
  else w1.

(** The state set up by [handleStartBackgroundClipping]. *)
Definition startState (now : Z) (offers : list CouponOffer)
           (cs : ClippingState) : ClippingState :=
  {| isActive := true;
     currentStats :=
       {| total := Z.of_nat (length offers); processed := 0;
          clipped := Some 0; alreadyClipped := Some 0;
          skipped := Some 0; failed := Some 0 |};
     startTime := Some now;
     lastActivity := lastActivity cs |}.

(** How the handler's [await chrome.storage.local.set(...)] ends. *)
Inductive SetOutcome :=
| SetOk
| SetThrows (thrown : option string).

(** [clippingState] as [sendResponse] sees it.  The handler calls
    [processOffersInBackground] without awaiting it, so the run has
    advanced to its first suspension point: with no offers the loop
    is skipped and [isActive] is cleared before the session is saved;
    otherwise the first batch has only been dispatched. *)
Definition stateAtReply (offers : list CouponOffer) (cs : ClippingState)
  : ClippingState :=
  match offers with
  | [] => set_active cs false
  | _ :: _ => cs
  end.

(** [message.offers]: the array of offers, as the popup sends it, or
    nothing (the field is missing or [null]), for which reading
    [offers.length] throws a [TypeError]; [typeError] is its message,
    the host's.  Reading the length of a value that is there does not
    throw. *)
Inductive OffersField :=
| NoOffers (typeError : string)
| OfferList (offers : list CouponOffer).

(** [handleStartBackgroundClipping]: the reply, and the world in
    which the run then proceeds.  Without offers the handler leaves
    through its [catch] when it builds the statistics: [isActive] and
    [startTime] have been set, nothing is written and no run is
    started. *)
Definition handleStartBackgroundClipping (now : Z) (write : SetOutcome)
           (field : OffersField) (w : World)
  : MessageResponse * World :=
  match field with
  | NoOffers typeError =>
      ({| msg_success := false; msg_state := None;
          msg_error := Some typeError |},
       with_state w {| isActive := true;
                       currentStats := currentStats (state w);
                       startTime := Some now;
                       lastActivity := lastActivity (state w) |})
  | OfferList offers =>
      let cs := startState now offers (state w) in
      match write with
      | SetThrows thrown =>
          ({| msg_success := false; msg_state := None;
              msg_error := Some (Js.error_message thrown) |},
           with_state w cs)
      | SetOk =>
          ({| msg_success := true;
              msg_state := Some (stateAtReply offers cs);
              msg_error := None |},
           {| state := cs;
              storage :=
                Storage.set (Storage.patch_start cs (Date_toISOString now))
                            (storage w);
              sent := sent w |})
      end
  end.

(** A whole run: the start command, then the scheduler. *)
Definition backgroundRun (env : Env) (now : Z)
           (offers : list CouponOffer) (w : World) : World :=
  processOffersInBackground
    env offers
    (snd (handleStartBackgroundClipping now SetOk (OfferList offers) w)).

(** The predicate of the start-up listener's [filter]. *)
Definition keep_coupon (now : Z) (coupon : ClippedCoupon) : bool :=
  match clippedDate coupon with
  | EmptyString => true
  | date =>
      match Date_parse date with
      | Some t =>
          now - DATA_RETENTION_DAYS CONFIG * 24 * 60 * 60 * 1000 <? t
      | None => false
      end
  end.

(** The [chrome.runtime.onStartup] listener. *)
Definition onStartup (now : Z) (st : Storage.t) : Storage.t :=
  let st1 :=
    match Storage.clippedCoupons st with
    | Some coupons =>
        let activeCoupons := filter (keep_coupon now) coupons in
        if (length activeCoupons =? length coupons)%nat then st
        else Storage.set (Storage.patch_clipped activeCoupons) st
    | None => st
    end in
  match Storage.clippingSessions st with
  | Some sessions =>
      match startup_sessions sessions with
      | Some recentSessions =>
          Storage.set (Storage.patch_history recentSessions) st1
      | None => st1
      end
  | None => st1
  end.

End WithDate.

End Background.

(** ** A concrete host and concrete runs *)

(** A [Date] for UTC timestamps with four-digit years:
    [YYYY-MM-DDTHH:mm:ss.sssZ], the format [toISOString] writes and the
    only one this instance's parser recognises. *)
Module IsoDate.

(** The civil date (year, month, day) of a day number counted from
    1970-01-01. *)
Definition civil_from_days (z0 : Z) : Z * Z * Z :=
  let z := z0 + 719468 in
  let era := z / 146097 in
  let doe := z - era * 146097 in
  let yoe := (doe - doe / 1460 + doe / 36524 - doe / 146096) / 365 in
  let doy := doe - (365 * yoe + yoe / 4 - yoe / 100) in
  let mp := (5 * doy + 2) / 153 in
  let d := doy - (153 * mp + 2) / 5 + 1 in
  let m := if mp <? 10 then mp + 3 else mp - 9 in
  let y := yoe + era * 400 in
  (if m <=? 2 then y + 1 else y, m, d).

Definition days_from_civil (y0 m d : Z) : Z :=
  let y := if m <=? 2 then y0 - 1 else y0 in
  let era := y / 400 in
  let yoe := y - era * 400 in
  let doy := (153 * (if 2 <? m then m - 3 else m + 9) + 2) / 5 + d - 1 in
  let doe := yoe * 365 + yoe / 4 - yoe / 100 + doy in
  era * 146097 + doe - 719468.

Fixpoint zeros (n : nat) : string :=
  match n with
  | O => EmptyString
  | S k => String "0"%char (zeros k)
  end.

Definition pad (width : nat) (n : Z) : string :=
  let digits := Js.number_toString n in
  String.append (zeros (width - String.length digits)) digits.

Definition toISOString (t : Z) : string :=
  let '(y, m, d) := civil_from_days (t / 86400000) in
  let ms := t mod 86400000 in
  String.concat ""
    [pad 4 y; "-"; pad 2 m; "-"; pad 2 d; "T";
     pad 2 (ms / 3600000); ":"; pad 2 (ms / 60000 mod 60); ":";
     pad 2 (ms / 1000 mod 60); "."; pad 3 (ms mod 1000); "Z"]%string.

Definition digits_at (s : string) (start len : nat) : Z :=
  match NilZero.uint_of_string (String.substring start len s) with
  | Some u => Z.of_uint u
  | None => 0
  end.

(** The time value of a string in the format above, found by reading
    its fields and checking that they print back to the same string. *)
Definition parse (s : string) : option Z :=
  let t :=
    days_from_civil (digits_at s 0 4) (digits_at s 5 2) (digits_at s 8 2)
    * 86400000
    + digits_at s 11 2 * 3600000 + digits_at s 14 2 * 60000
    + digits_at s 17 2 * 1000 + digits_at s 20 3 in
  if String.eqb (toISOString t) s then Some t else None.

Definition host : HostDate :=
  {| Date_toISOString := toISOString; Date_parse := parse |}.

End IsoDate.

Module Scenario.

Import Background.

#[local] Existing Instance IsoDate.host.

Definition mkOffer (n : Z) : CouponOffer :=
  {| id := Js.number_toString n;
     title := String.append "Offer " (Js.number_toString n);
     program := "MF";
     status := Some "A"%string;
     clipId := None;
     clipTs := None;
     originalOffer := None |}.

Definition offers_upto (n : nat) : list CouponOffer :=
  map (fun k => mkOffer (Z.of_nat k)) (seq 1 n).

(** Replies of the content script, as [handleClipOffer] sends them. *)
Definition reply_clipped : SendOutcome :=
  Resolved (Content.handleClipOffer (Content.clip_done false)).

Definition reply_already : SendOutcome :=
  Resolved (Content.handleClipOffer (Content.clip_done true)).

Definition reply_skipped (r : SkipReason) : SendOutcome :=
  Resolved (Content.handleClipOffer
              (Content.skip r (Some "Offer cannot be clipped"%string))).

Definition reply_failed : SendOutcome :=
  Resolved (Content.handleClipOffer (Content.failure "HTTP 500")).

(** 2023-11-14T22:13:20Z, the clock of the concrete runs. *)
Definition t0 : Z := 1700000000000.

(** An environment in which nobody stops the run. *)
Definition undisturbed (send : nat -> CouponOffer -> SendOutcome) : Env :=
  {| tabs_sendMessage := send;
     classifyTime := fun i => t0 + 1000 * Z.of_nat i + 300;
     mergeTime := fun i => t0 + 1000 * Z.of_nat i + 310;
     stopDuring := fun _ => None;
     finishTime := t0 + 60000 |}.

(** The same, with a stop message (carrying no final statistics) handled
    during the pass that starts at offer index [at_index]. *)
Definition stopped_at (at_index : nat)
           (send : nat -> CouponOffer -> SendOutcome) : Env :=
  {| tabs_sendMessage := send;
     classifyTime := fun i => t0 + 1000 * Z.of_nat i + 300;
     mergeTime := fun i => t0 + 1000 * Z.of_nat i + 310;
     stopDuring :=
       fun i => if Nat.eqb i at_index
                then Some (None, t0 + 1000 * Z.of_nat i + 900)
                else None;
     finishTime := t0 + 60000 |}.

(** Seven offers: three clipped, one already clipped and one skipped for
    [limit_exceeded] in the first batch; one failed and one skipped for
    [unknown] in the second. *)
Definition seven_outcomes (pos : nat) (_ : CouponOffer) : SendOutcome :=
  match pos with
  | 0 | 1 | 2 => reply_clipped
  | 3 => reply_already
  | 4 => reply_skipped LIMIT_EXCEEDED
  | 5 => reply_failed
  | _ => reply_skipped UNKNOWN
  end%nat.

Definition seven_offers : list CouponOffer :=
  [mkOffer 1; mkOffer 2; mkOffer 3; mkOffer 4; mkOffer 5; mkOffer 6;
   mkOffer 7].

Definition all_clipped (_ : nat) (_ : CouponOffer) : SendOutcome :=
  reply_clipped.

(** Every offer skipped with the reason [unknown]. *)
Definition all_unknown (_ : nat) (_ : CouponOffer) : SendOutcome :=
  reply_skipped UNKNOWN.

(** The first offer already clipped, the others newly clipped. *)
Definition already_then_clipped (pos : nat) (_ : CouponOffer)
  : SendOutcome :=
  match pos with
  | O => reply_already
  | S _ => reply_clipped
  end.

Definition day : Z := 86400000.

(** A stored clipped coupon with the given clip time. *)
Definition clipped_on (n : Z) (t : Z) : ClippedCoupon :=
  {| cc_offer := with_status (mkOffer n) "clipped";
     clippedDate := Date_toISOString t |}.

(** A stored coupon with the given text as its [clippedDate]. *)
Definition clipped_with_date (n : Z) (date : string) : ClippedCoupon :=
  {| cc_offer := with_status (mkOffer n) "clipped"; clippedDate := date |}.

(** A storage holding one coupon without a date and one whose date is
    not a date. *)
Definition odd_coupons : Storage.t :=
  Storage.set
    (Storage.patch_clipped
       [clipped_with_date 1 ""; clipped_with_date 2 "last week"])
    Storage.empty.

(** A storage holding one coupon clipped 100 days before [t0] and one
    clipped 10 days before. *)
Definition two_coupons : Storage.t :=
  Storage.set
    (Storage.patch_clipped
       [clipped_on 1 (t0 - 100 * day); clipped_on 2 (t0 - 10 * day)])
    Storage.empty.

(** A record of the skipped collection, for an offer that reached its
    limit at time [t]. *)
Definition skipped_on (n : Z) (t : Z) : SkippedCoupon :=
  {| sc_offer := with_status (mkOffer n) "skipped";
     skippedDate := Date_toISOString t;
     skipReason := SkipReason_value LIMIT_EXCEEDED;
     skipMessage := "Offer cannot be clipped" |}.




End Scenario.

(** ** Vocabulary of the properties *)

(** The classifier read as a priority list: a second formulation, by
    first match over a table of message patterns, that [classifyItem] is
    compared with. *)
Module ClassifierSpec.

Import Content.

Inductive Verdict :=
| Clipped
| AlreadyClipped
| Skipped (reasonText : string).

(** How a successful reply is read: skipped first, then already
    clipped, then clipped. *)
Definition read (r : ClipOfferResponse) : Verdict :=
  if Js.truthy_flag (wasSkipped r) then Skipped (Js.str_or (reason r) "")
  else if Js.truthy_flag (wasAlreadyClipped r) then AlreadyClipped
  else Clipped.

(** Some pattern of the list occurs in the message, with the same casing. *)
Definition mentions (msg : option string) (patterns : list string) : bool :=
  existsb (Js.opt_includes msg) patterns.

Definition expiry_patterns : list string :=
  ["not yet active"; "past expiry"; "shutoff date"]%string.

(** The rules applied to a status-0 item without clip id, in order. *)
Definition reason_rules : list (list string * SkipReason) :=
  [ (["region"; "store"], NOT_AVAILABLE_IN_STORE);
    (["limit"; "maximum"], LIMIT_EXCEEDED);
    (["qualify"; "eligible"], NOT_ELIGIBLE);
    (["display"; "promotional period"], DISPLAY_PERIOD_ENDED) ]%string.

Definition first_reason (msg : option string) : SkipReason :=
  match find (fun rule => mentions msg (fst rule)) reason_rules with
  | Some rule => snd rule
  | None => CANNOT_CLIP
  end.

Definition verdict (item : ClipItem) : Verdict :=
  let hasClip := Js.truthy_str (item_clipId item) in
  let msg := item_errorMsg item in
  if (item_status item =? 1) && hasClip then Clipped
  else if (item_status item =? 0) && hasClip
          && mentions msg ["already clipped"%string]
  then AlreadyClipped
  else if mentions msg expiry_patterns
  then Skipped (SkipReason_value EXPIRED_OR_INACTIVE)
  else if item_status item =? 0
  then if hasClip then Skipped (SkipReason_value UNKNOWN_WITH_CLIPID)
       else Skipped (SkipReason_value (first_reason msg))
  else Skipped (SkipReason_value UNEXPECTED_RESPONSE).

End ClassifierSpec.

(** The two merge loops of the scheduler are instances of one loop:
    append the record made from an item unless a record with the item's
    key is there already. *)
Module MergeSpec.

Section ByKey.

Variables (R X : Type) (key : R -> string) (key_of : X -> string)
          (make : X -> R).

Definition has_key (l : list R) (k : string) : bool :=
  existsb (fun r => String.eqb (key r) k) l.

Definition merge_step (acc : list R) (x : X) : list R :=
  if has_key acc (key_of x) then acc else acc ++ [make x].

Definition merge_by_key (existing : list R) (news : list X) : list R :=
  fold_left merge_step news existing.

End ByKey.

End MergeSpec.

(** Words for what a run does to the statistics and the collections. *)
Module RunSpec.

Import Background.

(** [s] after [n] more offers have been gone through. *)
Definition add_processed (n : nat) (s : ClippingStats) : ClippingStats :=
  {| total := total s; processed := processed s + Z.of_nat n;
     clipped := clipped s; alreadyClipped := alreadyClipped s;
     skipped := skipped s; failed := failed s |}.

(** The invariant the specification states for the statistics:
    [processed == clipped + alreadyClipped + skipped + failed]. *)
Definition stats_balanced (s : ClippingStats) : bool :=
  match clipped s, alreadyClipped s, skipped s, failed s with
  | Some c, Some a, Some k, Some f => processed s =? c + a + k + f
  | _, _, _, _ => false
  end.

(** The results whose offer goes to the clipped collection. *)
Definition counts_as_clipped (r : OfferResult) : bool :=
  r_success r
  && (Js.truthy_flag (r_wasAlreadyClipped r)
      || negb (Js.truthy_flag (r_wasSkipped r))).

(** The results that leave a record in the skipped collection. *)
Definition recorded_as_skipped (r : OfferResult) : bool :=
  r_success r
  && negb (Js.truthy_flag (r_wasAlreadyClipped r))
  && Js.truthy_flag (r_wasSkipped r)
  && is_permanent (Js.str_or (r_reason r) (SkipReason_value UNKNOWN)).

Definition skipped_record {host : HostDate} (now : Z) (r : OfferResult)
  : SkippedCoupon :=
  {| sc_offer := with_status (offer r) "skipped";
     skippedDate := Date_toISOString now;
     skipReason := Js.str_or (r_reason r) (SkipReason_value UNKNOWN);
     skipMessage := Js.str_or (r_errorMsg r) "No specific message" |}.

Definition clipped_record {host : HostDate} (now : Z) (o : CouponOffer)
  : ClippedCoupon :=
  {| cc_offer := with_status o "clipped";
     clippedDate := Date_toISOString now |}.

(** The stored collections, read as the scheduler reads them. *)
Definition stored_clipped (w : World) : list ClippedCoupon :=
  Storage.list_or_empty (Storage.clippedCoupons (storage w)).

Definition stored_skipped (w : World) : list SkippedCoupon :=
  Storage.list_or_empty (Storage.skippedCoupons (storage w)).

Definition stored_sessions (st : Storage.t) : list ClippingSession :=
  Storage.list_or_empty (Storage.clippingSessions st).

(** The records a collection holds under an identifier. *)
Definition clipped_under (i : string) (l : list ClippedCoupon)
  : list ClippedCoupon :=
  filter (fun c => String.eqb (id (cc_offer c)) i) l.

Definition skipped_under (i : string) (l : list SkippedCoupon)
  : list SkippedCoupon :=
  filter (fun c => String.eqb (id (sc_offer c)) i) l.

(** The results of the pass that starts at offer [i]. *)
Definition results_at (env : Env) (offers : list CouponOffer) (i : nat)
  : list OfferResult :=
  dispatch (tabs_sendMessage env) i (batch_at offers i).

(** The world in which the scheduler starts after the start command. *)
Definition started {host : HostDate} (now : Z) (offers : list CouponOffer)
           (w : World) : World :=
  snd (handleStartBackgroundClipping now SetOk (OfferList offers) w).




(** The retention cut-off of the start-up sweep, in milliseconds. *)
Definition retention_cutoff (now : Z) : Z :=
  now - 90 * 86400000.

End RunSpec.

(** ** The other commands of the background service worker

    [initializeExtension], [handleStartClipping], [handleUpdateStats],
    [updateBadgeProgress] and the message listener of the background
    script ([src/src/content.ts], lines 406-615). *)

(** [Math.round((processed / total) * 100)], computed by the host in
    floating point. *)
Class HostMath := {
  round_percentage : Z -> Z -> Z
}.

Module Commands.

Import Background.

Record UserPreferences := {
  clippingDelay : Z;
  maxConcurrentClips : Z
}.

(** The storage with the [userPreferences] key, which only
    [initializeExtension] writes. *)
Record InstallData := {
  userPreferences : option UserPreferences;
  others : Storage.t
}.

(** The value a key is given at installation: none when it exists. *)
Definition default_for {A} (existing : option A) (dflt : A) : option A :=
  match existing with
  | Some _ => None
  | None => Some dflt
  end.

(** [initializeExtension]; [cs] is the [clippingState] whose
    [currentStats] is the default of the [clippingStats] key. *)
Definition initializeExtension (cs : ClippingState) (d : InstallData)
  : InstallData :=
  {| userPreferences :=
       Storage.or_else
         (default_for (userPreferences d)
            {| clippingDelay := 1000; maxConcurrentClips := 3 |})
         (userPreferences d);
     others :=
       Storage.set
         {| Storage.clippedCoupons :=
              default_for (Storage.clippedCoupons (others d)) [];
            Storage.skippedCoupons := None;
            Storage.clippingStats :=
              default_for (Storage.clippingStats (others d))
                          (currentStats cs);
            Storage.clippingState := None;
            Storage.clippingSessions := None;
            Storage.lastClippingStart := None;
            Storage.lastClippingSession := None;
            Storage.availableCoupons := None |}
         (others d) |}.

(** The statistics sent with an ['updateClippingStats'] message: any
    subset of the keys of [ClippingStats]. *)
Record StatsPatch := {
  p_total : option Z;
  p_processed : option Z;
  p_clipped : option Z;
  p_alreadyClipped : option Z;
  p_skipped : option Z;
  p_failed : option Z
}.

Definition empty_patch : StatsPatch :=
  {| p_total := None; p_processed := None; p_clipped := None;
     p_alreadyClipped := None; p_skipped := None; p_failed := None |}.

Definition or_value (new : option Z) (old : Z) : Z :=
  match new with
  | Some v => v
  | None => old
  end.

(** [{ ...stats, ...patch }] *)
Definition spread (s : ClippingStats) (patch : StatsPatch) : ClippingStats :=
  {| total := or_value (p_total patch) (total s);
     processed := or_value (p_processed patch) (processed s);
     clipped := Storage.or_else (p_clipped patch) (clipped s);
     alreadyClipped :=
       Storage.or_else (p_alreadyClipped patch) (alreadyClipped s);
     skipped := Storage.or_else (p_skipped patch) (skipped s);
     failed := Storage.or_else (p_failed patch) (failed s) |}.

(** The patch that has the effect of [first] followed by [second]. *)
Definition patch_then (first second : StatsPatch) : StatsPatch :=
  {| p_total := Storage.or_else (p_total second) (p_total first);
     p_processed := Storage.or_else (p_processed second) (p_processed first);
     p_clipped := Storage.or_else (p_clipped second) (p_clipped first);
     p_alreadyClipped :=
       Storage.or_else (p_alreadyClipped second) (p_alreadyClipped first);
     p_skipped := Storage.or_else (p_skipped second) (p_skipped first);
     p_failed := Storage.or_else (p_failed second) (p_failed first) |}.

Section WithHost.

Context {host : HostDate}.

(** [handleStartClipping]: [messageStats] is [message.stats]. *)
Definition handleStartClipping (now : Z)
           (messageStats : option ClippingStats) (w : World)
  : MessageResponse * World :=
  let cs :=
    {| isActive := true;
       currentStats :=
         match messageStats with
         | Some s => s
         | None => currentStats (state w)
         end;
       startTime := Some now;
       lastActivity := lastActivity (state w) |} in
  ({| msg_success := true; msg_state := Some cs; msg_error := None |},
   {| state := cs;
      storage :=
        Storage.set (Storage.patch_start cs (Date_toISOString now))
                    (storage w);
      sent := sent w |}).

(** [handleUpdateStats]: [messageStats] is [message.stats]; the reply
    carries the merged statistics. *)
Definition handleUpdateStats (now : Z) (messageStats : option StatsPatch)
           (w : World) : ClippingStats * World :=
  let merged :=
    match messageStats with
    | Some patch => spread (currentStats (state w)) patch
    | None => currentStats (state w)
    end in
  let cs :=
    {| isActive := isActive (state w);
       currentStats := merged;
       startTime := startTime (state w);
       lastActivity := Some now |} in
  (merged,
   {| state := cs;
      storage := Storage.set (Storage.patch_progress merged cs) (storage w);
      sent := sent w |}).

(** The messages the listener of the background script tells apart by
    their [action]; [Unknown] stands for any other action. *)
Inductive Request :=
| StartClipping (messageStats : option ClippingStats)
| StopClipping (finalStats : option ClippingStats)
| UpdateClippingStats (messageStats : option StatsPatch)
| GetClippingState
| ShowNotification
| SyncData
| UpdateBadge
| StartBackgroundClipping (field : OffersField)
| Unknown (action : string).

Inductive Reply :=
| ReplyState (r : MessageResponse)
| ReplyStats (s : ClippingStats)
| ReplyData (data : Storage.t)
| ReplyOk
| ReplyError (message : string).

(** The listener: the reply and the state in which the handler leaves
    the worker; for [StartBackgroundClipping], the state it hands to
    the scheduler, whose run is [processOffersInBackground]. *)
Definition onMessage (now : Z) (request : Request) (w : World)
  : Reply * World :=
  match request with
  | StartClipping s =>
      let '(r, w') := handleStartClipping now s w in (ReplyState r, w')
  | StopClipping fs =>
      let '(r, w') := handleStopClipping fs now w in (ReplyState r, w')
  | UpdateClippingStats p =>
      let '(s, w') := handleUpdateStats now p w in (ReplyStats s, w')
  | GetClippingState =>
      (ReplyState {| msg_success := true; msg_state := Some (state w);
                     msg_error := None |}, w)
  | ShowNotification => (ReplyOk, w)
  | SyncData => (ReplyData (storage w), w)
  | UpdateBadge => (ReplyOk, w)
  | StartBackgroundClipping field =>
      let '(r, w') := handleStartBackgroundClipping now SetOk field w in
      (ReplyState r, w')
  | Unknown _ => (ReplyError "Unknown action", w)
  end.

End WithHost.

Section Sessions.

Context {host : HostDate}.

(** The session an undisturbed run over [offers], started at [now] and
    completed at [finished], leaves in the history. *)
Definition expected_session (now finished : Z) (offers : list CouponOffer)
  : ClippingSession :=
  {| session_id := Js.number_toString finished;
     session_date := Date_toISOString finished;
     session_stats :=
       {| total := Z.of_nat (length offers);
          processed := Z.of_nat (length offers);
          clipped := Some 0; alreadyClipped := Some 0;
          skipped := Some 0; failed := Some 0 |};
     duration := if now =? 0 then 0 else finished - now |}.

End Sessions.

(** The sessions the start-up clean-up keeps. *)
Definition startup_trim (sessions : list ClippingSession)
  : list ClippingSession :=
  if (100 <? length sessions)%nat
  then skipn (length sessions - 50) sessions
  else sessions.

(** The requests that only read. *)
Definition is_query (request : Request) : bool :=
  match request with
  | GetClippingState | ShowNotification | SyncData | UpdateBadge
  | Unknown _ => true
  | _ => false
  end.

(** The badge of the extension's icon. *)
Record Badge := {
  badge_text : string;
  badge_color : string
}.

(** [updateBadgeProgress]: [setBadgeText] and
    [setBadgeBackgroundColor] each replace one field of the badge. *)
Definition updateBadgeProgress {math : HostMath} (cs : ClippingState)
           (st : Storage.t) (badge : Badge) : Badge :=
  if isActive cs then
    if 0 <? total (currentStats cs) then
      {| badge_text :=
           String.append
             (Js.number_toString
                (round_percentage (processed (currentStats cs))
                                  (total (currentStats cs))))
             "%";
         badge_color := "#2563eb" |}
    else badge
  else
    match Storage.availableCoupons st, Storage.clippedCoupons st with
    | Some available, Some clippedCoupons =>
        if available =? 0
        then {| badge_text := ""; badge_color := badge_color badge |}
        else
          let skippedCount :=
            Z.of_nat (length (Storage.list_or_empty
                                (Storage.skippedCoupons st))) in
          let unclippedCount :=
            available - Z.of_nat (length clippedCoupons) - skippedCount in
          if 0 <? unclippedCount
          then {| badge_text := Js.number_toString unclippedCount;
                  badge_color := "#16a34a" |}
          else {| badge_text := ""; badge_color := badge_color badge |}
    | _, _ => {| badge_text := ""; badge_color := badge_color badge |}
    end.

End Commands.

(** ** The worker under message traffic

    A run of [processOffersInBackground] gives way at every [await],
    and the listener can handle any message in between: a stop, but
    also an update of the statistics or another start, which leaves
    the earlier call running.  Here the calls in progress are kept
    beside the worker's state, and a schedule says which one goes on
    next and which messages are handled when.  A pass is one event.
    A stop or a query handled while the pass is awaited is placed
    after it, as the stop message of [deliver]: the pass reads
    [isActive] nowhere and no handler touches the sent messages or the
    two coupon collections.  An update of the statistics or a start
    handled while the pass is awaited is placed before it: the pass
    counts on the statistics it finds when the replies are in.  The
    states described are those between two events, when no batch is
    waiting for its replies; the first pass of a run, which the start
    handler enters before it replies, is the first time its call goes
    on. *)

Module Traffic.

Import Background Commands.

(** A call of [processOffersInBackground] that has not returned: what
    happens around it, its offers and its loop variable [i]. *)
Record Run := {
  surroundings : Env;
  run_offers : list CouponOffer;
  position : nat
}.

(** The worker between two events, with the calls in progress, oldest
    first. *)
Record Worker := {
  world : World;
  runs : list Run
}.

(** The listener handles a message at [now] ([env] is what will
    happen around the run, when the message starts one), or the call
    of rank [k] among those in progress goes on. *)
Inductive Event :=
| Handles (now : Z) (request : Request) (env : Env)
| Resumes (k : nat).

(** The list of calls after the one of rank [k] has gone on: replaced
    by its next stage, or removed when it has returned. *)
Fixpoint update_run (k : nat) (next : option Run) (l : list Run)
  : list Run :=
  match l, k with
  | [], _ => []
  | _ :: rest, O =>
      match next with
      | Some r => r :: rest
      | None => rest
      end
  | r :: rest, S k' => r :: update_run k' next rest
  end.

Section WithHost.

Context {host : HostDate}.

(** What [processOffersInBackground] does after its loop. *)
Definition complete (env : Env) (w1 : World) : World :=
  if isActive (state w1) then
    let cs := set_active (state w1) false in
    let st1 :=
      saveClippingSession (finishTime env) cs (currentStats cs)
                          (storage w1) in
    {| state := cs;
       storage := Storage.set (Storage.patch_state cs) st1;
       sent := sent w1 |}
  else w1.

(** A call goes on: it evaluates the condition of its loop, and goes
    through one more pass or leaves the loop and completes. *)
Definition resume (r : Run) (w : World) : World * option Run :=
  if (position r <? length (run_offers r))%nat && isActive (state w)
  then (iteration (surroundings r) (run_offers r) (position r) w,
        Some {| surroundings := surroundings r;
                run_offers := run_offers r;
                position := (position r + BATCH_SIZE CONFIG)%nat |})
  else (complete (surroundings r) w, None).

Definition step (wk : Worker) (e : Event) : Worker :=
  match e with
  | Handles now request env =>
      {| world := snd (onMessage now request (world wk));
         runs :=
           match request with
           | StartBackgroundClipping (OfferList offers) =>
               runs wk ++ [ {| surroundings := env;
                               run_offers := offers;
                               position := 0 |} ]
           | _ => runs wk
           end |}
  | Resumes k =>
      match nth_error (runs wk) k with
      | Some r =>
          let '(w', next) := resume r (world wk) in
          {| world := w'; runs := update_run k next (runs wk) |}
      | None => wk
      end
  end.

(** The worker after the events of a schedule, in order. *)
Definition after (events : list Event) (wk : Worker) : Worker :=
  fold_left step events wk.

(** The worker once it has handled the start command of a run, no
    other call being in progress. *)
Definition begun (now : Z) (env : Env) (offers : list CouponOffer)
           (w : World) : Worker :=
  step {| world := w; runs := [] |}
       (Handles now (StartBackgroundClipping (OfferList offers)) env).

End WithHost.

(** The requests whose handler replaces the statistics or sets the
    flag: the two starts and the update of the statistics. *)
Definition rewrites_run (request : Request) : bool :=
  match request with
  | StartClipping _ | UpdateClippingStats _ | StartBackgroundClipping _ =>
      true
  | _ => false
  end.

Definition leaves_run_alone (e : Event) : bool :=
  match e with
  | Handles _ request _ => negb (rewrites_run request)
  | Resumes _ => true
  end.



(** The schedule of a run around which only stop messages arrive, as
    [Env] has them: the call goes on; a stop that arrives during the
    pass at [i] is handled after it, and the call then leaves its
    loop; [n] bounds the number of passes. *)
Fixpoint script (env : Env) (offers : list CouponOffer) (i n : nat)
  : list Event :=
  match n with
  | O => []
  | S n' =>
      if (i <? length offers)%nat then
        Resumes 0 ::
        match stopDuring env i with
        | Some (finalStats, now) =>
            [Handles now (StopClipping finalStats) env; Resumes 0]
        | None => script env offers (i + BATCH_SIZE CONFIG) n'
        end
      else [Resumes 0]
  end.


End Traffic.


(** ** The content script: rate limiting and the offer gallery

    [rateLimit] and [fetchAllOffers] of [src/src/content.ts] (lines
    30-40 and 98-203), with the reply of [handleGetOffers]. *)

Module ContentScript.

Definition RATE_LIMIT_MS : Z := 1000.

(** The [waitTime] of a call of [rateLimit] that reads the clock at
    [now] while [lastApiCall] is [last]; 0 when the call goes on
    without waiting. *)
Definition waitTime (now last : Z) : Z :=
  let timeSinceLastCall := now - last in
  if timeSinceLastCall <? RATE_LIMIT_MS
  then RATE_LIMIT_MS - timeSinceLastCall
  else 0.

(** [rateLimit]: the second reading of the clock, which the call
    stores in [lastApiCall] before it returns. The timer fires [late]
    milliseconds after the requested delay. *)
Definition rateLimit (now late last : Z) : Z :=
  now + waitTime now last + late.

(** An element of [data.companionGalleryOffer], with the fields that
    reach the kept fields of [CouponOffer]. *)
Record GalleryOffer := {
  offerId : string;
  name : option string;
  description : option string;
  offerPgm : option string;
  g_status : option string;
  g_clipId : option string;
  g_clipTs : option string
}.

(** The [companionGalleryOffer] field of the response: absent (or
    falsy), an array, an object (given by its values), or another
    truthy value. *)
Inductive GalleryField :=
| Absent
| AnArray (elements : list GalleryOffer)
| AnObject (values : list GalleryOffer)
| AnotherValue.

Definition offers_of (field : GalleryField) : list GalleryOffer :=
  match field with
  | AnArray elements => elements
  | AnObject values => values
  | Absent | AnotherValue => []
  end.

(** [[J4U, PD, MF, SC].includes(offer.offerPgm)] *)
Definition clippable_programs : list string :=
  ["J4U"; "PD"; "MF"; "SC"]%string.

Definition is_clippable (offer : GalleryOffer) : bool :=
  match offerPgm offer with
  | Some p => existsb (String.eqb p) clippable_programs
  | None => false
  end.

Definition raw_of (offer : GalleryOffer) : RawOffer :=
  {| raw_status := g_status offer;
     raw_clipId := g_clipId offer;
     raw_clipTs := g_clipTs offer |}.

(** The object built for an offer that passed the filter (so that
    [offerPgm] is a string). *)
Definition toCouponOffer (offer : GalleryOffer) : CouponOffer :=
  {| id := offerId offer;
     title :=
       Js.str_or (Content.first_truthy (name offer) (description offer))
                 "Unknown offer";
     program := match offerPgm offer with Some p => p | None => "" end;
     status := Some (Js.str_or (g_status offer) "");
     clipId := Some (Js.str_or (g_clipId offer) "");
     clipTs := Some (Js.str_or (g_clipTs offer) "");
     originalOffer := Some (raw_of offer) |}.

(** What the body of the [try] of [fetchAllOffers] meets: something
    throws ([fetch], [response.json()], or the reading of a response
    whose offers are not the records the provider sends, such as a
    [null] element), the response is not OK, or the response is read
    and holds the field. *)
Inductive GalleryOutcome :=
| GalleryThrows (thrown : option string)
| GalleryNotOk (code : Z)
| GalleryOk (field : GalleryField).

(** The message built in the [catch] of [fetchAllOffers]; [thrown] is
    the message of the caught value when it is an [Error]. *)
Definition loadError (thrown : option string) : string :=
  String.append "Failed to load coupons"
    match thrown with
    | Some message =>
        if Js.includes message "Failed to fetch" then " (network error)"
        else if Js.includes message "401" || Js.includes message "403"
        then " (please refresh page)"
        else ""
    | None => ""
    end.

Inductive Fetched :=
| Offers (offers : list CouponOffer)
| Throws (message : string).

(** How [getAuthHeaders()] ends: with the headers and the store, with
    [null] (the token or the store is missing), or by throwing:
    [decodeURIComponent], which it calls outside every [try], throws a
    [URIError] on a cookie value with a malformed percent escape;
    [uriError] is its message, the host's. *)
Inductive AuthOutcome :=
| Authenticated
| NotAuthenticated
| AuthThrows (uriError : string).

(** [fetchAllOffers]: [getAuthHeaders()] is called before the [try],
    so what it throws leaves [fetchAllOffers] as it is. *)
Definition fetchAllOffers (auth : AuthOutcome) (net : GalleryOutcome)
  : Fetched :=
  match auth with
  | AuthThrows uriError => Throws uriError
  | NotAuthenticated => Throws "No authentication available"
  | Authenticated =>
      match net with
      | GalleryThrows thrown => Throws (loadError thrown)
      | GalleryNotOk code =>
          Throws (loadError
                    (Some (String.append "HTTP "
                                         (Js.number_toString code))))
      | GalleryOk field =>
          Offers (map toCouponOffer (filter is_clippable (offers_of field)))
      end
  end.

(** The reply of [handleGetOffers]: the offers, or the error. *)
Record OffersReply := {
  or_success : bool;
  or_offers : list CouponOffer;
  or_error : option string
}.

Definition handleGetOffers (auth : AuthOutcome) (net : GalleryOutcome)
  : OffersReply :=
  match fetchAllOffers auth net with
  | Offers offers =>
      {| or_success := true; or_offers := offers; or_error := None |}
  | Throws message =>
      {| or_success := false; or_offers := []; or_error := Some message |}
  end.

End ContentScript.

(** ** The first version of the content script

    [clipOffer] and the tally of [clipAllCoupons] of
    [src/content.js] (lines 148-202 and 306-406). *)

Module Legacy.

(** The chain over [item] in the first [clipOffer]. *)
Definition classifyItem (item : Content.ClipItem) : ClipOfferResponse :=
  let st := Content.item_status item in
  let hasClip := Js.truthy_str (Content.item_clipId item) in
  let msg := Content.item_errorMsg item in
  if (st =? 1) && hasClip then Content.clip_done false
  else if (st =? 0) && hasClip && Js.opt_includes msg "already clipped"
  then Content.clip_done true
  else if Js.opt_includes msg "not yet active"
          || Js.opt_includes msg "past expiry"
  then {| success := true; wasAlreadyClipped := None;
          wasSkipped := Some true;
          reason := Some "expired_or_inactive"%string;
          errorMsg := None; error := None;
          resp_clipId := None; resp_clipTs := None |}
  else Content.failure (Js.str_or msg "Unknown error").

(** [{ success: false, error: error.message }] *)
Definition thrown_failure (thrown : option string) : ClipOfferResponse :=
  {| success := false; wasAlreadyClipped := None; wasSkipped := None;
     reason := None; errorMsg := None; error := thrown;
     resp_clipId := None; resp_clipTs := None |}.

Definition clipOffer (authenticated : bool) (net : Content.FetchOutcome)
  : ClipOfferResponse :=
  if negb authenticated then Content.failure "No authentication"
  else match net with
       | Content.FetchThrows thrown => thrown_failure thrown
       | Content.HttpNotOk code =>
           Content.failure (String.append "HTTP " (Js.number_toString code))
       | Content.HttpOk (Some (item :: _)) => classifyItem item
       | Content.HttpOk _ => Content.failure "No items in response"
       end.






End Legacy.

(** ** The popup

    [startClipping] (lines 428-490) and the pagination of the coupon
    table (lines 634-672 and 937-1049) of [src/src/popup.ts]. *)

Module Popup.

Definition ITEMS_PER_PAGE : Z := 8.
Definition MAX_VISIBLE_PAGES : Z := 5.

(** [(offer.originalOffer || offer).status] *)
Definition provider_status (offer : CouponOffer) : option string :=
  match originalOffer offer with
  | Some raw => raw_status raw
  | None => status offer
  end.

(** [originalOffer.status === 'C'] *)
Definition status_is_clipped (offer : CouponOffer) : bool :=
  match provider_status offer with
  | Some s => String.eqb s "C"
  | None => false
  end.

(** [this.myClippedCoupons.some(clipped => clipped.id === offer.id)] *)
Definition alreadyInMyClipped (mine : list ClippedCoupon)
           (offer : CouponOffer) : bool :=
  existsb (fun c => String.eqb (id (cc_offer c)) (id offer)) mine.

(** The coupon pushed for an offer the provider reports as clipped;
    [iso] is [new Date().toISOString()] at that moment. *)
Definition asClipped (iso : string) (offer : CouponOffer) : ClippedCoupon :=
  {| cc_offer :=
       {| id := id offer; title := title offer; program := program offer;
          status := Some "clipped"%string;
          clipId := match originalOffer offer with
                    | Some raw => raw_clipId raw
                    | None => clipId offer
                    end;
          clipTs := match originalOffer offer with
                    | Some raw => raw_clipTs raw
                    | None => clipTs offer
                    end;
          originalOffer := originalOffer offer |};
     clippedDate := iso |}.

(** The pushes of the loop over [alreadyClippedOffers]; [clock k] is
    the date read at the push of index [k]. *)
Fixpoint pushed (clock : nat -> string) (k : nat)
         (offers : list CouponOffer) : list ClippedCoupon :=
  match offers with
  | [] => []
  | offer :: rest => asClipped (clock k) offer :: pushed clock (S k) rest
  end.

(** What [startClipping] does before it hears from the background:
    the new [myClippedCoupons], the list written to the
    [clippedCoupons] key (if any), and the offers of the
    ['startBackgroundClipping'] message (if one is sent). *)
Record Started := {
  myClippedCoupons : list ClippedCoupon;
  stored : option (list ClippedCoupon);
  message : option (list CouponOffer)
}.

Definition startClipping (clock : nat -> string)
           (allOffers : list CouponOffer) (mine : list ClippedCoupon)
  : Started :=
  let unclippedOffers :=
    filter (fun offer => negb (status_is_clipped offer)) allOffers in
  let alreadyClippedOffers :=
    filter (fun offer => negb (alreadyInMyClipped mine offer)
                         && status_is_clipped offer) allOffers in
  let mine' := mine ++ pushed clock 0 alreadyClippedOffers in
  {| myClippedCoupons := mine';
     stored := match alreadyClippedOffers with
               | [] => None
               | _ => Some mine'
               end;
     message := match unclippedOffers with
                | [] => None
                | _ => Some unclippedOffers
                end |}.

(** [Array.prototype.slice(start, end)] *)
Definition slice {A} (l : list A) (first last : Z) : list A :=
  let len := Z.of_nat (length l) in
  let from := if first <? 0 then Z.max (len + first) 0 else Z.min first len in
  let to := if last <? 0 then Z.max (len + last) 0 else Z.min last len in
  firstn (Z.to_nat (to - from)) (skipn (Z.to_nat from) l).

(** [Math.ceil(n / ITEMS_PER_PAGE)] for a length [n]. *)
Definition totalPages (n : nat) : Z :=
  (Z.of_nat n + ITEMS_PER_PAGE - 1) / ITEMS_PER_PAGE.

(** [paginatedCoupons] in [displayMyCouponsWithSearch]. *)
Definition paginatedCoupons {A} (currentPage : Z) (coupons : list A)
  : list A :=
  let startIndex := (currentPage - 1) * ITEMS_PER_PAGE in
  let endIndex := startIndex + ITEMS_PER_PAGE in
  slice coupons startIndex endIndex.

(** [previousPage], [nextPage] and [goToPage] on [currentPage];
    [filtered] is the length of [getFilteredCoupons()]. *)
Definition previousPage (currentPage : Z) : Z :=
  if 1 <? currentPage then currentPage - 1 else currentPage.

Definition nextPage (filtered : nat) (currentPage : Z) : Z :=
  if currentPage <? totalPages filtered then currentPage + 1
  else currentPage.

Definition goToPage (filtered : nat) (page currentPage : Z) : Z :=
  if (1 <=? page) && (page <=? totalPages filtered) then page
  else currentPage.

(** The page numbers of the buttons built by [updatePagination], as
    the first and the last one. *)
Definition pageNumbers (currentPage pages : Z) : Z * Z :=
  if 1 <? pages then
    let maxPagesToShow := MAX_VISIBLE_PAGES in
    let startPage := Z.max 1 (currentPage - maxPagesToShow / 2) in
    let endPage := Z.min pages (startPage + maxPagesToShow - 1) in
    let startPage :=
      if endPage - startPage + 1 <? maxPagesToShow
      then Z.max 1 (endPage - maxPagesToShow + 1)
      else startPage in
    (startPage, endPage)
  else (1, 1).

End Popup.

(** ** [utils.ts] *)

Module Utils.

(** [truncateText]; [text.substring(0, n)] keeps the first [n]
    characters, none when [n] is negative. *)
Definition truncateText (text : string) (maxLength : Z) : string :=
  if Z.of_nat (String.length text) <=? maxLength then text
  else String.append (String.substring 0 (Z.to_nat (maxLength - 3)) text)
                     "...".

(** The date fields of an offer read by [isDisplayPeriodEnded]. *)
Record OfferDates := {
  displayEndDate : option string;
  offerEndDate : option string;
  validTo : option string
}.

(** [now <= date] on the time values: false for an invalid date. *)
Definition not_after (now : Z) (date : option Z) : bool :=
  match date with
  | Some t => now <=? t
  | None => false
  end.

Section WithHost.

Context {host : HostDate}.

(** [new Date(s)] for a string that is present. *)
Definition date_of (s : option string) : option Z :=
  match s with
  | Some text => Date_parse text
  | None => None
  end.

(** [isDisplayPeriodEnded], evaluated at time [now]. *)
Definition isDisplayPeriodEnded (now : Z) (offer : OfferDates) : bool :=
  let displayEndDateStr := displayEndDate offer in
  let offerEndDateStr :=
    Content.first_truthy (offerEndDate offer) (validTo offer) in
  if negb (Js.truthy_str displayEndDateStr) then false
  else if not_after now (date_of displayEndDateStr) then false
  else if negb (Js.truthy_str offerEndDateStr) then true
  else not_after now (date_of offerEndDateStr).

End WithHost.

(** The characters removed by [trim], among the code units below
    256: tab to carriage return, space and no-break space. *)
Definition is_space (c : ascii) : bool :=
  let n := nat_of_ascii c in
  ((9 <=? n) && (n <=? 13) || (n =? 32) || (n =? 160))%nat.

(** Truthiness of [s.trim()]. *)
Fixpoint has_visible (s : string) : bool :=
  match s with
  | EmptyString => false
  | String c rest => negb (is_space c) || has_visible rest
  end.

(** The image fields of an offer. *)
Record OfferImages := {
  imageId : option string;
  imageUrl : option string;
  largeImageUrl : option string;
  smallImageUrl : option string
}.

(** [getDisplayImageUrl]; [None] is [null]. *)
Definition getDisplayImageUrl (offer : OfferImages) : option string :=
  let fallback :=
    if Js.opt_includes (imageUrl offer) "images.albertsons-media.com"
    then imageUrl offer
    else if Js.truthy_str (largeImageUrl offer) then largeImageUrl offer
    else if Js.truthy_str (smallImageUrl offer) then smallImageUrl offer
    else if Js.truthy_str (imageUrl offer) then imageUrl offer
    else None in
  match imageId offer with
  | Some i =>
      if has_visible i
      then Some (String.append
                   "https://images.albertsons-media.com/is/image/ABS/"
                   (String.append i
                      "?$ecom-product-card-desktop-jpg$&defaultImage=Not_Available"))
      else fallback
  | None => fallback
  end.

End Utils.

(** ** Further concrete runs *)

Module MoreScenarios.

Import Background.

#[local] Existing Instance IsoDate.host.

(** A reply without success whose error is the given text. *)
Definition reply_error (message : string) : SendOutcome :=
  Resolved (Content.handleClipOffer (Content.failure message)).

Definition all_failed (_ : nat) (_ : CouponOffer) : SendOutcome :=
  Scenario.reply_failed.

Definition all_past_expiry (_ : nat) (_ : CouponOffer) : SendOutcome :=
  reply_error "Offer is past expiry date".

(** A list that names offer 1 twice. *)
Definition repeated_offers : list CouponOffer :=
  [Scenario.mkOffer 1; Scenario.mkOffer 1; Scenario.mkOffer 2].

(** The worker after the first pass of a run over thirteen offers. *)
Definition after_first_pass : World :=
  iteration (Scenario.undisturbed Scenario.all_clipped)
            (Scenario.offers_upto 13) 0
            (RunSpec.started Scenario.t0 (Scenario.offers_upto 13)
                             initialWorld).


End MoreScenarios.

(** ** The two scripts together *)

Module Pipeline.

(** [chrome.tabs.sendMessage] to a tab that runs the content script:
    the reply of its listener to a ['clipOffer'] message, with the
    credentials and the network as they are when the message at
    position [pos] is handled. *)
Definition content_tab (authenticated : nat -> bool)
           (net : nat -> Content.FetchOutcome)
           (pos : nat) (o : CouponOffer) : Background.SendOutcome :=
  Background.Resolved
    (Content.handleClipOffer
       (Content.clipOffer (authenticated pos) (net pos) o)).

(** A provider that accepts every clip. *)
Definition accepted : Content.FetchOutcome :=
  Content.HttpOk
    (Some [ {| Content.item_status := 1;
               Content.item_clipId := Some "clip-1"%string;
               Content.item_errorMsg := None |} ]).

(** A gallery offer the provider reports as clipped. *)
Definition clipped_in_gallery : ContentScript.GalleryOffer :=
  {| ContentScript.offerId := "1001";
     ContentScript.name := Some "Two dollars off"%string;
     ContentScript.description := None;
     ContentScript.offerPgm := Some "MF"%string;
     ContentScript.g_status := Some "C"%string;
     ContentScript.g_clipId := Some "clip-77"%string;
     ContentScript.g_clipTs := Some "1699999000000"%string |}.

End Pipeline.
(** * Properties *)

(** ** Strings *)

Lemma prefix_append (p rest : string) :
  String.prefix p (String.append p rest) = true.
Proof.
  induction p as [|a p IH]; simpl.
  - now destruct rest.
  - destruct (Ascii.ascii_dec a a) as [_|ne]; [exact IH | congruence].
Qed.

Lemma includes_append (before pat after : string) :
  Js.includes (String.append before (String.append pat after)) pat = true.
Proof.
  induction before as [|a before IH].
  - simpl String.append at 1.
    destruct pat as [|c pat]; [destruct after; reflexivity|].
    cbn [String.append Js.includes].
    change (String c (String.append pat after))
      with (String.append (String c pat) after).
    now rewrite prefix_append.
  - cbn [String.append Js.includes]. rewrite IH.
    now destruct (String.prefix pat _).
Qed.

(** ** The classifier *)

Module ClassifierProps.

Import Content ClassifierSpec.

Ltac split_conditions :=
  repeat match goal with
         | |- context [if ?b then _ else _] =>
             destruct b eqn:?; cbn [andb orb negb] in *;
             try reflexivity; try discriminate
         | |- context [?a || _] => destruct a eqn:?; cbn [andb orb negb] in *
         | |- context [?a && _] => destruct a eqn:?; cbn [andb orb negb] in *
         end.

Lemma first_reason_chain (msg : option string) :
  first_reason msg = cannot_clip_reason msg.
Proof.
  unfold first_reason, cannot_clip_reason, reason_rules, mentions.
  cbn [find fst snd existsb].
  rewrite !orb_false_r.
  split_conditions; reflexivity.
Qed.

Lemma classifyItem_read (item : ClipItem) :
  read (classifyItem item) = verdict item.
Proof.
  unfold verdict, classifyItem, mentions, expiry_patterns.
  rewrite <- first_reason_chain.
  cbn [existsb]. rewrite !orb_false_r, orb_assoc.
  destruct (item_status item =? 1), (item_status item =? 0),
    (Js.truthy_str (item_clipId item)); cbn [andb orb negb];
    split_conditions; try reflexivity.
  all: destruct (first_reason _); reflexivity.
Qed.

Lemma classifyItem_succeeds (item : ClipItem) :
  success (classifyItem item) = true /\ error (classifyItem item) = None.
Proof.
  unfold classifyItem.
  split_conditions; split; reflexivity.
Qed.

(** Counterexample to C4 as stated: a status-0 item without clip id whose
    message says "PAST EXPIRY" in capitals is classified [cannot_clip],
    not [expired_or_inactive]; and a status-0 item with a clip id whose
    message mentions the store is [unknown_with_clipid], not
    [not_available_in_store]. *)
Lemma C4_casing_counterexample :
  read (classifyItem {| item_status := 0; item_clipId := None;
                        item_errorMsg := Some "Offer is PAST EXPIRY"%string |})
  = Skipped (SkipReason_value CANNOT_CLIP)
  /\ read (classifyItem {| item_status := 0;
                           item_clipId := Some "c-1"%string;
                           item_errorMsg :=
                             Some "not valid in your store"%string |})
     = Skipped (SkipReason_value UNKNOWN_WITH_CLIPID).
Proof.
  split; vm_compute; reflexivity.
Qed.

(** C4, amended: the classifier always answers with a successful reply,
    which reads as the verdict of the priority list [verdict] (clipped;
    already clipped; the expiry patterns; for status 0 without clip id
    the store, limit, eligibility and display rules in that order, else
    [cannot_clip]; for status 0 with a clip id [unknown_with_clipid];
    else [unexpected_response]), patterns being matched with their exact
    casing; and a message that contains "past expiry" in lower case is
    [expired_or_inactive] unless one of the first two rules applies. *)
Theorem C4_classifier_priority_list :
  (forall item : ClipItem,
      success (classifyItem item) = true
      /\ read (classifyItem item) = verdict item)
  /\ (forall (st : Z) (cid : option string) (before after : string),
         let item :=
           {| item_status := st; item_clipId := cid;
              item_errorMsg :=
                Some (String.append before
                        (String.append "past expiry" after)) |} in
         read (classifyItem item) =
         if (st =? 1) && Js.truthy_str cid then Clipped
         else if (st =? 0) && Js.truthy_str cid
                 && Js.opt_includes (item_errorMsg item) "already clipped"
         then AlreadyClipped
         else Skipped (SkipReason_value EXPIRED_OR_INACTIVE)).
Proof.
  split.
  - intro item. split.
    + apply classifyItem_succeeds.
    + apply classifyItem_read.
  - intros st cid before after item.
    rewrite classifyItem_read. subst item.
    unfold verdict, mentions, expiry_patterns.
    cbn [existsb item_status item_clipId item_errorMsg].
    assert (Hpe : Js.opt_includes
                    (Some (String.append before
                             (String.append "past expiry" after)))
                    "past expiry" = true)
      by apply includes_append.
    rewrite Hpe, orb_false_r, orb_true_r.
    destruct ((st =? 1) && Js.truthy_str cid); [reflexivity|].
    now destruct ((st =? 0) && Js.truthy_str cid && _).
Qed.

(** [clipOffer] answers with a failure exactly for the transport-level
    cases: the offer is not already clipped, and there is no
    authentication, the request throws, the HTTP status is not ok, or
    the response carries no item. *)
Theorem clipOffer_fails_only_in_transport authenticated net offer :
  success (clipOffer authenticated net offer) = false
  <-> isOfferAlreadyClipped offer = false
      /\ (authenticated = false
          \/ match net with
             | HttpOk (Some (_ :: _)) => False
             | _ => True
             end).
Proof.
  unfold clipOffer.
  destruct (isOfferAlreadyClipped offer); cbn [success].
  - split; [discriminate | intros [H _]; discriminate].
  - destruct authenticated; cbn [negb].
    + destruct net as [thrown|code|[[|item items]|]]; cbn [success failure];
        try (split; [intros _; split; [reflexivity | right; exact I]
                    | reflexivity]).
      destruct (classifyItem_succeeds item) as [-> _].
      split; [discriminate | intros [_ [H | []]]; discriminate].
    + split; [intros _; split; [reflexivity | now left] | reflexivity].
Qed.

(** A reply produced by the classifier reaches the scheduler's results
    as it is: it is successful and, when skipped, carries a reason that
    is neither missing nor ['unknown'], so the scheduler rewrites
    nothing in it. *)
Theorem classifier_reply_is_kept (o : CouponOffer) (item : ClipItem) :
  let reply := handleClipOffer (classifyItem item) in
  let r := Background.toResult o (Background.Resolved reply) in
  Background.r_success r = true
  /\ Background.r_wasSkipped r = wasSkipped reply
  /\ Background.r_wasAlreadyClipped r = wasAlreadyClipped reply
  /\ Background.r_reason r = reason reply
  /\ Background.r_errorMsg r = errorMsg reply.
Proof.
  cbv zeta. unfold Background.toResult, handleClipOffer.
  cbn [success wasSkipped wasAlreadyClipped reason errorMsg error].
  destruct (classifyItem_succeeds item) as [Hok _]. rewrite Hok.
  cbn [negb andb].
  assert (Hshape :
    (exists b, classifyItem item = clip_done b)
    \/ (exists r msg, r <> UNKNOWN /\ classifyItem item = skip r msg)).
  { unfold classifyItem, cannot_clip_reason.
    repeat match goal with
           | |- context [if ?b then _ else _] => destruct b
           end;
      try (left; eexists; reflexivity);
      right; do 2 eexists; (split; [|reflexivity]); discriminate. }
  assert (Hreason :
    Js.truthy_flag (wasSkipped (classifyItem item))
    && (negb (Js.truthy_str (reason (classifyItem item)))
        || Background.is_unknown (reason (classifyItem item))) = false).
  { destruct Hshape as [[b ->] | [r [msg [Hr ->]]]]; [reflexivity|].
    destruct r; try reflexivity. now elim Hr. }
  rewrite Hreason, andb_false_r.
  cbn [andb Background.r_success Background.r_wasSkipped
       Background.r_wasAlreadyClipped Background.r_reason
       Background.r_errorMsg].
  repeat split.
Qed.

End ClassifierProps.

(** ** Lists *)

Lemma firstn_plus {A} (a k : nat) (l : list A) :
  firstn (a + k) l = firstn a l ++ firstn k (skipn a l).
Proof.
  revert l. induction a as [|a IH]; intro l.
  - reflexivity.
  - destruct l as [|x l]; simpl.
    + now rewrite firstn_nil.
    + now rewrite IH.
Qed.

Lemma skipn_plus {A} (a b : nat) (l : list A) :
  skipn (a + b) l = skipn b (skipn a l).
Proof.
  revert l. induction a as [|a IH]; intro l.
  - reflexivity.
  - destruct l as [|x l]; simpl.
    + now rewrite skipn_nil.
    + apply IH.
Qed.

Lemma filter_same_length {A} (f : A -> bool) (l : list A) :
  length (filter f l) = length l -> filter f l = l.
Proof.
  induction l as [|x l IH]; simpl; intro H.
  - reflexivity.
  - destruct (f x); simpl in H.
    + f_equal. apply IH. lia.
    + pose proof (filter_length_le f l). lia.
Qed.

Lemma NoDup_map_filter {A B} (key : A -> B) (p : A -> bool) (l : list A) :
  NoDup (map key l) -> NoDup (map key (filter p l)).
Proof.
  induction l as [|x l IH]; simpl; intro H.
  - constructor.
  - inversion H as [|? ? Hnot Hrest]; subst.
    destruct (p x); simpl; [constructor|]; auto.
    intro Hin. apply Hnot.
    apply in_map_iff in Hin. destruct Hin as [y [Hy Hin]].
    apply filter_In in Hin. apply in_map_iff. exists y. tauto.
Qed.

(** ** Merging by identifier *)

Section MergeByKey.

Import MergeSpec.

Variables (R X : Type) (key : R -> string) (key_of : X -> string)
          (make : X -> R).
Hypothesis make_key : forall x, key (make x) = key_of x.

Abbreviation has := (has_key R key).
Abbreviation step := (merge_step R X key key_of make).
Abbreviation merge := (merge_by_key R X key key_of make).

Lemma has_app l1 l2 k : has (l1 ++ l2) k = has l1 k || has l2 k.
Proof. apply existsb_app. Qed.

Lemma merge_cons existing x news :
  merge existing (x :: news) = merge (step existing x) news.
Proof. reflexivity. Qed.

Lemma merge_extends existing news :
  exists added, merge existing news = existing ++ added
                /\ forall r, In r added -> exists x, In x news /\ r = make x.
Proof.
  revert existing. induction news as [|x news IH]; intro existing.
  - exists []. split; [now rewrite app_nil_r | intros r []].
  - rewrite merge_cons.
    destruct (IH (step existing x)) as [added [Heq Hadded]].
    unfold merge_step in *. destruct (has existing (key_of x)).
    + exists added. split; [exact Heq|].
      intros r Hr. destruct (Hadded r Hr) as [y [Hy ->]].
      exists y. split; [now right | reflexivity].
    + exists (make x :: added). split.
      * now rewrite Heq, <- app_assoc.
      * intros r [<- | Hr].
        -- exists x. split; [now left | reflexivity].
        -- destruct (Hadded r Hr) as [y [Hy ->]].
           exists y. split; [now right | reflexivity].
Qed.

Lemma merge_keeps_key existing news k :
  has existing k = true -> has (merge existing news) k = true.
Proof.
  intro H. destruct (merge_extends existing news) as [added [-> _]].
  now rewrite has_app, H.
Qed.

Lemma merge_covers existing news x :
  In x news -> has (merge existing news) (key_of x) = true.
Proof.
  revert existing. induction news as [|y news IH]; intros existing Hin.
  - destruct Hin.
  - rewrite merge_cons.
    destruct Hin as [-> | Hin]; [|now apply IH].
    apply merge_keeps_key. unfold merge_step.
    destruct (has existing (key_of x)) eqn:E; [exact E|].
    rewrite has_app. unfold has_key at 2. simpl.
    now rewrite make_key, String.eqb_refl, orb_true_r.
Qed.

Lemma merge_present existing news :
  (forall x, In x news -> has existing (key_of x) = true) ->
  merge existing news = existing.
Proof.
  induction news as [|y news IH]; intro H.
  - reflexivity.
  - rewrite merge_cons. unfold merge_step.
    rewrite (H y (or_introl eq_refl)).
    apply IH. intros x Hx. apply H. now right.
Qed.

Lemma merge_idempotent existing news :
  merge (merge existing news) news = merge existing news.
Proof.
  apply merge_present. intros x Hx. now apply merge_covers.
Qed.

Lemma merge_adds existing news x :
  NoDup (map key_of news) -> In x news ->
  has existing (key_of x) = false ->
  In (make x) (merge existing news).
Proof.
  revert existing. induction news as [|y news IH]; intros existing Hnd Hin Hno.
  - destruct Hin.
  - inversion Hnd as [|? ? Hfresh Hnd']; subst.
    rewrite merge_cons.
    destruct Hin as [-> | Hin].
    + destruct (merge_extends (step existing x) news) as [added [-> _]].
      apply in_or_app. left. unfold merge_step. rewrite Hno.
      apply in_or_app. right. now left.
    + apply IH; [exact Hnd' | exact Hin |].
      unfold merge_step. destruct (has existing (key_of y)); [exact Hno|].
      rewrite has_app, Hno. unfold has_key. simpl.
      rewrite make_key, orb_false_r. apply String.eqb_neq.
      intro E. apply Hfresh. rewrite E. now apply in_map.
Qed.

End MergeByKey.

(** ** More on merging by identifier *)

Section MergeKeepsKeysDistinct.

Import MergeSpec.

Variables (R X : Type) (key : R -> string) (key_of : X -> string)
          (make : X -> R).
Hypothesis make_key : forall x, key (make x) = key_of x.

Lemma has_key_false (l : list R) (k : string) :
  has_key R key l k = false <-> ~ In k (map key l).
Proof.
  unfold has_key. induction l as [|r l IH]; simpl.
  - split; [intros _ [] | reflexivity].
  - rewrite orb_false_iff, IH, String.eqb_neq. tauto.
Qed.

Lemma merge_keeps_keys_distinct existing news :
  NoDup (map key existing) ->
  NoDup (map key (merge_by_key R X key key_of make existing news)).
Proof.
  revert existing. induction news as [|x news IH]; intros existing Hnd.
  - exact Hnd.
  - rewrite merge_cons. apply IH. unfold merge_step.
    destruct (has_key R key existing (key_of x)) eqn:E; [exact Hnd|].
    rewrite map_app. cbn [map].
    apply NoDup_app; [exact Hnd | repeat constructor; intros [] |].
    intros k Hin [<- | []].
    rewrite make_key in Hin. now apply has_key_false in E.
Qed.

Lemma distinct_key_once (l : list R) (k : string) :
  NoDup (map key l) ->
  has_key R key l k = true ->
  length (filter (fun r => String.eqb (key r) k) l) = 1%nat.
Proof.
  induction l as [|r l IH]; intros Hnd Hhas.
  - discriminate.
  - cbn [map] in Hnd. inversion Hnd as [|? ? Hout Hrest]; subst.
    cbn [filter]. unfold has_key in Hhas. cbn [existsb] in Hhas.
    destruct (String.eqb (key r) k) eqn:E.
    + apply String.eqb_eq in E. subst k. cbn [length]. f_equal.
      apply has_key_false in Hout. clear IH Hhas Hnd Hrest.
      induction l as [|x l IHl]; [reflexivity|].
      unfold has_key in Hout. cbn [existsb] in Hout.
      apply orb_false_iff in Hout. destruct Hout as [Hx Hl].
      cbn [filter]. rewrite Hx. now apply IHl.
    + cbn [orb] in Hhas. now apply IH.
Qed.

End MergeKeepsKeysDistinct.


(** ** The scheduler *)

Module SchedulerProps.

Import Background RunSpec.

Lemma add_processed_zero s : add_processed 0 s = s.
Proof.
  destruct s. unfold add_processed. simpl. f_equal. lia.
Qed.

Lemma add_processed_add a b s :
  add_processed a (add_processed b s) = add_processed (b + a) s.
Proof.
  unfold add_processed. simpl. f_equal. lia.
Qed.

Lemma bump_is_add s : bump_processed s = add_processed 1 s.
Proof. reflexivity. Qed.

Lemma batch_at_firstn offers i :
  batch_at offers i = firstn 5 (skipn i offers).
Proof.
  unfold batch_at. change (BATCH_SIZE CONFIG) with 5%nat.
  destruct (Nat.le_gt_cases (i + 5) (length offers)) as [Hle|Hgt].
  - f_equal. lia.
  - rewrite !firstn_all2; try reflexivity; rewrite length_skipn; lia.
Qed.

Lemma batch_at_length offers i :
  length (batch_at offers i) = Nat.min 5 (length offers - i).
Proof.
  rewrite batch_at_firstn, length_firstn, length_skipn. reflexivity.
Qed.

Lemma dispatch_length send pos batch :
  length (dispatch send pos batch) = length batch.
Proof.
  revert pos. induction batch as [|o batch IH]; intro pos; simpl.
  - reflexivity.
  - now rewrite IH.
Qed.

Lemma dispatch_offers send pos batch :
  map offer (dispatch send pos batch) = batch.
Proof.
  revert pos. induction batch as [|o batch IH]; intro pos; simpl.
  - reflexivity.
  - rewrite IH. f_equal. unfold toResult.
    destruct (send pos o) as [response|thrown]; [|reflexivity].
    now destruct (_ && _ && _).
Qed.

Lemma dispatch_nth send pos batch j o :
  nth_error batch j = Some o ->
  nth_error (dispatch send pos batch) j
  = Some (toResult o (send (pos + j)%nat o)).
Proof.
  revert pos j. induction batch as [|x batch IH]; intros pos j H.
  - now destruct j.
  - destruct j as [|j]; simpl in *.
    + inversion H; subst. now rewrite Nat.add_0_r.
    + rewrite (IH (S pos) j H). do 3 f_equal. lia.
Qed.

Lemma dispatch_In send pos batch r :
  In r (dispatch send pos batch) ->
  exists j o, nth_error batch j = Some o
              /\ r = toResult o (send (pos + j)%nat o).
Proof.
  revert pos. induction batch as [|x batch IH]; intros pos H.
  - destruct H.
  - destruct H as [<- | H].
    + exists 0%nat, x. split; [reflexivity | now rewrite Nat.add_0_r].
    + destruct (IH (S pos) H) as [j [o [Hj ->]]].
      exists (S j), o. split; [exact Hj | do 2 f_equal; lia].
Qed.

Section WithHost.

Context {host : HostDate}.

(** Going through the results of a batch, as two filters and a count. *)
Lemma settle_from now acc results :
  fold_left (settle_one now) results acc =
  {| newClippedCoupons :=
       newClippedCoupons acc ++ map offer (filter counts_as_clipped results);
     newSkippedCoupons :=
       newSkippedCoupons acc
       ++ map (skipped_record now) (filter recorded_as_skipped results);
     stats := add_processed (length results) (stats acc) |}.
Proof.
  revert acc. induction results as [|r results IH]; intro acc.
  - simpl. rewrite !app_nil_r, add_processed_zero. now destruct acc.
  - cbn [fold_left]. rewrite IH. clear IH.
    unfold settle_one, counts_as_clipped, recorded_as_skipped.
    cbn [filter length].
    destruct (r_success r); cbn [andb].
    + destruct (Js.truthy_flag (r_wasAlreadyClipped r)); cbn [orb negb andb].
      * cbn [newClippedCoupons newSkippedCoupons stats map].
        rewrite <- app_assoc, bump_is_add, add_processed_add. reflexivity.
      * destruct (Js.truthy_flag (r_wasSkipped r)); cbn [negb andb].
        -- destruct (is_permanent _);
             cbn [newClippedCoupons newSkippedCoupons stats map];
             rewrite ?bump_is_add, ?add_processed_add, <- ?app_assoc;
             reflexivity.
        -- cbn [newClippedCoupons newSkippedCoupons stats map].
           rewrite <- app_assoc, bump_is_add, add_processed_add. reflexivity.
    + cbn [newClippedCoupons newSkippedCoupons stats].
      rewrite bump_is_add, add_processed_add. reflexivity.
Qed.

Lemma settle_lists now s results :
  settle now s results =
  {| newClippedCoupons := map offer (filter counts_as_clipped results);
     newSkippedCoupons :=
       map (skipped_record now) (filter recorded_as_skipped results);
     stats := add_processed (length results) s |}.
Proof.
  unfold settle. now rewrite settle_from.
Qed.

Lemma iteration_state env offers i w :
  state (iteration env offers i w) =
  set_stats (state w)
            (add_processed (length (batch_at offers i))
                           (currentStats (state w))).
Proof.
  unfold iteration. cbn [state].
  now rewrite settle_lists, dispatch_length.
Qed.

Lemma iteration_sent env offers i w :
  sent (iteration env offers i w) = sent w ++ batch_at offers i.
Proof. reflexivity. Qed.

Lemma deliver_sent env i w : sent (deliver env i w) = sent w.
Proof.
  unfold deliver. now destruct (stopDuring env i) as [[fs t]|].
Qed.

Lemma deliver_stats env i w :
  currentStats (state (deliver env i w)) = currentStats (state w).
Proof.
  unfold deliver. now destruct (stopDuring env i) as [[fs t]|].
Qed.

Lemma deliver_startTime env i w :
  startTime (state (deliver env i w)) = startTime (state w).
Proof.
  unfold deliver. now destruct (stopDuring env i) as [[fs t]|].
Qed.

Lemma deliver_active env i w :
  isActive (state (deliver env i w)) =
  match stopDuring env i with
  | Some _ => false
  | None => isActive (state w)
  end.
Proof.
  unfold deliver. now destruct (stopDuring env i) as [[fs t]|].
Qed.

Lemma loop_unfold env offers i w :
  loop env offers i w =
  if (i <? length offers)%nat && isActive (state w)
  then loop env offers (i + 5)%nat (deliver env i (iteration env offers i w))
  else w.
Proof.
  rewrite loop_equation_1. unfold loop_unfold_clause_1, inspect.
  destruct ((i <? length offers)%nat && isActive (state w)); reflexivity.
Qed.

(** What any run of the loop does, stopped or not: it dispatches a
    prefix of the offers from [i] on, counts exactly those as processed,
    and can only end active when it has gone through all of them. *)
Lemma loop_progress env offers n : forall i w,
  (length offers - i <= n)%nat ->
  exists k,
    (k <= length offers - i)%nat
    /\ sent (loop env offers i w) = sent w ++ firstn k (skipn i offers)
    /\ currentStats (state (loop env offers i w))
       = add_processed k (currentStats (state w))
    /\ startTime (state (loop env offers i w)) = startTime (state w)
    /\ (isActive (state (loop env offers i w)) = true ->
        isActive (state w) = true /\ k = (length offers - i)%nat).
Proof.
  induction n as [|n IH]; intros i w Hn; rewrite loop_unfold;
    destruct (i <? length offers)%nat eqn:Hi; cbn [andb];
    try (apply Nat.ltb_lt in Hi; lia).
  1, 3: apply Nat.ltb_ge in Hi; exists 0%nat;
        rewrite app_nil_r, add_processed_zero;
        repeat split; try reflexivity; try assumption; lia.
  - apply Nat.ltb_lt in Hi.
    destruct (isActive (state w)) eqn:Hact.
    2: { exists 0%nat. rewrite app_nil_r, add_processed_zero, Hact.
         repeat split; try reflexivity; try lia; discriminate. }
    set (w1 := deliver env i (iteration env offers i w)).
    destruct (IH (i + 5)%nat w1 ltac:(lia))
      as [k [Hk [Hsent [Hstats [Hstart Hfinal]]]]].
    exists (length (batch_at offers i) + k)%nat.
    pose proof (batch_at_length offers i) as Hb.
    assert (Hw1 : currentStats (state w1)
                  = add_processed (length (batch_at offers i))
                                  (currentStats (state w))).
    { unfold w1. now rewrite deliver_stats, iteration_state. }
    repeat split.
    + lia.
    + rewrite Hsent. unfold w1.
      rewrite deliver_sent, iteration_sent, <- app_assoc. f_equal.
      rewrite firstn_plus, skipn_plus, batch_at_firstn.
      destruct (Nat.le_gt_cases 5 (length offers - i)) as [Hle|Hgt].
      * rewrite length_firstn, length_skipn.
        replace (Nat.min 5 (length offers - i)) with 5%nat by lia.
        reflexivity.
      * assert (k = 0%nat) by lia. subst k.
        rewrite !firstn_O, !app_nil_r.
        rewrite !firstn_all2; try reflexivity;
          rewrite ?length_firstn, length_skipn; lia.
    + now rewrite Hstats, Hw1, add_processed_add.
    + rewrite Hstart. unfold w1.
      now rewrite deliver_startTime, iteration_state.
    + destruct (Hfinal H) as [_ ->]. lia.
Qed.

(** With no stop message the loop stays active to its end. *)
Lemma loop_stays_active env offers n : forall i w,
  (forall j, stopDuring env j = None) ->
  (length offers - i <= n)%nat ->
  isActive (state w) = true ->
  isActive (state (loop env offers i w)) = true.
Proof.
  induction n as [|n IH]; intros i w Hquiet Hn Hact; rewrite loop_unfold;
    destruct (i <? length offers)%nat eqn:Hi; cbn [andb];
    try (apply Nat.ltb_lt in Hi; lia); try exact Hact.
  apply Nat.ltb_lt in Hi. rewrite Hact.
  apply IH; [exact Hquiet | lia |].
  now rewrite deliver_active, Hquiet, iteration_state.
Qed.

(** A stop message handled during the pass that starts at offer
    [i + 5 * k], and none before: the loop dispatches the passes up to
    that one and no further. *)
Lemma loop_stopped env offers k : forall i w finalStats t,
  isActive (state w) = true ->
  (i + 5 * k < length offers)%nat ->
  (forall j, (j < k)%nat -> stopDuring env (i + 5 * j)%nat = None) ->
  stopDuring env (i + 5 * k)%nat = Some (finalStats, t) ->
  isActive (state (loop env offers i w)) = false
  /\ sent (loop env offers i w)
     = sent w ++ firstn (5 * (k + 1)) (skipn i offers)
  /\ currentStats (state (loop env offers i w))
     = add_processed (Nat.min (5 * (k + 1)) (length offers - i))
                     (currentStats (state w)).
Proof.
  induction k as [|k IH]; intros i w fs t Hact Hlt Hquiet Hstop;
    rewrite loop_unfold;
    (replace (i <? length offers)%nat with true
      by (symmetry; apply Nat.ltb_lt; lia));
    rewrite Hact; cbn [andb].
  - replace (i + 5 * 0)%nat with i in Hstop by lia.
    rewrite loop_unfold, deliver_active, Hstop, andb_false_r.
    rewrite deliver_sent, deliver_stats, iteration_sent, iteration_state.
    rewrite batch_at_length, batch_at_firstn.
    rewrite deliver_active, Hstop. now repeat split.
  - set (w1 := deliver env i (iteration env offers i w)).
    assert (H0 : stopDuring env i = None).
    { replace i with (i + 5 * 0)%nat by lia. apply Hquiet. lia. }
    destruct (IH (i + 5)%nat w1 fs t) as [Hfin [Hsent Hstats]].
    + unfold w1. now rewrite deliver_active, H0, iteration_state.
    + lia.
    + intros j Hj. replace (i + 5 + 5 * j)%nat with (i + 5 * S j)%nat by lia.
      apply Hquiet. lia.
    + now replace (i + 5 + 5 * k)%nat with (i + 5 * S k)%nat by lia.
    + repeat split; [exact Hfin | |].
      * rewrite Hsent. unfold w1.
        rewrite deliver_sent, iteration_sent, batch_at_firstn, <- app_assoc.
        f_equal. rewrite skipn_plus.
        replace (5 * (S k + 1))%nat with (5 + 5 * (k + 1))%nat by lia.
        now rewrite firstn_plus.
      * rewrite Hstats. unfold w1.
        rewrite deliver_stats, iteration_state. cbn [currentStats set_stats].
        rewrite add_processed_add, batch_at_length. f_equal. lia.
Qed.

End WithHost.

End SchedulerProps.

(** ** What a pass and a run store *)

Module PersistenceProps.

Import Background RunSpec SchedulerProps.

Section WithHost.

Context {host : HostDate}.

Lemma mergeSkipped_nil existing : mergeSkipped existing [] = existing.
Proof. reflexivity. Qed.

Lemma mergeClipped_nil now existing : mergeClipped now existing [] = existing.
Proof. reflexivity. Qed.

Lemma persist_batch_skipped now newClipped newSkipped st :
  Storage.list_or_empty
    (Storage.skippedCoupons (persist_batch now newClipped newSkipped st))
  = mergeSkipped (Storage.list_or_empty (Storage.skippedCoupons st))
                 newSkipped.
Proof.
  unfold persist_batch.
  destruct newClipped, newSkipped; reflexivity.
Qed.

Lemma persist_batch_clipped now newClipped newSkipped st :
  Storage.list_or_empty
    (Storage.clippedCoupons (persist_batch now newClipped newSkipped st))
  = mergeClipped now (Storage.list_or_empty (Storage.clippedCoupons st))
                 newClipped.
Proof.
  unfold persist_batch.
  destruct newClipped, newSkipped; reflexivity.
Qed.

Lemma iteration_skipped env offers i w :
  stored_skipped (iteration env offers i w)
  = mergeSkipped (stored_skipped w)
      (map (skipped_record (classifyTime env i))
           (filter recorded_as_skipped (results_at env offers i))).
Proof.
  unfold stored_skipped, iteration. cbn [storage].
  rewrite settle_lists. cbn [newClippedCoupons newSkippedCoupons stats].
  unfold Storage.set at 1. cbn [Storage.skippedCoupons Storage.patch_progress
                                 Storage.or_else].
  apply persist_batch_skipped.
Qed.

Lemma iteration_clipped env offers i w :
  stored_clipped (iteration env offers i w)
  = mergeClipped (mergeTime env i) (stored_clipped w)
      (map offer (filter counts_as_clipped (results_at env offers i))).
Proof.
  unfold stored_clipped, iteration. cbn [storage].
  rewrite settle_lists. cbn [newClippedCoupons newSkippedCoupons stats].
  unfold Storage.set at 1. cbn [Storage.clippedCoupons Storage.patch_progress
                                 Storage.or_else].
  apply persist_batch_clipped.
Qed.

Lemma stop_keeps_collections finalStats now w :
  stored_skipped (snd (handleStopClipping finalStats now w)) = stored_skipped w
  /\ stored_clipped (snd (handleStopClipping finalStats now w))
     = stored_clipped w.
Proof.
  unfold handleStopClipping, stored_skipped, stored_clipped.
  cbn [snd storage].
  destruct finalStats as [fs|]; [destruct (isActive (state w))|];
    split; reflexivity.
Qed.

Lemma deliver_skipped env i w :
  stored_skipped (deliver env i w) = stored_skipped w.
Proof.
  unfold deliver. destruct (stopDuring env i) as [[fs t]|]; [|reflexivity].
  apply stop_keeps_collections.
Qed.

Lemma deliver_clipped env i w :
  stored_clipped (deliver env i w) = stored_clipped w.
Proof.
  unfold deliver. destruct (stopDuring env i) as [[fs t]|]; [|reflexivity].
  apply stop_keeps_collections.
Qed.

(** The two merge loops as instances of the merge by key. *)
Lemma mergeSkipped_extends existing news :
  exists added,
    mergeSkipped existing news = existing ++ added
    /\ forall sc, In sc added -> In sc news.
Proof.
  destruct (merge_extends SkippedCoupon SkippedCoupon
              (fun c => id (sc_offer c)) (fun c => id (sc_offer c))
              (fun c => c) existing news) as [added [Heq Hadded]].
  exists added. split; [exact Heq|].
  intros sc Hsc. destruct (Hadded sc Hsc) as [x [Hx ->]]. exact Hx.
Qed.

Lemma mergeClipped_extends now existing news :
  exists added,
    mergeClipped now existing news = existing ++ added
    /\ forall c, In c added ->
                 exists o, In o news /\ c = clipped_record now o.
Proof.
  exact (merge_extends ClippedCoupon CouponOffer
           (fun c => id (cc_offer c)) id (clipped_record now) existing news).
Qed.

Lemma mergeClipped_covers now existing news o :
  In o news -> has_clipped_id (mergeClipped now existing news) (id o) = true.
Proof.
  exact (merge_covers ClippedCoupon CouponOffer
           (fun c => id (cc_offer c)) id (clipped_record now)
           (fun _ => eq_refl) existing news o).
Qed.

Lemma mergeClipped_adds now existing news o :
  NoDup (map id news) -> In o news ->
  has_clipped_id existing (id o) = false ->
  In (clipped_record now o) (mergeClipped now existing news).
Proof.
  exact (merge_adds ClippedCoupon CouponOffer
           (fun c => id (cc_offer c)) id (clipped_record now)
           (fun _ => eq_refl) existing news o).
Qed.

Lemma mergeClipped_present now existing news :
  (forall o, In o news -> has_clipped_id existing (id o) = true) ->
  mergeClipped now existing news = existing.
Proof.
  exact (merge_present ClippedCoupon CouponOffer
           (fun c => id (cc_offer c)) id (clipped_record now) existing news).
Qed.

Lemma mergeSkipped_present existing news :
  (forall sc, In sc news -> has_skipped_id existing (id (sc_offer sc)) = true)
  -> mergeSkipped existing news = existing.
Proof.
  exact (merge_present SkippedCoupon SkippedCoupon
           (fun c => id (sc_offer c)) (fun c => id (sc_offer c))
           (fun c => c) existing news).
Qed.

Lemma mergeSkipped_covers existing news sc :
  In sc news ->
  has_skipped_id (mergeSkipped existing news) (id (sc_offer sc)) = true.
Proof.
  exact (merge_covers SkippedCoupon SkippedCoupon
           (fun c => id (sc_offer c)) (fun c => id (sc_offer c))
           (fun c => c) (fun _ => eq_refl) existing news sc).
Qed.

End WithHost.

End PersistenceProps.

(** ** Runs of the batch scheduler *)

Module RunProps.

Import Background RunSpec SchedulerProps PersistenceProps.

Section WithHost.

Context {host : HostDate}.

Lemma started_state now offers w :
  state (started now offers w) = startState now offers (state w).
Proof. reflexivity. Qed.

Lemma finish_stats env offers w :
  currentStats (state (processOffersInBackground env offers w))
  = currentStats (state (loop env offers 0 w)).
Proof.
  unfold processOffersInBackground.
  now destruct (isActive (state (loop env offers 0 w))).
Qed.

Lemma finish_sent env offers w :
  sent (processOffersInBackground env offers w)
  = sent (loop env offers 0 w).
Proof.
  unfold processOffersInBackground.
  now destruct (isActive (state (loop env offers 0 w))).
Qed.

Lemma finish_inactive env offers w :
  isActive (state (processOffersInBackground env offers w)) = false.
Proof.
  unfold processOffersInBackground.
  now destruct (isActive (state (loop env offers 0 w))) eqn:E.
Qed.

(** Every run goes through a prefix of its offers and counts exactly
    those; an undisturbed run goes through all of them. *)
Lemma run_progress env now offers w :
  exists k,
    (k <= length offers)%nat
    /\ sent (backgroundRun env now offers w) = sent w ++ firstn k offers
    /\ currentStats (state (backgroundRun env now offers w))
       = add_processed k (currentStats (startState now offers (state w)))
    /\ ((forall j, stopDuring env j = None) -> k = length offers).
Proof.
  unfold backgroundRun. fold (started now offers w).
  destruct (loop_progress env offers (length offers) 0 (started now offers w))
    as [k [Hk [Hsent [Hstats [_ Hfinal]]]]]; [lia|].
  exists k. rewrite finish_sent, finish_stats.
  repeat split.
  - lia.
  - exact Hsent.
  - exact Hstats.
  - intro Hquiet.
    destruct Hfinal as [_ ->]; [|lia].
    apply (loop_stays_active env offers (length offers)); auto. lia.
Qed.

(** A run around which only stop messages arrive ends inactive and
    with [processed <= total], the total being the number of offers,
    and with [processed = total] when nobody stops it. *)
Lemma run_processed_within_total env now offers w :
  let s := currentStats (state (backgroundRun env now offers w)) in
  total s = Z.of_nat (length offers)
  /\ 0 <= processed s <= total s
  /\ isActive (state (backgroundRun env now offers w)) = false
  /\ ((forall j, stopDuring env j = None) -> processed s = total s).
Proof.
  destruct (run_progress env now offers w) as [k [Hk [_ [Hstats Hall]]]].
  cbv zeta. rewrite Hstats. cbn [add_processed startState currentStats
                                  total processed].
  repeat split; try lia.
  - apply finish_inactive.
  - intro Hquiet. rewrite (Hall Hquiet). lia.
Qed.

(** C1, where the code departs from it: in every run over at least one
    offer the first batch is counted in [processed] while [clipped],
    [alreadyClipped], [skipped] and [failed] keep the zero they were
    given at the start, so [processed == clipped + alreadyClipped +
    skipped + failed] fails from the first batch on. *)
Theorem C1_outcome_counters_stay_zero env now offers w :
  (0 < length offers)%nat ->
  let s := currentStats (state (backgroundRun env now offers w)) in
  1 <= processed s
  /\ clipped s = Some 0 /\ alreadyClipped s = Some 0
  /\ skipped s = Some 0 /\ failed s = Some 0
  /\ stats_balanced s = false.
Proof.
  intro Hlen. cbv zeta.
  unfold backgroundRun. fold (started now offers w).
  rewrite finish_stats, loop_unfold.
  replace (0 <? length offers)%nat with true
    by (symmetry; now apply Nat.ltb_lt).
  rewrite started_state. cbn [andb isActive startState].
  set (w1 := deliver env 0 (iteration env offers 0 (started now offers w))).
  destruct (loop_progress env offers (length offers) (0 + 5)%nat w1)
    as [k [_ [_ [Hstats _]]]]; [lia|].
  rewrite Hstats. unfold w1.
  rewrite deliver_stats, iteration_state, started_state, batch_at_length.
  cbn [currentStats set_stats startState add_processed processed clipped
       alreadyClipped skipped failed].
  assert (Hp : 1 <= 0 + Z.of_nat (Nat.min 5 (length offers - 0))
                   + Z.of_nat k) by lia.
  repeat split; try exact Hp.
  unfold stats_balanced.
  cbn [clipped alreadyClipped skipped failed processed add_processed].
  apply Z.eqb_neq. lia.
Qed.

(** C5: a stop message that clears the flag during the pass of batch
    [k] (counted from 0) or the delay after it, and none before, ends
    the run there: the messages sent are those of the first [k + 1]
    batches, [processed] counts exactly them, [total] is still the
    number of offers, and no later batch is started. *)
Theorem C5_stop_between_batches env now offers w k finalStats t :
  (5 * k < length offers)%nat ->
  (forall j, (j < k)%nat -> stopDuring env (5 * j)%nat = None) ->
  stopDuring env (5 * k)%nat = Some (finalStats, t) ->
  let w' := backgroundRun env now offers w in
  sent w' = sent w ++ firstn (5 * (k + 1)) offers
  /\ processed (currentStats (state w'))
     = Z.of_nat (Nat.min (5 * (k + 1)) (length offers))
  /\ total (currentStats (state w')) = Z.of_nat (length offers)
  /\ isActive (state w') = false.
Proof.
  intros Hlt Hquiet Hstop. cbv zeta.
  unfold backgroundRun. fold (started now offers w).
  destruct (loop_stopped env offers k 0 (started now offers w) finalStats t)
    as [_ [Hsent Hstats]]; auto.
  rewrite finish_sent, finish_stats, Hsent, Hstats, started_state.
  cbn [add_processed startState currentStats processed total].
  rewrite Nat.sub_0_r.
  repeat split; try reflexivity.
  apply finish_inactive.
Qed.

End WithHost.

(** C1 on a run over a single offer that the tab reports as newly
    clipped. *)
Lemma C1_single_clipped_offer :
  let s :=
    currentStats
      (state (backgroundRun (host := IsoDate.host)
                (Scenario.undisturbed Scenario.all_clipped) Scenario.t0
                (Scenario.offers_upto 1) initialWorld)) in
  1 <= processed s
  /\ clipped s = Some 0 /\ alreadyClipped s = Some 0
  /\ skipped s = Some 0 /\ failed s = Some 0
  /\ stats_balanced s = false.
Proof.
  apply (C1_outcome_counters_stay_zero (host := IsoDate.host)).
  simpl. lia.
Defined.

(** C5 on thirteen offers with the flag cleared after the first batch:
    five messages sent, [processed = 5], [total = 13]. *)
Lemma C5_thirteen_offers_stopped_after_first_batch :
  let w' :=
    backgroundRun (host := IsoDate.host)
      (Scenario.stopped_at 0 Scenario.all_clipped) Scenario.t0
      (Scenario.offers_upto 13) initialWorld in
  sent w' = Scenario.offers_upto 5
  /\ processed (currentStats (state w')) = 5
  /\ total (currentStats (state w')) = 13
  /\ isActive (state w') = false.
Proof.
  apply (C5_stop_between_batches (host := IsoDate.host)
           (Scenario.stopped_at 0 Scenario.all_clipped) Scenario.t0
           (Scenario.offers_upto 13) initialWorld 0 None
           (Scenario.t0 + 900)).
  - simpl. lia.
  - intros j Hj. lia.
  - reflexivity.
Defined.

End RunProps.

(** ** The durable collections *)

Module CollectionProps.

Import Background RunSpec SchedulerProps PersistenceProps.

Section WithHost.

Context {host : HostDate}.

Lemma recorded_reason_permanent now r :
  recorded_as_skipped r = true ->
  is_permanent (skipReason (skipped_record now r)) = true.
Proof.
  unfold recorded_as_skipped. intro H.
  apply andb_prop in H. now destruct H as [_ H].
Qed.

(** C2, amended: a record enters the durable skipped collection during
    a pass only for a result of that pass that is successful, skipped,
    and carries one of the five permanent reasons (the reason the record
    keeps), so a skipped result with any other reason adds none; every
    result of the pass, recorded or not, is counted in [processed]; and
    before results are gone through, a skipped reply whose reason is
    missing or ['unknown'] has had its reason rewritten to
    [expired_or_inactive], so such a reply does leave a record. *)
Theorem C2_only_permanent_reasons_recorded env offers i w :
  (forall sc,
      In sc (stored_skipped (iteration env offers i w)) ->
      In sc (stored_skipped w)
      \/ (is_permanent (skipReason sc) = true
          /\ exists j o,
               nth_error (batch_at offers i) j = Some o
               /\ let r := toResult o (tabs_sendMessage env (i + j)%nat o) in
                  r_success r = true
                  /\ Js.truthy_flag (r_wasSkipped r) = true
                  /\ skipReason sc
                     = Js.str_or (r_reason r) (SkipReason_value UNKNOWN)
                  /\ sc_offer sc = with_status o "skipped"))
  /\ processed (currentStats (state (iteration env offers i w)))
     = processed (currentStats (state w))
       + Z.of_nat (length (batch_at offers i))
  /\ (forall o response,
         Js.truthy_flag (wasSkipped response) = true ->
         r_reason (toResult o (Resolved response))
         = if negb (Js.truthy_str (reason response))
              || is_unknown (reason response)
           then Some (SkipReason_value EXPIRED_OR_INACTIVE)
           else reason response).
Proof.
  repeat split.
  - intros sc Hin. rewrite iteration_skipped in Hin.
    destruct (mergeSkipped_extends (stored_skipped w)
                (map (skipped_record (classifyTime env i))
                     (filter recorded_as_skipped (results_at env offers i))))
      as [added [Heq Hadded]].
    rewrite Heq in Hin. apply in_app_or in Hin.
    destruct Hin as [Hold | Hnew]; [now left | right].
    apply Hadded, in_map_iff in Hnew. destruct Hnew as [r [<- Hr]].
    apply filter_In in Hr. destruct Hr as [Hr Hrec].
    split; [now apply recorded_reason_permanent|].
    apply dispatch_In in Hr. destruct Hr as [j [o [Hj ->]]].
    exists j, o. split; [exact Hj|]. cbv zeta.
    unfold recorded_as_skipped in Hrec.
    repeat (apply andb_prop in Hrec; destruct Hrec as [Hrec ?]).
    repeat split; try assumption.
    cbn [sc_offer skipped_record]. f_equal.
    unfold toResult. destruct (tabs_sendMessage env (i + j)%nat o);
      [now destruct (_ && _ && _) | reflexivity].
  - rewrite iteration_state. reflexivity.
  - intros o response Hskipped. unfold toResult.
    rewrite Hskipped. reflexivity.
Qed.

(** C10: an offer of the batch whose result is successful and not
    skipped, already clipped or not, has a record under its identifier
    in the durable clipped collection after the pass; the pass only
    appends to the collection, every record it appends is an offer of
    the batch with status ['clipped'] and the clock of the merge as its
    [clippedDate]; and when the identifier was absent before and the
    identifiers of the batch are pairwise distinct, the record stored
    is this offer's. *)
Theorem C10_clipped_results_are_persisted env offers i w j o :
  nth_error (batch_at offers i) j = Some o ->
  r_success (toResult o (tabs_sendMessage env (i + j)%nat o)) = true ->
  Js.truthy_flag
    (r_wasSkipped (toResult o (tabs_sendMessage env (i + j)%nat o))) = false ->
  let w' := iteration env offers i w in
  has_clipped_id (stored_clipped w') (id o) = true
  /\ (exists added,
         stored_clipped w' = stored_clipped w ++ added
         /\ forall c, In c added ->
              clippedDate c = Date_toISOString (mergeTime env i)
              /\ status (cc_offer c) = Some "clipped"%string
              /\ exists o', In o' (batch_at offers i)
                            /\ cc_offer c = with_status o' "clipped")
  /\ (has_clipped_id (stored_clipped w) (id o) = false ->
      NoDup (map id (batch_at offers i)) ->
      In {| cc_offer := with_status o "clipped";
            clippedDate := Date_toISOString (mergeTime env i) |}
         (stored_clipped w')).
Proof.
  intros Hj Hok Hnot. cbv zeta. rewrite iteration_clipped.
  set (results := results_at env offers i).
  assert (Hnews : In o (map offer (filter counts_as_clipped results))).
  { apply in_map_iff.
    exists (toResult o (tabs_sendMessage env (i + j)%nat o)). split.
    - unfold toResult. destruct (tabs_sendMessage env (i + j)%nat o);
        [now destruct (_ && _ && _) | reflexivity].
    - apply filter_In. split.
      + apply (nth_error_In _ j). now apply dispatch_nth.
      + unfold counts_as_clipped. rewrite Hok, Hnot.
        now rewrite orb_true_r. }
  assert (Hsub : forall o', In o' (map offer (filter counts_as_clipped results))
                            -> In o' (batch_at offers i)).
  { intros o' Ho'. apply in_map_iff in Ho'. destruct Ho' as [r [<- Hr]].
    apply filter_In in Hr. destruct Hr as [Hr _].
    unfold results, results_at in Hr.
    rewrite <- (dispatch_offers (tabs_sendMessage env) i (batch_at offers i)).
    now apply in_map. }
  repeat split.
  - now apply mergeClipped_covers.
  - destruct (mergeClipped_extends (mergeTime env i) (stored_clipped w)
                (map offer (filter counts_as_clipped results)))
      as [added [Heq Hadded]].
    exists added. split; [exact Heq|].
    intros c Hc. destruct (Hadded c Hc) as [o' [Ho' ->]].
    repeat split. exists o'. split; [now apply Hsub | reflexivity].
  - intros Habsent Hnd.
    apply (mergeClipped_adds (mergeTime env i)); try assumption.
    rewrite map_map.
    apply (NoDup_map_filter (fun r => id (offer r))).
    rewrite <- map_map. unfold results, results_at.
    now rewrite dispatch_offers.
Qed.

Lemma mergeClipped_once now existing news o :
  NoDup (map (fun c => id (cc_offer c)) existing) ->
  In o news ->
  length (clipped_under (id o) (mergeClipped now existing news)) = 1%nat.
Proof.
  intros Hnd Hin. unfold clipped_under.
  apply (distinct_key_once ClippedCoupon (fun c => id (cc_offer c))).
  - exact (merge_keeps_keys_distinct ClippedCoupon CouponOffer
             (fun c => id (cc_offer c)) id (clipped_record now)
             (fun _ => eq_refl) existing news Hnd).
  - now apply mergeClipped_covers.
Qed.

Lemma mergeSkipped_once existing news sc :
  NoDup (map (fun c => id (sc_offer c)) existing) ->
  In sc news ->
  length (skipped_under (id (sc_offer sc)) (mergeSkipped existing news))
  = 1%nat.
Proof.
  intros Hnd Hin. unfold skipped_under.
  apply (distinct_key_once SkippedCoupon (fun c => id (sc_offer c))).
  - exact (merge_keeps_keys_distinct SkippedCoupon SkippedCoupon
             (fun c => id (sc_offer c)) (fun c => id (sc_offer c))
             (fun c => c) (fun _ => eq_refl) existing news Hnd).
  - now apply mergeSkipped_covers.
Qed.

Lemma has_clipped_added existing c :
  has_clipped_id (existing ++ [c]) (id (cc_offer c)) = true.
Proof.
  unfold has_clipped_id. rewrite existsb_app. cbn [existsb].
  now rewrite String.eqb_refl, orb_true_r.
Qed.

Lemma has_skipped_added existing sc :
  has_skipped_id (existing ++ [sc]) (id (sc_offer sc)) = true.
Proof.
  unfold has_skipped_id. rewrite existsb_app. cbn [existsb].
  now rewrite String.eqb_refl, orb_true_r.
Qed.

(** C7: merging into a durable collection is keyed by the offer
    identifier and idempotent.  An offer (or skipped record) whose
    identifier is present leaves the collection as it is; one whose
    identifier is absent adds one record at the end, whether it comes
    once, twice in the same batch, or again in a later merge; merging
    the same items again changes nothing; and a collection that held
    no identifier twice holds, after a merge, exactly one record under
    the identifier of each merged item.  A batch with something to
    store leaves these merges in storage, and storing the same batch
    again changes nothing. *)
Theorem C7_merge_is_idempotent_by_id
        (now1 now2 : Z) (existing : list ClippedCoupon)
        (existingSkipped : list SkippedCoupon) (news : list CouponOffer)
        (skips : list SkippedCoupon) (st : Storage.t) :
  (forall o, has_clipped_id existing (id o) = true ->
             mergeClipped now2 existing [o] = existing)
  /\ (forall o, has_clipped_id existing (id o) = false ->
                mergeClipped now1 existing [o]
                = existing ++ [clipped_record now1 o]
                /\ mergeClipped now1 existing [o; o]
                   = existing ++ [clipped_record now1 o]
                /\ mergeClipped now2 (mergeClipped now1 existing [o]) [o]
                   = existing ++ [clipped_record now1 o])
  /\ mergeClipped now2 (mergeClipped now1 existing news) news
     = mergeClipped now1 existing news
  /\ (forall o, mergeClipped now2 (mergeClipped now1 [] [o]) [o]
                = [ {| cc_offer := with_status o "clipped";
                       clippedDate := Date_toISOString now1 |} ])
  /\ (NoDup (map (fun c => id (cc_offer c)) existing) ->
      forall o, In o news ->
                length (clipped_under (id o)
                          (mergeClipped now1 existing news)) = 1%nat)
  /\ (forall sc, has_skipped_id existingSkipped (id (sc_offer sc)) = true ->
                 mergeSkipped existingSkipped [sc] = existingSkipped)
  /\ (forall sc, has_skipped_id existingSkipped (id (sc_offer sc)) = false ->
                 mergeSkipped existingSkipped [sc] = existingSkipped ++ [sc]
                 /\ mergeSkipped existingSkipped [sc; sc]
                    = existingSkipped ++ [sc]
                 /\ mergeSkipped (mergeSkipped existingSkipped [sc]) [sc]
                    = existingSkipped ++ [sc])
  /\ mergeSkipped (mergeSkipped existingSkipped skips) skips
     = mergeSkipped existingSkipped skips
  /\ (NoDup (map (fun c => id (sc_offer c)) existingSkipped) ->
      forall sc, In sc skips ->
                 length (skipped_under (id (sc_offer sc))
                           (mergeSkipped existingSkipped skips)) = 1%nat)
  /\ (news <> [] \/ skips <> [] ->
      Storage.clippedCoupons (persist_batch now1 news skips st)
      = Some (mergeClipped now1
                (Storage.list_or_empty (Storage.clippedCoupons st)) news)
      /\ Storage.skippedCoupons (persist_batch now1 news skips st)
         = Some (mergeSkipped
                   (Storage.list_or_empty (Storage.skippedCoupons st))
                   skips))
  /\ persist_batch now2 news skips (persist_batch now1 news skips st)
     = persist_batch now1 news skips st.
Proof.
  assert (Hc : forall ex l,
             mergeClipped now2 (mergeClipped now1 ex l) l
             = mergeClipped now1 ex l).
  { intros ex l. apply mergeClipped_present.
    intros o Ho. now apply mergeClipped_covers. }
  assert (Hs : forall ex l,
             mergeSkipped (mergeSkipped ex l) l = mergeSkipped ex l).
  { intros ex l. apply mergeSkipped_present.
    intros sc Hsc. now apply mergeSkipped_covers. }
  split; [|split; [|split; [|split; [|split; [|split; [|split; [|split;
    [|split; [|split]]]]]]]]].
  - intros o Ho. apply mergeClipped_present.
    intros o' [<- | []]. exact Ho.
  - intros o Ho.
    assert (H1 : mergeClipped now1 existing [o]
                 = existing ++ [clipped_record now1 o]).
    { unfold mergeClipped. cbn [fold_left]. now rewrite Ho. }
    split; [exact H1|]. split.
    + pose proof (has_clipped_added existing (clipped_record now1 o))
        as Hadded.
      unfold clipped_record in *. cbn [cc_offer with_status id] in Hadded.
      unfold mergeClipped. cbn [fold_left]. now rewrite Ho, Hadded.
    + now rewrite Hc.
  - apply Hc.
  - intro o. rewrite Hc. reflexivity.
  - intros Hnd o Ho. now apply mergeClipped_once.
  - intros sc Hsc. apply mergeSkipped_present.
    intros sc' [<- | []]. exact Hsc.
  - intros sc Hsc.
    assert (H1 : mergeSkipped existingSkipped [sc] = existingSkipped ++ [sc]).
    { unfold mergeSkipped. cbn [fold_left]. now rewrite Hsc. }
    split; [exact H1|]. split.
    + unfold mergeSkipped. cbn [fold_left]. rewrite Hsc.
      now rewrite has_skipped_added.
    + now rewrite Hs.
  - apply Hs.
  - intros Hnd sc Hsc. now apply mergeSkipped_once.
  - intros Hsome. unfold persist_batch.
    destruct news as [|o news], skips as [|sc skips];
      try (split; reflexivity).
    destruct Hsome as [H | H]; now elim H.
  - unfold persist_batch.
    destruct news as [|o news], skips as [|sc skips]; try reflexivity;
      unfold Storage.set, Storage.patch_coupons;
      cbn [Storage.clippedCoupons Storage.skippedCoupons
           Storage.clippingStats Storage.clippingState
           Storage.clippingSessions Storage.lastClippingStart
           Storage.lastClippingSession Storage.availableCoupons
           Storage.or_else Storage.list_or_empty];
      now rewrite Hc, Hs.
Qed.

End WithHost.

End CollectionProps.

(** ** The start command, the end-to-end scenario and the start-up
    clean-up *)

Module CommandProps.

Import Background RunSpec SchedulerProps PersistenceProps RunProps.

Section WithHost.

Context {host : HostDate}.

Lemma finish_skipped env offers w :
  stored_skipped (processOffersInBackground env offers w)
  = stored_skipped (loop env offers 0 w).
Proof.
  unfold processOffersInBackground.
  now destruct (isActive (state (loop env offers 0 w))).
Qed.

(** C3, amended: a run over seven offers with batch size 5 forms the
    batches of the first five and the last two offers and sends a
    message for each offer in order; with three offers clipped, one
    already clipped and one skipped for [limit_exceeded] in the first
    batch, one failed and one skipped for [unknown] in the second, it
    ends with [total = 7] and [processed = 7], and the durable skipped
    collection gains exactly two records: the [limit_exceeded] one and
    the [unknown] one, kept under the reason [expired_or_inactive]. *)
Theorem C3_seven_offers_in_two_batches
        (o1 o2 o3 o4 o5 o6 o7 : CouponOffer) env now w :
  let offers := [o1; o2; o3; o4; o5; o6; o7] in
  tabs_sendMessage env = Scenario.seven_outcomes ->
  (forall j, stopDuring env j = None) ->
  id o5 <> id o7 ->
  has_skipped_id (stored_skipped w) (id o5) = false ->
  has_skipped_id (stored_skipped w) (id o7) = false ->
  let w' := backgroundRun env now offers w in
  batch_at offers 0 = [o1; o2; o3; o4; o5]
  /\ batch_at offers 5 = [o6; o7]
  /\ sent w' = sent w ++ offers
  /\ total (currentStats (state w')) = 7
  /\ processed (currentStats (state w')) = 7
  /\ stored_skipped w'
     = stored_skipped w
       ++ [ {| sc_offer := with_status o5 "skipped";
               skippedDate := Date_toISOString (classifyTime env 0);
               skipReason := SkipReason_value LIMIT_EXCEEDED;
               skipMessage := "Offer cannot be clipped" |};
            {| sc_offer := with_status o7 "skipped";
               skippedDate := Date_toISOString (classifyTime env 5);
               skipReason := SkipReason_value EXPIRED_OR_INACTIVE;
               skipMessage := "Offer cannot be clipped" |} ].
Proof.
  intros offers Hsend Hquiet Hdistinct H5 H7 w'.
  destruct (run_progress env now offers w) as [k [_ [Hsent [Hstats Hall]]]].
  specialize (Hall Hquiet). subst k. fold w' in Hsent, Hstats.
  repeat split; try reflexivity.
  - exact Hsent.
  - now rewrite Hstats.
  - now rewrite Hstats.
  - unfold w', backgroundRun. fold (started now offers w).
    rewrite finish_skipped.
    set (w0 := started now offers w).
    set (w1 := deliver env 0 (iteration env offers 0 w0)).
    set (w2 := deliver env 5 (iteration env offers 5 w1)).
    assert (Hloop : loop env offers 0 w0 = w2).
    { rewrite loop_unfold. cbn [length Nat.ltb Nat.leb andb].
      unfold w0 at 1. rewrite started_state. cbn [isActive startState].
      fold w0. fold w1.
      rewrite loop_unfold. cbn [length Nat.ltb Nat.leb andb Nat.add].
      unfold w1 at 1. rewrite deliver_active, Hquiet, iteration_state.
      cbn [isActive set_stats]. unfold w0 at 1. rewrite started_state.
      cbn [isActive startState]. fold w0. fold w1. fold w2.
      rewrite loop_unfold. reflexivity. }
    rewrite Hloop. unfold w2, w1.
    rewrite deliver_skipped, iteration_skipped, deliver_skipped,
      iteration_skipped.
    change (stored_skipped w0) with (stored_skipped w).
    unfold results_at. rewrite Hsend.
    assert (Hfirst :
      map (skipped_record (classifyTime env 0))
          (filter recorded_as_skipped
             (dispatch Scenario.seven_outcomes 0 (batch_at offers 0)))
      = [ {| sc_offer := with_status o5 "skipped";
             skippedDate := Date_toISOString (classifyTime env 0);
             skipReason := SkipReason_value LIMIT_EXCEEDED;
             skipMessage := "Offer cannot be clipped" |} ])
      by reflexivity.
    assert (Hsecond :
      map (skipped_record (classifyTime env 5))
          (filter recorded_as_skipped
             (dispatch Scenario.seven_outcomes 5 (batch_at offers 5)))
      = [ {| sc_offer := with_status o7 "skipped";
             skippedDate := Date_toISOString (classifyTime env 5);
             skipReason := SkipReason_value EXPIRED_OR_INACTIVE;
             skipMessage := "Offer cannot be clipped" |} ])
      by reflexivity.
    rewrite Hfirst, Hsecond. unfold mergeSkipped.
    cbn [fold_left sc_offer id with_status].
    rewrite H5.
    unfold has_skipped_id at 1. rewrite existsb_app.
    fold (has_skipped_id (stored_skipped w) (id o7)). rewrite H7.
    cbn [existsb sc_offer id with_status orb].
    apply String.eqb_neq in Hdistinct. rewrite Hdistinct.
    rewrite <- app_assoc. reflexivity.
Qed.

(** C6, amended: the start command answers with an error when the
    message carries no offers (reading their number throws: nothing is
    written and no run is started, though [isActive] has been set) and
    when its write to storage throws; for a list of offers and a write
    that succeeds it answers with a successful reply whose state
    snapshot has [total] set to the number of offers and every counter
    at zero, and in which the run is active when the list of offers is
    non-empty and already inactive when it is empty: an empty list is
    no error. *)
Theorem C6_start_reply now write field w :
  let reply := fst (handleStartBackgroundClipping now write field w) in
  let w' := snd (handleStartBackgroundClipping now write field w) in
  (msg_success reply = false
   <-> (exists typeError, field = NoOffers typeError)
       \/ (exists offers thrown,
              field = OfferList offers /\ write = SetThrows thrown))
  /\ (forall offers,
         field = OfferList offers ->
         write = SetOk ->
         msg_success reply = true
         /\ msg_error reply = None
         /\ msg_state reply
            = Some {| isActive := match offers with
                                  | [] => false
                                  | _ :: _ => true
                                  end;
                      currentStats :=
                        {| total := Z.of_nat (length offers);
                           processed := 0;
                           clipped := Some 0; alreadyClipped := Some 0;
                           skipped := Some 0; failed := Some 0 |};
                      startTime := Some now;
                      lastActivity := lastActivity (state w) |})
  /\ (forall offers thrown,
         field = OfferList offers ->
         write = SetThrows thrown ->
         msg_error reply = Some (Js.error_message thrown)
         /\ msg_state reply = None)
  /\ (forall typeError,
         field = NoOffers typeError ->
         msg_error reply = Some typeError
         /\ msg_state reply = None
         /\ storage w' = storage w
         /\ sent w' = sent w
         /\ isActive (state w') = true
         /\ currentStats (state w') = currentStats (state w)).
Proof.
  cbv zeta. unfold handleStartBackgroundClipping.
  destruct field as [typeError|offers].
  - cbn [fst snd msg_success msg_error msg_state].
    split; [|split; [|split]].
    + split; [intros _; left; now exists typeError | reflexivity].
    + intros offers H. discriminate.
    + intros offers thrown H. discriminate.
    + intros e H. inversion H; subst. repeat split.
  - destruct write as [|thrown];
      cbn [fst snd msg_success msg_error msg_state].
    + split; [|split; [|split]].
      * split; [discriminate|].
        intros [[e H] | [o [t [_ H]]]]; discriminate.
      * intros o H _. inversion H; subst. repeat split. now destruct o.
      * intros o t _ H. discriminate.
      * intros e H. discriminate.
    + split; [|split; [|split]].
      * split; [intros _; right; now exists offers, thrown | reflexivity].
      * intros o _ H. discriminate.
      * intros o t _ H. inversion H; subst. now split.
      * intros e H. discriminate.
Qed.

Lemma onStartup_clipped now st coupons :
  Storage.clippedCoupons st = Some coupons ->
  Storage.clippedCoupons (onStartup now st)
  = Some (filter (keep_coupon now) coupons).
Proof.
  intro Hst. unfold onStartup. rewrite Hst.
  assert (Hfirst :
    Storage.clippedCoupons
      (if (length (filter (keep_coupon now) coupons) =? length coupons)%nat
       then st
       else Storage.set
              (Storage.patch_clipped (filter (keep_coupon now) coupons)) st)
    = Some (filter (keep_coupon now) coupons)).
  { destruct (_ =? _)%nat eqn:E.
    - apply Nat.eqb_eq, filter_same_length in E. now rewrite E.
    - reflexivity. }
  destruct (Storage.clippingSessions st) as [sessions|]; [|exact Hfirst].
  destruct (startup_sessions sessions); [|exact Hfirst].
  unfold Storage.set at 1.
  cbn [Storage.clippedCoupons Storage.patch_history Storage.or_else].
  exact Hfirst.
Qed.

Lemma onStartup_sessions now st sessions :
  Storage.clippingSessions st = Some sessions ->
  Storage.clippingSessions (onStartup now st)
  = Some (if (100 <? length sessions)%nat
          then skipn (length sessions - 50) sessions
          else sessions).
Proof.
  intro Hst. unfold onStartup. rewrite Hst.
  unfold startup_sessions. change (MAX_SESSION_HISTORY CONFIG) with 100%nat.
  change (MAX_SESSIONS CONFIG) with 50%nat.
  destruct (100 <? length sessions)%nat.
  - reflexivity.
  - destruct (Storage.clippedCoupons st) as [coupons|]; [|exact Hst].
    destruct (_ =? _)%nat; [exact Hst|].
    unfold Storage.set.
    cbn [Storage.clippingSessions Storage.patch_clipped Storage.or_else].
    exact Hst.
Qed.

Lemma keep_coupon_dated now c t :
  clippedDate c <> ""%string ->
  Date_parse (clippedDate c) = Some t ->
  keep_coupon now c = (retention_cutoff now <? t).
Proof.
  intros Hdate Hparse. unfold keep_coupon.
  destruct (clippedDate c) as [|a rest] eqn:E; [congruence|].
  now rewrite Hparse.
Qed.

(** C8: the start-up sweep stores the clipped coupons filtered by age,
    in their order: a coupon whose [clippedDate] lies at or before the
    cut-off, 90 days before the sweep, is removed, and one whose
    [clippedDate] lies after the cut-off is retained. *)
Theorem C8_startup_retention_sweep now st coupons :
  Storage.clippedCoupons st = Some coupons ->
  let kept :=
    Storage.list_or_empty (Storage.clippedCoupons (onStartup now st)) in
  kept = filter (keep_coupon now) coupons
  /\ forall c t,
       In c coupons ->
       clippedDate c <> ""%string ->
       Date_parse (clippedDate c) = Some t ->
       (t <= now - 90 * (24 * 60 * 60 * 1000) -> ~ In c kept)
       /\ (now - 90 * (24 * 60 * 60 * 1000) < t -> In c kept).
Proof.
  intros Hst kept. unfold kept.
  rewrite (onStartup_clipped now st coupons Hst).
  cbn [Storage.list_or_empty].
  split; [reflexivity|].
  intros c t Hin Hdate Hparse.
  pose proof (keep_coupon_dated now c t Hdate Hparse) as Hkeep.
  unfold retention_cutoff in Hkeep.
  split; intro Hage.
  - intro Hkept. apply filter_In in Hkept. destruct Hkept as [_ Hk].
    rewrite Hkeep in Hk. apply Z.ltb_lt in Hk. lia.
  - apply filter_In. split; [exact Hin|].
    rewrite Hkeep. apply Z.ltb_lt. lia.
Qed.

(** What the sweep does with the coupons the claim is silent about: one
    without a [clippedDate] is retained, one whose [clippedDate] does
    not parse is removed. *)
Theorem sweep_of_undated_and_unparsable now st coupons :
  Storage.clippedCoupons st = Some coupons ->
  let kept :=
    Storage.list_or_empty (Storage.clippedCoupons (onStartup now st)) in
  forall c,
    In c coupons ->
    (clippedDate c = ""%string -> In c kept)
    /\ (clippedDate c <> ""%string -> Date_parse (clippedDate c) = None ->
        ~ In c kept).
Proof.
  intros Hst kept c Hin. unfold kept.
  rewrite (onStartup_clipped now st coupons Hst).
  cbn [Storage.list_or_empty]. split.
  - intro Hnone. apply filter_In. split; [exact Hin|].
    unfold keep_coupon. now rewrite Hnone.
  - intros Hdate Hparse Hkept. apply filter_In in Hkept.
    destruct Hkept as [_ Hk]. unfold keep_coupon in Hk.
    destruct (clippedDate c) as [|a rest]; [congruence|].
    rewrite Hparse in Hk. discriminate.
Qed.






End WithHost.

End CommandProps.

(** ** The properties on concrete runs *)

Module Examples.

Import Background RunSpec Scenario.
Import RunProps CollectionProps CommandProps.

#[local] Existing Instance IsoDate.host.

(** Counterexample to C2 as stated: a single offer that the tab reports
    as skipped with the reason ['unknown'], which is none of the five
    permanent reasons, leaves a record in the durable skipped
    collection (under [expired_or_inactive]), and the [skipped] counter
    of the run is still 0 at its end. *)
Lemma C2_unknown_skip_counterexample :
  let w :=
    backgroundRun (undisturbed all_unknown) t0 (offers_upto 1) initialWorld in
  is_permanent (SkipReason_value UNKNOWN) = false
  /\ map (fun sc => (id (sc_offer sc), skipReason sc)) (stored_skipped w)
     = [("1", "expired_or_inactive")]%string
  /\ skipped (currentStats (state w)) = Some 0
  /\ processed (currentStats (state w)) = 1.
Proof.
  cbv zeta. repeat split; vm_compute; reflexivity.
Qed.

(** C2 on a pass over one offer skipped for [limit_exceeded]: the
    record the pass stores carries a permanent reason. *)
Lemma C2_limit_exceeded_is_recorded :
  let env := undisturbed (fun _ _ => reply_skipped LIMIT_EXCEEDED) in
  let w' := iteration env (offers_upto 1) 0 (started t0 (offers_upto 1)
                                                     initialWorld) in
  exists sc,
    stored_skipped w' = [sc]
    /\ is_permanent (skipReason sc) = true
    /\ processed (currentStats (state w')) = 1.
Proof.
  cbv zeta.
  set (env := undisturbed (fun _ _ => reply_skipped LIMIT_EXCEEDED)).
  set (w := started t0 (offers_upto 1) initialWorld).
  destruct (C2_only_permanent_reasons_recorded env (offers_upto 1) 0 w)
    as [Hrecords [Hprocessed _]].
  set (sc := {| sc_offer := with_status (mkOffer 1) "skipped";
                skippedDate := Date_toISOString (classifyTime env 0);
                skipReason := SkipReason_value LIMIT_EXCEEDED;
                skipMessage := "Offer cannot be clipped" |}).
  assert (Hstored : stored_skipped (iteration env (offers_upto 1) 0 w) = [sc])
    by (vm_compute; reflexivity).
  exists sc. split; [exact Hstored|]. split.
  - destruct (Hrecords sc) as [Hold | [Hpermanent _]].
    + rewrite Hstored. left. reflexivity.
    + destruct Hold.
    + exact Hpermanent.
  - rewrite Hprocessed. reflexivity.
Defined.

(** Counterexample to C3 as stated: seven offers, batch size 5, with
    three clipped, one already clipped and one skipped for
    [limit_exceeded] in the first batch, one failed and one skipped for
    [unknown] in the second (a batch of five cannot carry the seven
    outcomes the claim lists for it).  The final statistics are not
    those of the claim, and the durable skipped collection gains two
    records, not one. *)
Lemma C3_scenario_counterexample :
  let w :=
    backgroundRun (undisturbed seven_outcomes) t0 seven_offers initialWorld in
  currentStats (state w)
  = {| total := 7; processed := 7; clipped := Some 0;
       alreadyClipped := Some 0; skipped := Some 0; failed := Some 0 |}
  /\ map (fun sc => (id (sc_offer sc), skipReason sc)) (stored_skipped w)
     = [("5", "limit_exceeded"); ("7", "expired_or_inactive")]%string.
Proof.
  cbv zeta. split; vm_compute; reflexivity.
Qed.

(** C3 on the offers numbered 1 to 7. *)
Lemma C3_offers_one_to_seven :
  let w :=
    backgroundRun (undisturbed seven_outcomes) t0 seven_offers initialWorld in
  sent w = seven_offers
  /\ total (currentStats (state w)) = 7
  /\ processed (currentStats (state w)) = 7
  /\ map (fun sc => (id (sc_offer sc), skipReason sc)) (stored_skipped w)
     = [("5", "limit_exceeded"); ("7", "expired_or_inactive")]%string.
Proof.
  cbv zeta.
  destruct (C3_seven_offers_in_two_batches
              (mkOffer 1) (mkOffer 2) (mkOffer 3) (mkOffer 4) (mkOffer 5)
              (mkOffer 6) (mkOffer 7) (undisturbed seven_outcomes) t0
              initialWorld)
    as [_ [_ [Hsent [Htotal [Hprocessed Hskipped]]]]].
  - reflexivity.
  - intro j. reflexivity.
  - vm_compute. discriminate.
  - reflexivity.
  - reflexivity.
  - split; [exact Hsent|]. split; [exact Htotal|].
    split; [exact Hprocessed|].
    unfold seven_offers. rewrite Hskipped. reflexivity.
Defined.

(** Counterexample to C6 as stated: for an empty list of offers the
    start command answers with success, not with an error, and the
    state it reports is already inactive. *)
Lemma C6_empty_list_counterexample :
  fst (handleStartBackgroundClipping t0 SetOk (OfferList []) initialWorld)
  = {| msg_success := true;
       msg_state :=
         Some {| isActive := false;
                 currentStats :=
                   {| total := 0; processed := 0; clipped := Some 0;
                      alreadyClipped := Some 0; skipped := Some 0;
                      failed := Some 0 |};
                 startTime := Some t0;
                 lastActivity := None |};
       msg_error := None |}.
Proof.
  unfold handleStartBackgroundClipping, stateAtReply, startState.
  reflexivity.
Qed.

(** C6 on two offers: the reply reports an active run over two offers. *)
Lemma C6_two_offers_start_active :
  let reply :=
    fst (handleStartBackgroundClipping t0 SetOk
           (OfferList (offers_upto 2)) initialWorld) in
  msg_success reply = true
  /\ option_map isActive (msg_state reply) = Some true
  /\ option_map (fun cs => total (currentStats cs)) (msg_state reply)
     = Some 2.
Proof.
  cbv zeta.
  destruct (C6_start_reply t0 SetOk (OfferList (offers_upto 2))
                           initialWorld)
    as [_ [Hok _]].
  destruct (Hok (offers_upto 2) eq_refl eq_refl) as [Hsuccess [_ Hstate]].
  rewrite Hsuccess, Hstate. repeat split.
Defined.

(** C7 on a batch that names offer 1 twice among its clipped offers
    and offer 2 twice among its skipped records, stored twice, at two
    different times, into an empty storage: one record for each, dated
    by the first merge. *)
Lemma C7_same_offer_twice :
  let news := [mkOffer 1; mkOffer 1] in
  let skips := [skipped_on 2 t0; skipped_on 2 t0] in
  let once := persist_batch t0 news skips Storage.empty in
  let twice := persist_batch (t0 + 5000) news skips once in
  Storage.clippedCoupons twice = Some [clipped_on 1 t0]
  /\ Storage.skippedCoupons twice = Some [skipped_on 2 t0].
Proof.
  cbv zeta.
  destruct (C7_merge_is_idempotent_by_id t0 (t0 + 5000) [] []
              [mkOffer 1; mkOffer 1] [skipped_on 2 t0; skipped_on 2 t0]
              Storage.empty)
    as [_ [_ [_ [_ [_ [_ [_ [_ [_ [Hstored Hagain]]]]]]]]]].
  rewrite Hagain.
  destruct Hstored as [Hclipped Hskipped]; [left; discriminate|].
  rewrite Hclipped, Hskipped. split; reflexivity.
Defined.

(** C8 on a coupon clipped 100 days before the sweep and one clipped 10
    days before it: the first is removed, the second retained. *)
Lemma C8_old_removed_recent_retained :
  let kept :=
    Storage.list_or_empty
      (Storage.clippedCoupons (onStartup t0 two_coupons)) in
  ~ In (clipped_on 1 (t0 - 100 * day)) kept
  /\ In (clipped_on 2 (t0 - 10 * day)) kept.
Proof.
  cbv zeta.
  destruct (C8_startup_retention_sweep t0 two_coupons
              [clipped_on 1 (t0 - 100 * day); clipped_on 2 (t0 - 10 * day)]
              eq_refl) as [_ Hage].
  destruct (Hage (clipped_on 1 (t0 - 100 * day)) (t0 - 100 * day))
    as [Hremoved _].
  { left. reflexivity. }
  { vm_compute. discriminate. }
  { vm_compute. reflexivity. }
  destruct (Hage (clipped_on 2 (t0 - 10 * day)) (t0 - 10 * day))
    as [_ Hretained].
  { right. left. reflexivity. }
  { vm_compute. discriminate. }
  { vm_compute. reflexivity. }
  split.
  - apply Hremoved. vm_compute. discriminate.
  - apply Hretained. vm_compute. reflexivity.
Defined.

(** The sweep on a coupon without date and one with an unreadable date. *)
Lemma sweep_of_odd_coupons :
  let kept :=
    Storage.list_or_empty
      (Storage.clippedCoupons (onStartup t0 odd_coupons)) in
  In (clipped_with_date 1 "") kept
  /\ ~ In (clipped_with_date 2 "last week") kept.
Proof.
  cbv zeta.
  pose proof (sweep_of_undated_and_unparsable t0 odd_coupons
                [clipped_with_date 1 ""; clipped_with_date 2 "last week"]
                eq_refl) as Hodd.
  destruct (Hodd (clipped_with_date 1 "")) as [Hundated _].
  { left. reflexivity. }
  destruct (Hodd (clipped_with_date 2 "last week")) as [_ Hunreadable].
  { right. left. reflexivity. }
  split.
  - apply Hundated. reflexivity.
  - apply Hunreadable; [discriminate | vm_compute; reflexivity].
Defined.


(** C10 on a batch of two offers, the first reported as already
    clipped: its record is stored with the time of the merge. *)
Lemma C10_already_clipped_is_stored :
  let env := undisturbed already_then_clipped in
  let w' :=
    iteration env (offers_upto 2) 0
              (started t0 (offers_upto 2) initialWorld) in
  has_clipped_id (stored_clipped w') (id (mkOffer 1)) = true
  /\ In (clipped_on 1 (mergeTime env 0)) (stored_clipped w').
Proof.
  cbv zeta.
  destruct (C10_clipped_results_are_persisted
              (undisturbed already_then_clipped) (offers_upto 2) 0
              (started t0 (offers_upto 2) initialWorld) 0 (mkOffer 1))
    as [Hpresent [_ Hrecord]].
  - reflexivity.
  - reflexivity.
  - reflexivity.
  - split; [exact Hpresent|].
    apply Hrecord; [reflexivity|].
    vm_compute. repeat constructor; simpl; intuition discriminate.
Defined.

End Examples.

Lemma filter_none {A} (f : A -> bool) (l : list A) :
  (forall x, In x l -> f x = false) -> filter f l = [].
Proof.
  induction l as [|x l IH]; intro H; simpl.
  - reflexivity.
  - rewrite (H x (or_introl eq_refl)). apply IH.
    intros y Hy. apply H. now right.
Qed.

Lemma filter_twice {A} (f : A -> bool) (l : list A) :
  filter f (filter f l) = filter f l.
Proof.
  induction l as [|x l IH]; simpl.
  - reflexivity.
  - destruct (f x) eqn:E; simpl; [rewrite E; f_equal|]; exact IH.
Qed.

(** ** Invariants of a run *)

Module RunInvariants.

Import Background RunSpec SchedulerProps PersistenceProps RunProps.

Section WithHost.

Context {host : HostDate}.

(** A property kept by every pass and by every stop message is kept by
    the loop. *)
Lemma loop_preserves (P : World -> Prop) env offers :
  (forall i w, P w -> P (iteration env offers i w)) ->
  (forall i w, P w -> P (deliver env i w)) ->
  forall n i w, (length offers - i <= n)%nat -> P w ->
                P (loop env offers i w).
Proof.
  intros Hpass Hstop.
  induction n as [|n IH]; intros i w Hn HP; rewrite loop_unfold;
    destruct ((i <? length offers)%nat && isActive (state w)) eqn:E;
    try exact HP.
  - apply andb_prop in E. destruct E as [E _].
    apply Nat.ltb_lt in E. lia.
  - apply andb_prop in E. destruct E as [E _]. apply Nat.ltb_lt in E.
    apply IH; [lia|]. now apply Hstop, Hpass.
Qed.

Lemma finish_clipped env offers w :
  stored_clipped (processOffersInBackground env offers w)
  = stored_clipped (loop env offers 0 w).
Proof.
  unfold processOffersInBackground.
  now destruct (isActive (state (loop env offers 0 w))).
Qed.

Lemma finish_skipped' env offers w :
  stored_skipped (processOffersInBackground env offers w)
  = stored_skipped (loop env offers 0 w).
Proof.
  unfold processOffersInBackground.
  now destruct (isActive (state (loop env offers 0 w))).
Qed.

(** In a run around which only stop messages arrive, every message
    sent is for the next offer of the list: the messages sent are the
    first [processed] offers, in order, each once; an undisturbed run
    sends one message for every offer. *)
Lemma run_sends_each_offer_once env now offers w :
  let w' := backgroundRun env now offers w in
  sent w'
  = sent w ++ firstn (Z.to_nat (processed (currentStats (state w')))) offers
  /\ ((forall j, stopDuring env j = None) -> sent w' = sent w ++ offers).
Proof.
  cbv zeta.
  destruct (run_progress env now offers w) as [k [Hk [Hsent [Hstats Hall]]]].
  rewrite Hstats. cbn [add_processed startState currentStats processed].
  replace (Z.to_nat (0 + Z.of_nat k)) with k by lia.
  split; [exact Hsent|].
  intro Hquiet. rewrite Hsent, (Hall Hquiet). now rewrite firstn_all.
Qed.

(** A run, stopped or not, only appends to the two durable
    collections: what was stored before it is still there, in place. *)
Theorem run_only_appends_to_collections env now offers w :
  let w' := backgroundRun env now offers w in
  (exists added, stored_clipped w' = stored_clipped w ++ added)
  /\ (exists added, stored_skipped w' = stored_skipped w ++ added).
Proof.
  cbv zeta. unfold backgroundRun. fold (started now offers w).
  rewrite finish_clipped, finish_skipped'.
  split.
  - apply (loop_preserves
             (fun x => exists added,
                  stored_clipped x = stored_clipped w ++ added)
             env offers) with (n := length offers); try lia.
    + intros i x [added Hx]. rewrite iteration_clipped.
      destruct (mergeClipped_extends (mergeTime env i) (stored_clipped x)
                  (map offer (filter counts_as_clipped
                                     (results_at env offers i))))
        as [more [-> _]].
      exists (added ++ more). now rewrite Hx, app_assoc.
    + intros i x [added Hx]. exists added. now rewrite deliver_clipped.
    + exists []. now rewrite app_nil_r.
  - apply (loop_preserves
             (fun x => exists added,
                  stored_skipped x = stored_skipped w ++ added)
             env offers) with (n := length offers); try lia.
    + intros i x [added Hx]. rewrite iteration_skipped.
      destruct (mergeSkipped_extends (stored_skipped x)
                  (map (skipped_record (classifyTime env i))
                       (filter recorded_as_skipped
                               (results_at env offers i))))
        as [more [-> _]].
      exists (added ++ more). now rewrite Hx, app_assoc.
    + intros i x [added Hx]. exists added. now rewrite deliver_skipped.
    + exists []. now rewrite app_nil_r.
Qed.

(** A run keeps the identifiers of each durable collection pairwise
    distinct. *)
Theorem run_keeps_identifiers_distinct env now offers w :
  NoDup (map (fun c => id (cc_offer c)) (stored_clipped w)) ->
  NoDup (map (fun c => id (sc_offer c)) (stored_skipped w)) ->
  let w' := backgroundRun env now offers w in
  NoDup (map (fun c => id (cc_offer c)) (stored_clipped w'))
  /\ NoDup (map (fun c => id (sc_offer c)) (stored_skipped w')).
Proof.
  intros Hc Hs. cbv zeta. unfold backgroundRun. fold (started now offers w).
  rewrite finish_clipped, finish_skipped'.
  split.
  - apply (loop_preserves
             (fun x => NoDup (map (fun c => id (cc_offer c))
                                  (stored_clipped x)))
             env offers) with (n := length offers); try lia.
    + intros i x Hx. rewrite iteration_clipped.
      exact (merge_keeps_keys_distinct ClippedCoupon CouponOffer
               (fun c => id (cc_offer c)) id
               (clipped_record (mergeTime env i)) (fun _ => eq_refl) _ _ Hx).
    + intros i x Hx. now rewrite deliver_clipped.
    + exact Hc.
  - apply (loop_preserves
             (fun x => NoDup (map (fun c => id (sc_offer c))
                                  (stored_skipped x)))
             env offers) with (n := length offers); try lia.
    + intros i x Hx. rewrite iteration_skipped.
      exact (merge_keeps_keys_distinct SkippedCoupon SkippedCoupon
               (fun c => id (sc_offer c)) (fun c => id (sc_offer c))
               (fun c => c) (fun _ => eq_refl) _ _ Hx).
    + intros i x Hx. now rewrite deliver_skipped.
    + exact Hs.
Qed.

Lemma finish_state_stored env offers w :
  Storage.clippingState (storage (loop env offers 0 w))
  = Some (state (loop env offers 0 w)) ->
  Storage.clippingState (storage (processOffersInBackground env offers w))
  = Some (state (processOffersInBackground env offers w)).
Proof.
  unfold processOffersInBackground.
  now destruct (isActive (state (loop env offers 0 w))).
Qed.

(** At the end of every run the [clippingState] key of the storage
    holds the state the worker has in memory. *)
Theorem run_leaves_state_stored env now offers w :
  let w' := backgroundRun env now offers w in
  Storage.clippingState (storage w') = Some (state w').
Proof.
  cbv zeta. unfold backgroundRun. fold (started now offers w).
  apply finish_state_stored.
  apply (loop_preserves
           (fun x => Storage.clippingState (storage x) = Some (state x))
           env offers) with (n := length offers); try lia.
  - reflexivity.
  - intros i x Hx. unfold deliver.
    destruct (stopDuring env i) as [[fs t]|]; [reflexivity | exact Hx].
  - reflexivity.
Qed.

(** A pass in which no offer has a successful result writes neither
    durable collection: each key keeps its value, absent included. *)
Theorem pass_without_success_stores_nothing env offers i w :
  (forall j o, nth_error (batch_at offers i) j = Some o ->
               r_success (toResult o (tabs_sendMessage env (i + j)%nat o))
               = false) ->
  let w' := iteration env offers i w in
  Storage.clippedCoupons (storage w') = Storage.clippedCoupons (storage w)
  /\ Storage.skippedCoupons (storage w')
     = Storage.skippedCoupons (storage w)
  /\ processed (currentStats (state w'))
     = processed (currentStats (state w))
       + Z.of_nat (length (batch_at offers i)).
Proof.
  intros Hfail. cbv zeta.
  assert (Hnone : forall r, In r (results_at env offers i) ->
                            r_success r = false).
  { intros r Hr. apply dispatch_In in Hr. destruct Hr as [j [o [Hj ->]]].
    now apply Hfail. }
  assert (Hc : filter counts_as_clipped (results_at env offers i) = []).
  { apply filter_none. intros r Hr. unfold counts_as_clipped.
    now rewrite (Hnone r Hr). }
  assert (Hs : filter recorded_as_skipped (results_at env offers i) = []).
  { apply filter_none. intros r Hr. unfold recorded_as_skipped.
    now rewrite (Hnone r Hr). }
  split; [|split].
  - unfold iteration. cbn [storage]. rewrite settle_lists.
    cbn [newClippedCoupons newSkippedCoupons stats].
    fold (results_at env offers i). rewrite Hc, Hs. reflexivity.
  - unfold iteration. cbn [storage]. rewrite settle_lists.
    cbn [newClippedCoupons newSkippedCoupons stats].
    fold (results_at env offers i). rewrite Hc, Hs. reflexivity.
  - rewrite iteration_state. reflexivity.
Qed.

(** A reply that reports a failure whose error text mentions "not yet
    active", "past expiry" or "shutoff date".  When its [wasSkipped] is
    not set, it is not counted as a failed clip: its result is a
    successful skip for [expired_or_inactive], and the pass leaves a
    record under the offer's identifier in the skipped collection,
    unless the reply also says [wasAlreadyClipped], in which case the
    offer goes to the clipped collection and no skipped record is made
    of it.  When its [wasSkipped] is set, the reply is not rewritten:
    it stays a failure, which is neither clipped nor recorded. *)
Theorem failed_reply_with_expiry_text_is_skipped
        env offers i w j o response :
  nth_error (batch_at offers i) j = Some o ->
  tabs_sendMessage env (i + j)%nat o = Resolved response ->
  success response = false ->
  expired_pattern (error response) = true ->
  let r := toResult o (Resolved response) in
  let w' := iteration env offers i w in
  (Js.truthy_flag (wasSkipped response) = false ->
   r_success r = true
   /\ r_wasSkipped r = Some true
   /\ r_reason r = Some (SkipReason_value EXPIRED_OR_INACTIVE)
   /\ (Js.truthy_flag (wasAlreadyClipped response) = false ->
       recorded_as_skipped r = true
       /\ counts_as_clipped r = false
       /\ has_skipped_id (stored_skipped w') (id o) = true)
   /\ (Js.truthy_flag (wasAlreadyClipped response) = true ->
       counts_as_clipped r = true
       /\ recorded_as_skipped r = false
       /\ has_clipped_id (stored_clipped w') (id o) = true))
  /\ (Js.truthy_flag (wasSkipped response) = true ->
      r_success r = false
      /\ counts_as_clipped r = false
      /\ recorded_as_skipped r = false).
Proof.
  intros Hj Hsend Hfail Hexp. cbv zeta.
  assert (Hin : In (toResult o (Resolved response))
                   (results_at env offers i)).
  { apply (nth_error_In _ j). unfold results_at.
    rewrite (dispatch_nth _ _ _ _ _ Hj), Hsend. reflexivity. }
  split.
  - intro Hskip.
    assert (Hr : toResult o (Resolved response)
                 = {| offer := o; r_success := true;
                      r_wasAlreadyClipped := wasAlreadyClipped response;
                      r_wasSkipped := Some true;
                      r_reason := Some (SkipReason_value EXPIRED_OR_INACTIVE);
                      r_errorMsg := errorMsg response;
                      r_error := error response |}).
    { unfold toResult. now rewrite Hskip, Hfail, Hexp. }
    rewrite Hr in *. cbn [r_success r_wasSkipped r_reason].
    split; [reflexivity|]. split; [reflexivity|]. split; [reflexivity|].
    split.
    + intro Halready.
      assert (Hrec : recorded_as_skipped
                       {| offer := o; r_success := true;
                          r_wasAlreadyClipped := wasAlreadyClipped response;
                          r_wasSkipped := Some true;
                          r_reason :=
                            Some (SkipReason_value EXPIRED_OR_INACTIVE);
                          r_errorMsg := errorMsg response;
                          r_error := error response |} = true).
      { unfold recorded_as_skipped.
        cbn [r_success r_wasSkipped r_reason r_wasAlreadyClipped
             Js.truthy_flag andb].
        rewrite Halready. reflexivity. }
      split; [exact Hrec|]. split.
      * unfold counts_as_clipped.
        cbn [r_success r_wasSkipped r_wasAlreadyClipped Js.truthy_flag
             andb negb].
        rewrite Halready. reflexivity.
      * rewrite iteration_skipped.
        apply (mergeSkipped_covers (stored_skipped w) _
                 (skipped_record (classifyTime env i)
                    {| offer := o; r_success := true;
                       r_wasAlreadyClipped := wasAlreadyClipped response;
                       r_wasSkipped := Some true;
                       r_reason :=
                         Some (SkipReason_value EXPIRED_OR_INACTIVE);
                       r_errorMsg := errorMsg response;
                       r_error := error response |})).
        apply in_map. apply filter_In. split; [exact Hin | exact Hrec].
    + intro Halready.
      assert (Hcl : counts_as_clipped
                      {| offer := o; r_success := true;
                         r_wasAlreadyClipped := wasAlreadyClipped response;
                         r_wasSkipped := Some true;
                         r_reason :=
                           Some (SkipReason_value EXPIRED_OR_INACTIVE);
                         r_errorMsg := errorMsg response;
                         r_error := error response |} = true).
      { unfold counts_as_clipped.
        cbn [r_success r_wasSkipped r_wasAlreadyClipped andb].
        rewrite Halready. reflexivity. }
      split; [exact Hcl|]. split.
      * unfold recorded_as_skipped.
        cbn [r_success r_wasSkipped r_wasAlreadyClipped andb].
        rewrite Halready. reflexivity.
      * rewrite iteration_clipped. apply mergeClipped_covers.
        apply in_map_iff. eexists. split; [|apply filter_In; split;
                                             [exact Hin | exact Hcl]].
        reflexivity.
  - intro Hskip.
    assert (Hr : r_success (toResult o (Resolved response)) = false).
    { unfold toResult. rewrite Hskip, Hfail. reflexivity. }
    split; [exact Hr|].
    unfold counts_as_clipped, recorded_as_skipped. rewrite Hr.
    split; reflexivity.
Qed.

(** A start command that arrives while a run is waiting between two
    batches does not end that run: the flag is set again, so the loop
    of the earlier run goes on, and its next pass is counted in the
    statistics of the new run, whose [processed] then exceeds its
    [total] when the new list is shorter than that batch. *)
Theorem second_start_does_not_end_first_run
        envA offersA i (offersB : list CouponOffer) now w :
  (i < length offersA)%nat ->
  (length offersB < Nat.min 5 (length offersA - i))%nat ->
  let restarted := started now offersB w in
  (i <? length offersA)%nat && isActive (state restarted) = true
  /\ total (currentStats (state (iteration envA offersA i restarted)))
     < processed (currentStats (state (iteration envA offersA i restarted))).
Proof.
  intros Hi Hshort. cbv zeta. split.
  - rewrite started_state. cbn [isActive startState].
    now apply Nat.ltb_lt in Hi as ->.
  - rewrite iteration_state, started_state, batch_at_length.
    cbn [currentStats set_stats startState add_processed total processed].
    lia.
Qed.

End WithHost.

End RunInvariants.

(** ** A run under message traffic *)

Module TrafficProps.

Import Background RunSpec SchedulerProps RunProps Commands Traffic.



Section WithHost.

Context {host : HostDate}.


(** The scheduler's own code is the loop followed by [complete]. *)
Lemma processOffersInBackground_complete env offers w :
  processOffersInBackground env offers w
  = complete env (loop env offers 0 w).
Proof. reflexivity. Qed.






(** The runs studied so far are schedules of this kind: the run of
    [backgroundRun], around which only the stop messages of its [Env]
    arrive, is what its script leaves, and its script rewrites
    nothing. *)
Lemma script_replays env offers n :
  forall i w,
    (length offers - i < n)%nat ->
    isActive (state w) = true ->
    after (script env offers i n)
          {| world := w;
             runs := [ {| surroundings := env; run_offers := offers;
                          position := i |} ] |}
    = {| world := complete env (loop env offers i w); runs := [] |}.
Proof.
  induction n as [|n IH]; intros i w Hn Hact; [lia|].
  rewrite loop_unfold. cbn [script].
  destruct (i <? length offers)%nat eqn:Ei; cbn [andb].
  - apply Nat.ltb_lt in Ei. rewrite Hact.
    unfold after. cbn [fold_left step runs nth_error world].
    unfold resume at 1. cbn [position run_offers surroundings].
    replace (i <? length offers)%nat with true
      by (symmetry; now apply Nat.ltb_lt).
    rewrite Hact. cbn [andb update_run].
    change (BATCH_SIZE CONFIG) with 5%nat.
    unfold deliver.
    destruct (stopDuring env i) as [[finalStats now]|].
    + cbn [fold_left step runs nth_error world onMessage snd].
      set (w2 := snd (handleStopClipping finalStats now
                        (iteration env offers i w))).
      assert (Hoff : isActive (state w2) = false) by reflexivity.
      replace (let '(_, w') := handleStopClipping finalStats now
                                 (iteration env offers i w) in
               (ReplyState _, w')) with (ReplyState
                 (fst (handleStopClipping finalStats now
                         (iteration env offers i w))), w2)
        by reflexivity.
      cbn [snd]. unfold resume. rewrite Hoff, andb_false_r.
      cbn [update_run]. rewrite loop_unfold, Hoff, andb_false_r.
      reflexivity.
    + apply IH; [lia|]. now rewrite iteration_state.
  - unfold after. cbn [fold_left step runs nth_error world].
    unfold resume. cbn [position run_offers surroundings].
    rewrite Ei. reflexivity.
Qed.

Lemma script_leaves_run_alone env offers n :
  forall i, forallb leaves_run_alone (script env offers i n) = true.
Proof.
  induction n as [|n IH]; intro i; [reflexivity|].
  cbn [script]. destruct (i <? length offers)%nat; [|reflexivity].
  cbn [forallb leaves_run_alone andb].
  destruct (stopDuring env i) as [[finalStats now]|]; [reflexivity|].
  apply IH.
Qed.

Lemma backgroundRun_is_a_schedule now env offers w :
  after (script env offers 0 (S (length offers))) (begun now env offers w)
  = {| world := backgroundRun env now offers w; runs := [] |}.
Proof.
  unfold begun, backgroundRun.
  rewrite processOffersInBackground_complete.
  cbn [step world runs app onMessage snd].
  apply script_replays; [lia | reflexivity].
Qed.



End WithHost.

End TrafficProps.

(** ** Sessions, commands and the start-up clean-up *)

Module CommandMoreProps.

Import Background RunSpec SchedulerProps PersistenceProps RunProps.
Import CommandProps RunInvariants Commands.

Section WithHost.

Context {host : HostDate}.

Lemma pass_keeps_sessions env offers i w :
  Storage.clippingSessions (storage (iteration env offers i w))
  = Storage.clippingSessions (storage w)
  /\ Storage.lastClippingSession (storage (iteration env offers i w))
     = Storage.lastClippingSession (storage w).
Proof.
  unfold iteration. cbn [storage]. rewrite settle_lists.
  cbn [newClippedCoupons newSkippedCoupons stats]. unfold persist_batch.
  destruct (map offer _), (map (skipped_record _) _); split; reflexivity.
Qed.

(** A run that nobody stops appends exactly one session to the
    history, after its last batch: it carries the final statistics
    ([processed = total]) and the time from start to completion, it
    becomes [lastClippingSession], and the history is then trimmed to
    its 50 most recent sessions. *)
Theorem undisturbed_run_saves_one_session env now offers w :
  (forall j, stopDuring env j = None) ->
  let w' := backgroundRun env now offers w in
  let session := expected_session now (finishTime env) offers in
  stored_sessions (storage w')
  = trim_sessions (stored_sessions (storage w) ++ [session])
  /\ Storage.lastClippingSession (storage w') = Some session.
Proof.
  intros Hquiet. cbv zeta.
  unfold backgroundRun. fold (started now offers w).
  set (w0 := started now offers w).
  assert (Hact : isActive (state (loop env offers 0 w0)) = true).
  { apply (loop_stays_active env offers (length offers)); auto. lia. }
  destruct (loop_progress env offers (length offers) 0 w0)
    as [k [_ [_ [Hstats [Hstart Hfinal]]]]]; [lia|].
  destruct (Hfinal Hact) as [_ ->].
  assert (Hkeep :
    Storage.clippingSessions (storage (loop env offers 0 w0))
    = Storage.clippingSessions (storage w)).
  { apply (loop_preserves
             (fun x => Storage.clippingSessions (storage x)
                       = Storage.clippingSessions (storage w))
             env offers) with (n := length offers); try lia.
    - intros i x Hx. now rewrite (proj1 (pass_keeps_sessions env offers i x)).
    - intros i x Hx. unfold deliver. now rewrite Hquiet.
    - reflexivity. }
  unfold processOffersInBackground. rewrite Hact.
  unfold stored_sessions, saveClippingSession.
  cbn [storage Storage.set Storage.clippingSessions
       Storage.lastClippingSession Storage.patch_state
       Storage.patch_sessions Storage.or_else Storage.list_or_empty
       set_active currentStats startTime].
  rewrite Hkeep, Hstats, Hstart. unfold w0. rewrite started_state.
  cbn [startState startTime currentStats].
  rewrite Nat.sub_0_r.
  assert (Hsame : add_processed (length offers)
                    {| total := Z.of_nat (length offers); processed := 0;
                       clipped := Some 0; alreadyClipped := Some 0;
                       skipped := Some 0; failed := Some 0 |}
                  = {| total := Z.of_nat (length offers);
                       processed := Z.of_nat (length offers);
                       clipped := Some 0; alreadyClipped := Some 0;
                       skipped := Some 0; failed := Some 0 |})
    by (unfold add_processed; cbn; f_equal).
  rewrite Hsame. split; reflexivity.
Qed.

(** The stop command: it always leaves the run inactive with its
    statistics as they were; it appends a session, carrying the final
    statistics of the message, exactly when the run was active and the
    message has final statistics; and a second stop appends nothing. *)
Theorem stop_saves_at_most_one_session finalStats now again later w :
  let w1 := snd (handleStopClipping finalStats now w) in
  let w2 := snd (handleStopClipping again later w1) in
  isActive (state w1) = false
  /\ currentStats (state w1) = currentStats (state w)
  /\ stored_sessions (storage w1)
     = match finalStats with
       | Some s =>
           if isActive (state w)
           then trim_sessions
                  (stored_sessions (storage w)
                   ++ [ {| session_id := Js.number_toString now;
                           session_date := Date_toISOString now;
                           session_stats := s;
                           duration :=
                             match startTime (state w) with
                             | Some t0 => if t0 =? 0 then 0 else now - t0
                             | None => 0
                             end |} ])
           else stored_sessions (storage w)
       | None => stored_sessions (storage w)
       end
  /\ stored_sessions (storage w2) = stored_sessions (storage w1)
  /\ stored_clipped w2 = stored_clipped w
  /\ stored_skipped w2 = stored_skipped w.
Proof.
  cbv zeta. unfold handleStopClipping, stored_sessions, stored_clipped,
    stored_skipped, saveClippingSession.
  cbn [snd state storage isActive currentStats startTime].
  destruct finalStats as [s|], again as [s'|];
    try destruct (isActive (state w)); repeat split.
Qed.

(** Updates of the statistics compose: two updates in a row leave the
    statistics of one update with the second patch laid over the first,
    an update without statistics or with none of the keys leaves them
    as they are, and no update changes the active flag, the start time
    or the durable collections; the merged statistics are the ones
    stored and sent back. *)
Theorem stats_updates_compose now1 now2 first second w :
  let w1 := snd (handleUpdateStats now1 (Some first) w) in
  let w2 := snd (handleUpdateStats now2 (Some second) w1) in
  currentStats (state w2)
  = spread (currentStats (state w)) (patch_then first second)
  /\ fst (handleUpdateStats now2 (Some second) w1) = currentStats (state w2)
  /\ Storage.clippingStats (storage w2) = Some (currentStats (state w2))
  /\ currentStats (state (snd (handleUpdateStats now1 None w)))
     = currentStats (state w)
  /\ spread (currentStats (state w)) empty_patch = currentStats (state w)
  /\ isActive (state w2) = isActive (state w)
  /\ startTime (state w2) = startTime (state w)
  /\ stored_clipped w2 = stored_clipped w
  /\ stored_skipped w2 = stored_skipped w.
Proof.
  cbv zeta. unfold handleUpdateStats.
  cbn [snd fst state storage currentStats isActive startTime].
  repeat split.
  - unfold spread, patch_then.
    cbn [total processed clipped alreadyClipped skipped failed
         p_total p_processed p_clipped p_alreadyClipped p_skipped p_failed].
    destruct first, second.
    cbn [p_total p_processed p_clipped p_alreadyClipped p_skipped p_failed].
    f_equal;
      repeat match goal with
             | |- context [match ?o with Some _ => _ | None => _ end] =>
                 is_var o; destruct o
             | o : option Z |- _ => destruct o
             end; reflexivity.
  - now destruct (currentStats (state w)).
Qed.

(** The listener's handlers leave the durable coupon collections to
    the scheduler: a request other than the start of a background run
    changes neither collection and sends nothing to the tab; the
    read-only requests and the unknown ones change nothing at all;
    after a start the run is active, after a stop it is not, and an
    update of the statistics leaves the flag as it is. The start of a
    background run hands the scheduler the state it has set up; a
    start without offers writes nothing and leaves the flag set. *)
Theorem listener_leaves_collections_to_the_scheduler now request w :
  let w' := snd (onMessage now request w) in
  match request with
  | StartBackgroundClipping (OfferList offers) =>
      w' = started now offers w
  | StartBackgroundClipping (NoOffers _) =>
      stored_clipped w' = stored_clipped w
      /\ stored_skipped w' = stored_skipped w
      /\ sent w' = sent w
      /\ storage w' = storage w
      /\ isActive (state w') = true
  | _ =>
      stored_clipped w' = stored_clipped w
      /\ stored_skipped w' = stored_skipped w
      /\ sent w' = sent w
      /\ (is_query request = true -> w' = w)
      /\ isActive (state w')
         = match request with
           | StartClipping _ => true
           | StopClipping _ => false
           | _ => isActive (state w)
           end
  end.
Proof.
  cbv zeta.
  destruct request as [s|fs|p| | | | |[typeError|offers]|action];
    unfold onMessage, handleStartClipping, handleStopClipping,
      handleUpdateStats, started, saveClippingSession, stored_clipped,
      stored_skipped;
    try (destruct fs as [s|]; [destruct (isActive (state w))|]);
    cbn [snd fst state storage sent isActive is_query];
    repeat split; try discriminate; try reflexivity.
Qed.

(** Installation only fills in what is missing: a key that exists keeps
    its value, the three defaulted keys exist afterwards, every other
    key is left as it is, and initialising again, whatever the state of
    the worker then, changes nothing. *)
Theorem installation_fills_only_missing_keys cs cs' d :
  let d' := initializeExtension cs d in
  (forall p, userPreferences d = Some p -> userPreferences d' = Some p)
  /\ (forall c, Storage.clippedCoupons (others d) = Some c ->
                Storage.clippedCoupons (others d') = Some c)
  /\ (forall s, Storage.clippingStats (others d) = Some s ->
                Storage.clippingStats (others d') = Some s)
  /\ (userPreferences d = None ->
      userPreferences d'
      = Some {| clippingDelay := 1000; maxConcurrentClips := 3 |})
  /\ (Storage.clippedCoupons (others d) = None ->
      Storage.clippedCoupons (others d') = Some [])
  /\ (Storage.clippingStats (others d) = None ->
      Storage.clippingStats (others d') = Some (currentStats cs))
  /\ Storage.skippedCoupons (others d') = Storage.skippedCoupons (others d)
  /\ Storage.clippingState (others d') = Storage.clippingState (others d)
  /\ Storage.clippingSessions (others d')
     = Storage.clippingSessions (others d)
  /\ Storage.availableCoupons (others d')
     = Storage.availableCoupons (others d)
  /\ initializeExtension cs' d' = d'.
Proof.
  cbv zeta. destruct d as [prefs st]. destruct st.
  unfold initializeExtension, Storage.set, default_for.
  cbn [userPreferences others Storage.clippedCoupons Storage.skippedCoupons
       Storage.clippingStats Storage.clippingState Storage.clippingSessions
       Storage.lastClippingStart Storage.lastClippingSession
       Storage.availableCoupons Storage.or_else].
  repeat split; try (intros ? ->; reflexivity); try (intros ->; reflexivity).
  destruct prefs, clippedCoupons, clippingStats; reflexivity.
Qed.

Lemma onStartup_others now st :
  Storage.skippedCoupons (onStartup now st) = Storage.skippedCoupons st
  /\ Storage.clippingStats (onStartup now st) = Storage.clippingStats st
  /\ Storage.clippingState (onStartup now st) = Storage.clippingState st
  /\ Storage.lastClippingStart (onStartup now st)
     = Storage.lastClippingStart st
  /\ Storage.lastClippingSession (onStartup now st)
     = Storage.lastClippingSession st
  /\ Storage.availableCoupons (onStartup now st)
     = Storage.availableCoupons st.
Proof.
  unfold onStartup.
  destruct (Storage.clippedCoupons st) as [coupons|];
    [destruct (_ =? _)%nat|];
    (destruct (Storage.clippingSessions st) as [sessions|];
     [destruct (startup_sessions sessions)|]);
    repeat split.
Qed.

Lemma storage_ext (a b : Storage.t) :
  Storage.clippedCoupons a = Storage.clippedCoupons b ->
  Storage.skippedCoupons a = Storage.skippedCoupons b ->
  Storage.clippingStats a = Storage.clippingStats b ->
  Storage.clippingState a = Storage.clippingState b ->
  Storage.clippingSessions a = Storage.clippingSessions b ->
  Storage.lastClippingStart a = Storage.lastClippingStart b ->
  Storage.lastClippingSession a = Storage.lastClippingSession b ->
  Storage.availableCoupons a = Storage.availableCoupons b ->
  a = b.
Proof.
  destruct a, b. cbn. intros. now subst.
Qed.

Lemma onStartup_clipped_none now st :
  Storage.clippedCoupons st = None ->
  Storage.clippedCoupons (onStartup now st) = None.
Proof.
  intro H. unfold onStartup. rewrite H.
  destruct (Storage.clippingSessions st) as [sessions|]; [|exact H].
  destruct (startup_sessions sessions); [|exact H].
  unfold Storage.set. cbn. exact H.
Qed.

Lemma onStartup_sessions_none now st :
  Storage.clippingSessions st = None ->
  Storage.clippingSessions (onStartup now st) = None.
Proof.
  intro H. unfold onStartup. rewrite H.
  destruct (Storage.clippedCoupons st) as [coupons|]; [|exact H].
  destruct (_ =? _)%nat; [exact H|].
  unfold Storage.set. cbn. exact H.
Qed.

Lemma startup_trim_twice sessions :
  startup_trim (startup_trim sessions) = startup_trim sessions.
Proof.
  unfold startup_trim.
  destruct (100 <? length sessions)%nat eqn:E100.
  - apply Nat.ltb_lt in E100.
    replace (100 <? length (skipn (length sessions - 50) sessions))%nat
      with false; [reflexivity|].
    symmetry. apply Nat.ltb_ge. rewrite length_skipn. lia.
  - now rewrite E100.
Qed.

Lemma onStartup_clipped_map now st :
  Storage.clippedCoupons (onStartup now st)
  = option_map (filter (keep_coupon now)) (Storage.clippedCoupons st).
Proof.
  destruct (Storage.clippedCoupons st) as [coupons|] eqn:E.
  - now rewrite (onStartup_clipped now st coupons E).
  - now apply onStartup_clipped_none.
Qed.

Lemma onStartup_sessions_map now st :
  Storage.clippingSessions (onStartup now st)
  = option_map startup_trim (Storage.clippingSessions st).
Proof.
  destruct (Storage.clippingSessions st) as [sessions|] eqn:E.
  - now rewrite (onStartup_sessions now st sessions E).
  - now apply onStartup_sessions_none.
Qed.

(** The start-up clean-up only removes: the clipped coupons it keeps
    are a filtered copy of the stored ones, the sessions it keeps are
    the stored ones without a front part, it creates no key and
    touches no other key; and cleaning up again at the same time
    changes nothing. *)
Theorem startup_cleanup_only_removes_and_is_idempotent now st :
  let st' := onStartup now st in
  Storage.clippedCoupons st'
  = option_map (filter (keep_coupon now)) (Storage.clippedCoupons st)
  /\ (exists dropped,
         stored_sessions st = dropped ++ stored_sessions st')
  /\ (Storage.clippingSessions st = None ->
      Storage.clippingSessions st' = None)
  /\ Storage.skippedCoupons st' = Storage.skippedCoupons st
  /\ Storage.clippingState st' = Storage.clippingState st
  /\ onStartup now st' = st'.
Proof.
  cbv zeta.
  destruct (onStartup_others now st) as [H1 [H2 [H3 [H4 [H5 H6]]]]].
  split; [apply onStartup_clipped_map|].
  split; [|split; [|split; [|split]]].
  - unfold stored_sessions. rewrite onStartup_sessions_map.
    destruct (Storage.clippingSessions st) as [sessions|];
      unfold option_map, Storage.list_or_empty, startup_trim.
    + destruct (100 <? length sessions)%nat.
      * exists (firstn (length sessions - 50) sessions).
        symmetry. apply firstn_skipn.
      * now exists [].
    + now exists [].
  - apply onStartup_sessions_none.
  - exact H1.
  - exact H3.
  - destruct (onStartup_others now (onStartup now st))
      as [G1 [G2 [G3 [G4 [G5 G6]]]]].
    apply storage_ext; try congruence.
    + rewrite !onStartup_clipped_map.
      destruct (Storage.clippedCoupons st) as [coupons|]; [|reflexivity].
      unfold option_map. f_equal. apply filter_twice.
    + rewrite !onStartup_sessions_map.
      destruct (Storage.clippingSessions st) as [sessions|]; [|reflexivity].
      unfold option_map. f_equal. apply startup_trim_twice.
Qed.

End WithHost.

(** The badge, while no run is active, shows either nothing or the
    positive number of offers that are neither clipped nor skipped, in
    green; it is cleared when the number of available offers or the
    clipped collection is missing, or when nothing is left; and while a
    run with [total] 0 is active, the badge is left as it was. *)
Theorem badge_shows_a_positive_count_or_nothing
        {math : HostMath} cs st badge :
  let badge' := updateBadgeProgress cs st badge in
  (isActive cs = false ->
   (badge_text badge' = ""%string /\ badge_color badge' = badge_color badge)
   \/ (exists available clippedCoupons,
          Storage.availableCoupons st = Some available
          /\ Storage.clippedCoupons st = Some clippedCoupons
          /\ let left :=
               available - Z.of_nat (length clippedCoupons)
               - Z.of_nat (length (Storage.list_or_empty
                                     (Storage.skippedCoupons st))) in
             0 < left
             /\ badge_text badge' = Js.number_toString left
             /\ badge_color badge' = "#16a34a"%string))
  /\ (isActive cs = false ->
      Storage.availableCoupons st = None
      \/ Storage.availableCoupons st = Some 0
      \/ Storage.clippedCoupons st = None ->
      badge_text badge' = ""%string)
  /\ (isActive cs = true -> total (currentStats cs) <= 0 -> badge' = badge).
Proof.
  cbv zeta. unfold updateBadgeProgress.
  split; [|split].
  - intros ->.
    destruct (Storage.availableCoupons st) as [available|];
      [|left; split; reflexivity].
    destruct (Storage.clippedCoupons st) as [clippedCoupons|];
      [|left; split; reflexivity].
    destruct (available =? 0); [left; split; reflexivity|].
    destruct (0 <? _) eqn:E; [|left; split; reflexivity].
    right. exists available, clippedCoupons.
    apply Z.ltb_lt in E. repeat split. exact E.
  - intros -> [-> | [-> | H]]; try reflexivity.
    + now destruct (Storage.clippedCoupons st).
    + destruct (Storage.availableCoupons st); [|reflexivity].
      now rewrite H.
  - intros -> Htotal.
    replace (0 <? total (currentStats cs)) with false; [reflexivity|].
    symmetry. apply Z.ltb_ge. lia.
Qed.

End CommandMoreProps.

(** ** The content script's rate limiter and gallery *)

Module ContentScriptProps.

Import ContentScript.

(** A call of [rateLimit] never returns earlier than a second after
    the call recorded in [lastApiCall]; and the calls that enter while
    the same [lastApiCall] is less than a second old are all released
    at the same instant, whenever they entered: the limiter spaces
    calls that follow one another, not calls that wait together. *)
Theorem rate_limit_spaces_sequential_calls now late last :
  0 <= late ->
  last + RATE_LIMIT_MS <= rateLimit now late last
  /\ now <= rateLimit now late last
  /\ (RATE_LIMIT_MS <= now - last -> rateLimit now late last = now + late)
  /\ (forall other,
         now - last < RATE_LIMIT_MS ->
         other - last < RATE_LIMIT_MS ->
         rateLimit other late last = rateLimit now late last
         /\ rateLimit now late last = last + RATE_LIMIT_MS + late).
Proof.
  intro Hlate. unfold rateLimit, waitTime, RATE_LIMIT_MS. cbv zeta.
  split; [|split; [|split]].
  - destruct (now - last <? 1000) eqn:E;
      [apply Z.ltb_lt in E | apply Z.ltb_ge in E]; lia.
  - destruct (now - last <? 1000) eqn:E;
      [apply Z.ltb_lt in E | apply Z.ltb_ge in E]; lia.
  - intro H. apply Z.ltb_ge in H. rewrite H. lia.
  - intros other Hnow Hother.
    apply Z.ltb_lt in Hnow, Hother. rewrite Hnow, Hother. lia.
Qed.

Lemma str_or_not_empty m dflt :
  dflt <> EmptyString -> Js.str_or m dflt <> EmptyString.
Proof.
  intro H. unfold Js.str_or.
  destruct m as [[|c s]|]; cbn; try exact H. discriminate.
Qed.

Lemma is_clippable_program offer :
  is_clippable offer = true ->
  In (program (toCouponOffer offer)) clippable_programs.
Proof.
  unfold is_clippable, toCouponOffer. cbn [program].
  destruct (offerPgm offer) as [p|]; [|discriminate].
  intro H. apply existsb_exists in H. destruct H as [q [Hin Heq]].
  apply String.eqb_eq in Heq. now subst.
Qed.

(** [fetchAllOffers] either returns offers or throws.  The offers are
    those of the response whose program is J4U, PD, MF or SC, in the
    order of the response; each has a non-empty title and carries the
    provider's record.  What it throws is the error of
    [getAuthHeaders], when reading the cookies throws, or one of four
    messages of its own: the one for missing credentials, which is the
    only one of the four to mention [authentication] (the popup's cue
    to ask the user to sign in), and three for a request that failed
    or a response that is not OK.  [handleGetOffers] replies with the
    offers, or with the message as its error. *)
Theorem fetch_returns_clippable_offers_or_a_known_error auth net :
  match fetchAllOffers auth net with
  | Offers offers =>
      auth = Authenticated
      /\ (exists field,
             net = GalleryOk field
             /\ offers
                = map toCouponOffer (filter is_clippable (offers_of field))
             /\ (length offers <= length (offers_of field))%nat)
      /\ Forall (fun o => In (program o) clippable_programs
                          /\ title o <> EmptyString
                          /\ originalOffer o <> None) offers
      /\ handleGetOffers auth net
         = {| or_success := true; or_offers := offers; or_error := None |}
  | Throws message =>
      (auth = AuthThrows message
       \/ (In message
              ["No authentication available";
               "Failed to load coupons";
               "Failed to load coupons (network error)";
               "Failed to load coupons (please refresh page)"]%string
           /\ (Js.includes message "authentication" = true
               <-> auth = NotAuthenticated)))
      /\ (forall uriError, auth = AuthThrows uriError -> message = uriError)
      /\ handleGetOffers auth net
         = {| or_success := false; or_offers := [];
              or_error := Some message |}
  end.
Proof.
  unfold handleGetOffers, fetchAllOffers.
  destruct auth as [| |uriError].
  - destruct net as [thrown|code|field].
    + unfold loadError.
      destruct thrown as [message|];
        [destruct (Js.includes message "Failed to fetch");
         [|destruct (Js.includes message "401" || Js.includes message "403")]
        |];
        (split; [right; split; [cbn; tauto
                               | split; [vm_compute; discriminate
                                        | discriminate]]
                | split; [intros e H; discriminate | reflexivity]]).
    + unfold loadError.
      destruct (Js.includes _ "Failed to fetch");
        [|destruct (Js.includes _ "401" || Js.includes _ "403")];
        (split; [right; split; [cbn; tauto
                               | split; [vm_compute; discriminate
                                        | discriminate]]
                | split; [intros e H; discriminate | reflexivity]]).
    + split; [reflexivity|]. split; [|split].
      * exists field. split; [reflexivity|]. split; [reflexivity|].
        rewrite length_map. apply filter_length_le.
      * apply Forall_forall. intros o Ho.
        apply in_map_iff in Ho. destruct Ho as [g [<- Hg]].
        apply filter_In in Hg. destruct Hg as [_ Hg].
        split; [now apply is_clippable_program|].
        split; [|discriminate].
        cbn [title toCouponOffer]. apply str_or_not_empty. discriminate.
      * reflexivity.
  - split; [|split; [intros e H; discriminate | reflexivity]].
    right. split; [cbn; tauto|].
    split; [reflexivity | intros _; reflexivity].
  - split; [now left|].
    split; [intros e H; now inversion H | reflexivity].
Qed.

(** An offer the provider reports as clipped, with its clip
    identifier and time, is answered as already clipped with the
    provider's identifier and time, whether or not credentials are
    there and whatever the network would do: no request is made for
    it. *)
Theorem provider_clipped_offer_needs_no_request g authenticated net :
  g_status g = Some "C"%string ->
  Js.truthy_str (g_clipId g) = true ->
  Js.truthy_str (g_clipTs g) = true ->
  Content.isOfferAlreadyClipped (toCouponOffer g) = true
  /\ Content.clipOffer authenticated net (toCouponOffer g)
     = {| success := true; wasAlreadyClipped := Some true;
          wasSkipped := None; reason := None; errorMsg := None;
          error := None;
          resp_clipId := g_clipId g; resp_clipTs := g_clipTs g |}.
Proof.
  intros Hs Hid Hts.
  assert (H : Content.isOfferAlreadyClipped (toCouponOffer g) = true).
  { unfold Content.isOfferAlreadyClipped, toCouponOffer, raw_of.
    cbn [originalOffer raw_status raw_clipId raw_clipTs].
    now rewrite Hs, Hid, Hts. }
  split; [exact H|].
  unfold Content.clipOffer. rewrite H.
  unfold toCouponOffer, raw_of, Content.first_truthy.
  cbn [originalOffer raw_clipId raw_clipTs clipId clipTs].
  now rewrite Hid, Hts.
Qed.

(** The short cut of [clipOffer] looks at the provider's record
    only. *)
Lemma gallery_offer_already_clipped g :
  Content.isOfferAlreadyClipped (toCouponOffer g)
  = match g_status g with
    | Some s => String.eqb s "C"
    | None => false
    end && Js.truthy_str (g_clipId g) && Js.truthy_str (g_clipTs g).
Proof. reflexivity. Qed.

End ContentScriptProps.

(** ** The first content script *)

Module LegacyProps.



(** The classifier of [clipOffer] extends the one of the first
    content script: it never fails on an item, it gives the same
    outcome (newly clipped, already clipped, or skipped as expired or
    inactive) wherever the first one succeeded, and what the first one
    reported as a failure of the item it reports as a skip. *)
Theorem classifier_extends_the_first_one item :
  let old := Legacy.classifyItem item in
  let new := Content.classifyItem item in
  success new = true
  /\ (success old = true ->
      wasAlreadyClipped new = wasAlreadyClipped old
      /\ wasSkipped new = wasSkipped old
      /\ reason new = reason old)
  /\ (success old = false ->
      wasSkipped new = Some true /\ wasAlreadyClipped new = None).
Proof.
  cbv zeta. unfold Legacy.classifyItem, Content.classifyItem. cbv zeta.
  destruct (Content.item_status item =? 1),
           (Content.item_status item =? 0),
           (Js.truthy_str (Content.item_clipId item)),
           (Js.opt_includes (Content.item_errorMsg item) "already clipped"),
           (Js.opt_includes (Content.item_errorMsg item) "not yet active"),
           (Js.opt_includes (Content.item_errorMsg item) "past expiry"),
           (Js.opt_includes (Content.item_errorMsg item) "shutoff date");
    cbn; repeat split; try discriminate; try reflexivity.
Qed.

End LegacyProps.

(** ** The popup *)

Module PopupProps.

Import Background.

Lemma unclipped_not_already offer :
  Popup.status_is_clipped offer = false ->
  Content.isOfferAlreadyClipped offer = false.
Proof.
  unfold Popup.status_is_clipped, Popup.provider_status,
    Content.isOfferAlreadyClipped, CouponStatus_CLIPPED.
  destruct (originalOffer offer) as [raw|]; intros ->; reflexivity.
Qed.

Lemma pushed_spec clock offers :
  forall k,
    Forall2 (fun offer c => exists iso, c = Popup.asClipped iso offer)
            offers (Popup.pushed clock k offers).
Proof.
  induction offers as [|offer rest IH]; intro k; cbn.
  - constructor.
  - constructor; [now exists (clock k) | apply IH].
Qed.

Section WithHost.

Context {host : HostDate}.

(** The popup never starts a run over nothing, and never over an
    offer the provider reports as clipped: when every offer has the
    provider status [C] it sends no message; otherwise the message
    carries, in order, exactly the offers without that status, so that
    the list is not empty, the content script's short cut for clipped
    offers applies to none of them, and the start command answers
    with an active run over that many offers. The popup's own list of
    clipped coupons only grows, by the offers with status [C] that
    were not yet in it. *)
Theorem popup_starts_a_run_over_the_unclipped_offers
        clock allOffers mine :
  let started := Popup.startClipping clock allOffers mine in
  match Popup.message started with
  | None => Forall (fun o => Popup.status_is_clipped o = true) allOffers
  | Some offers =>
      offers <> []
      /\ offers
         = filter (fun o => negb (Popup.status_is_clipped o)) allOffers
      /\ Forall (fun o => Content.isOfferAlreadyClipped o = false) offers
      /\ forall now w,
           option_map
             (fun cs => (isActive cs, total (currentStats cs)))
             (msg_state
                (fst (handleStartBackgroundClipping now SetOk
                        (OfferList offers) w)))
           = Some (true, Z.of_nat (length offers))
  end
  /\ exists added,
       Popup.myClippedCoupons started = mine ++ added
       /\ Forall (fun c =>
                    Popup.alreadyInMyClipped mine (cc_offer c) = false
                    /\ status (cc_offer c) = Some "clipped"%string
                    /\ exists o, In o allOffers
                                 /\ Popup.status_is_clipped o = true
                                 /\ id (cc_offer c) = id o)
                 added.
Proof.
  cbv zeta. unfold Popup.startClipping. cbv zeta.
  cbn [Popup.message Popup.myClippedCoupons].
  split.
  - destruct (filter (fun o => negb (Popup.status_is_clipped o)) allOffers)
      as [|first rest] eqn:E.
    + apply Forall_forall. intros o Ho.
      destruct (Popup.status_is_clipped o) eqn:Es; [reflexivity|].
      assert (Hin : In o (filter (fun o => negb (Popup.status_is_clipped o))
                                 allOffers))
        by (apply filter_In; split; [exact Ho | now rewrite Es]).
      rewrite E in Hin. destruct Hin.
    + split; [discriminate|]. split; [reflexivity|]. split.
      * rewrite <- E. apply Forall_forall. intros o Ho.
        apply filter_In in Ho. destruct Ho as [_ Ho].
        apply unclipped_not_already.
        now destruct (Popup.status_is_clipped o).
      * intros now w. reflexivity.
  - eexists. split; [reflexivity|].
    set (news := filter _ allOffers).
    assert (Hnews : Forall (fun o => In o allOffers
                                     /\ Popup.alreadyInMyClipped mine o = false
                                     /\ Popup.status_is_clipped o = true)
                           news).
    { apply Forall_forall. intros o Ho. apply filter_In in Ho.
      destruct Ho as [Hin Ho]. apply andb_prop in Ho.
      destruct Ho as [Ha Hb]. split; [exact Hin|]. split; [|exact Hb].
      now destruct (Popup.alreadyInMyClipped mine o). }
    pose proof (pushed_spec clock news 0) as Hp.
    induction Hp as [|o c os cs [iso ->] _ IH].
    + constructor.
    + inversion Hnews as [|? ? [Hin [Ha Hb]] Hrest]; subst.
      constructor; [|now apply IH].
      split; [exact Ha|]. split; [reflexivity|].
      exists o. repeat split; assumption.
Qed.

End WithHost.

Lemma ceil_pages (n : nat) :
  8 * (Popup.totalPages n - 1) < Z.of_nat n <= 8 * Popup.totalPages n
  \/ (n = 0%nat /\ Popup.totalPages n = 0).
Proof.
  unfold Popup.totalPages, Popup.ITEMS_PER_PAGE.
  destruct n as [|n]; [right; split; reflexivity|left].
  pose proof (Z.div_mod (Z.of_nat (S n) + 8 - 1) 8 ltac:(lia)) as H.
  pose proof (Z.mod_pos_bound (Z.of_nat (S n) + 8 - 1) 8 ltac:(lia)) as Hb.
  lia.
Qed.

(** The buttons and the page numbers keep the current page in range:
    from a page between 1 and the number of pages, [previousPage],
    [nextPage] and [goToPage] (with any number) lead to a page between
    1 and the number of pages; and the page numbers shown are
    consecutive pages between 1 and the number of pages, the current
    page among them, five of them when there are that many pages. *)
Theorem paging_keeps_the_current_page_in_range
        filtered page currentPage :
  1 <= currentPage <= Popup.totalPages filtered ->
  let pages := Popup.totalPages filtered in
  let first := fst (Popup.pageNumbers currentPage pages) in
  let last := snd (Popup.pageNumbers currentPage pages) in
  1 <= Popup.previousPage currentPage <= pages
  /\ 1 <= Popup.nextPage filtered currentPage <= pages
  /\ 1 <= Popup.goToPage filtered page currentPage <= pages
  /\ 1 <= first <= currentPage
  /\ currentPage <= last <= pages
  /\ last - first + 1 = Z.min Popup.MAX_VISIBLE_PAGES pages.
Proof.
  intro H. cbv zeta.
  unfold Popup.previousPage, Popup.nextPage, Popup.goToPage,
    Popup.pageNumbers, Popup.MAX_VISIBLE_PAGES.
  set (pages := Popup.totalPages filtered) in *. cbv zeta.
  change (5 / 2) with 2.
  repeat split.
  all: repeat match goal with
         | |- context [?a <? ?b] =>
             let E := fresh "E" in
             destruct (a <? b) eqn:E;
             [apply Z.ltb_lt in E | apply Z.ltb_ge in E]
         | |- context [?a <=? ?b] =>
             let E := fresh "E" in
             destruct (a <=? b) eqn:E;
             [apply Z.leb_le in E | apply Z.leb_gt in E]
         end; cbn [andb fst snd]; try lia.
Qed.

Lemma page_chunk {A} (k : nat) (coupons : list A) :
  Popup.paginatedCoupons (Z.of_nat (S k)) coupons
  = firstn 8 (skipn (8 * k) coupons).
Proof.
  unfold Popup.paginatedCoupons, Popup.slice, Popup.ITEMS_PER_PAGE.
  cbv zeta.
  replace ((Z.of_nat (S k) - 1) * 8) with (Z.of_nat (8 * k)) by lia.
  replace (Z.of_nat (8 * k) <? 0) with false
    by (symmetry; apply Z.ltb_ge; lia).
  replace (Z.of_nat (8 * k) + 8 <? 0) with false
    by (symmetry; apply Z.ltb_ge; lia).
  destruct (Nat.le_gt_cases (length coupons) (8 * k)) as [Hle|Hgt].
  - rewrite Z.min_r by lia. rewrite Z.min_r by lia.
    rewrite Nat2Z.id, Z.sub_diag. simpl firstn at 1.
    rewrite (skipn_all2 coupons) by lia. now rewrite firstn_nil.
  - rewrite (Z.min_l (Z.of_nat (8 * k))) by lia. rewrite Nat2Z.id.
    destruct (Nat.le_gt_cases (8 * k + 8) (length coupons)) as [Hfull|Hpart].
    + rewrite Z.min_l by lia.
      replace (Z.to_nat (Z.of_nat (8 * k) + 8 - Z.of_nat (8 * k)))
        with 8%nat by lia.
      reflexivity.
    + rewrite Z.min_r by lia.
      rewrite !firstn_all2; try reflexivity; rewrite length_skipn; lia.
Qed.

Lemma chunks_concat {A} (coupons : list A) (n : nat) :
  concat (map (fun p => Popup.paginatedCoupons (Z.of_nat p) coupons)
              (seq 1 n))
  = firstn (8 * n) coupons.
Proof.
  induction n as [|n IH].
  - reflexivity.
  - rewrite seq_S, map_app, concat_app, IH.
    cbn [map concat]. rewrite app_nil_r.
    change (1 + n)%nat with (S n). rewrite page_chunk.
    replace (8 * S n)%nat with (8 * n + 8)%nat by lia.
    now rewrite firstn_plus.
Qed.

(** The pages partition the list: the pages 1 to the last one, one
    after the other, give back the list, each of them holds between
    one and eight coupons, and a page after the last one is empty. *)
Theorem pages_partition_the_coupons {A} (coupons : list A) :
  let pages := Popup.totalPages (length coupons) in
  concat (map (fun p => Popup.paginatedCoupons (Z.of_nat p) coupons)
              (seq 1 (Z.to_nat pages)))
  = coupons
  /\ (forall p, 1 <= p <= pages ->
                (1 <= length (Popup.paginatedCoupons p coupons) <= 8)%nat)
  /\ (forall p, pages < p -> Popup.paginatedCoupons p coupons = []).
Proof.
  cbv zeta. pose proof (ceil_pages (length coupons)) as Hc.
  split; [|split].
  - rewrite chunks_concat. apply firstn_all2.
    destruct Hc as [Hc|[Hn Hc]]; lia.
  - intros p Hp.
    replace p with (Z.of_nat (S (Z.to_nat (p - 1)))) by lia.
    rewrite page_chunk, length_firstn, length_skipn.
    destruct Hc as [Hc|[Hn Hc]]; lia.
  - intros p Hp.
    assert (0 <= Popup.totalPages (length coupons))
      by (destruct Hc as [Hc|[Hn Hc]]; lia).
    replace p with (Z.of_nat (S (Z.to_nat (p - 1)))) by lia.
    rewrite page_chunk, skipn_all2; [apply firstn_nil|].
    destruct Hc as [Hc|[Hn Hc]]; lia.
Qed.

End PopupProps.

(** ** [utils.ts] *)

Module UtilsProps.

Lemma length_append (a b : string) :
  String.length (String.append a b)
  = (String.length a + String.length b)%nat.
Proof.
  induction a as [|c a IH]; cbn; [reflexivity | now rewrite IH].
Qed.

Lemma substring_start_length (n : nat) (s : string) :
  String.length (String.substring 0 n s) = Nat.min n (String.length s).
Proof.
  revert s. induction n as [|n IH]; intros [|c s]; cbn; try reflexivity.
  now rewrite IH.
Qed.

Lemma substring_start_prefix (n : nat) (s : string) :
  String.prefix (String.substring 0 n s) s = true.
Proof.
  revert s. induction n as [|n IH]; intros [|c s]; cbn; try reflexivity.
  destruct (ascii_dec c c) as [_|Hne]; [apply IH | now elim Hne].
Qed.

(** [truncateText] returns the text when it fits, and otherwise the
    first [maxLength - 3] characters of the text followed by three
    dots; the result is never longer than [maxLength], unless
    [maxLength] is below 3, for which a text that does not fit is
    replaced by the three dots. *)
Theorem truncated_text_fits text maxLength :
  let result := Utils.truncateText text maxLength in
  Z.of_nat (String.length result) <= Z.max maxLength 3
  /\ (Z.of_nat (String.length text) <= maxLength -> result = text)
  /\ (maxLength < Z.of_nat (String.length text) ->
      exists kept,
        result = String.append kept "..."
        /\ String.prefix kept text = true
        /\ Z.of_nat (String.length kept) = Z.max 0 (maxLength - 3))
  /\ (maxLength < 3 -> maxLength < Z.of_nat (String.length text) ->
      result = "..."%string).
Proof.
  cbv zeta. unfold Utils.truncateText.
  destruct (Z.of_nat (String.length text) <=? maxLength) eqn:E;
    [apply Z.leb_le in E | apply Z.leb_gt in E].
  - split; [lia|]. split; [reflexivity|]. split; intros; lia.
  - split; [|split; [|split]].
    + rewrite length_append, substring_start_length. cbn [String.length].
      lia.
    + intro H. lia.
    + intros _. eexists. split; [reflexivity|].
      split; [apply substring_start_prefix|].
      rewrite substring_start_length. lia.
    + intros Hsmall _.
      replace (Z.to_nat (maxLength - 3)) with 0%nat by lia.
      now destruct text.
Qed.

Section WithHost.

Context {host : HostDate}.

(** [isDisplayPeriodEnded] answers yes only for an offer that has a
    display end date which is not a date or lies before now, and whose
    own end date, when it has one, is a date that has not passed; an
    offer without a display end date is never reported, and neither is
    one whose own end date has passed or cannot be read. An offer
    whose display end date cannot be read and that has no end date of
    its own is reported at every time. *)
Theorem display_period_ended_only_before_the_offer_ends now offer :
  let ends :=
    Content.first_truthy (Utils.offerEndDate offer) (Utils.validTo offer) in
  (Utils.isDisplayPeriodEnded now offer = true ->
   Js.truthy_str (Utils.displayEndDate offer) = true
   /\ (forall t, Utils.date_of (Utils.displayEndDate offer) = Some t ->
                 t < now)
   /\ (Js.truthy_str ends = true ->
       exists t, Utils.date_of ends = Some t /\ now <= t))
  /\ (Js.truthy_str (Utils.displayEndDate offer) = false ->
      Utils.isDisplayPeriodEnded now offer = false)
  /\ (Js.truthy_str ends = true ->
      (forall t, Utils.date_of ends = Some t -> t < now) ->
      Utils.isDisplayPeriodEnded now offer = false)
  /\ (Js.truthy_str (Utils.displayEndDate offer) = true ->
      Utils.date_of (Utils.displayEndDate offer) = None ->
      Js.truthy_str ends = false ->
      Utils.isDisplayPeriodEnded now offer = true).
Proof.
  cbv zeta. unfold Utils.isDisplayPeriodEnded. cbv zeta.
  set (ends := Content.first_truthy _ _).
  split; [|split; [|split]].
  - destruct (Js.truthy_str (Utils.displayEndDate offer)); cbn [negb];
      [|discriminate].
    destruct (Utils.date_of (Utils.displayEndDate offer)) as [t|];
      cbn [Utils.not_after].
    + destruct (now <=? t) eqn:E; [discriminate|].
      apply Z.leb_gt in E.
      destruct (Js.truthy_str ends); cbn [negb].
      * destruct (Utils.date_of ends) as [u|]; cbn [Utils.not_after];
          [|discriminate].
        intro H. apply Z.leb_le in H.
        split; [reflexivity|]. split.
        -- intros t' Ht. inversion Ht; subst. exact E.
        -- intros _. now exists u.
      * intros _. split; [reflexivity|]. split.
        -- intros t' Ht. inversion Ht; subst. exact E.
        -- discriminate.
    + destruct (Js.truthy_str ends); cbn [negb].
      * destruct (Utils.date_of ends) as [u|]; cbn [Utils.not_after];
          [|discriminate].
        intro H. apply Z.leb_le in H.
        split; [reflexivity|]. split; [discriminate|].
        intros _. now exists u.
      * intros _. split; [reflexivity|]. split; discriminate.
  - intros ->. reflexivity.
  - intros Hends Hpast.
    destruct (negb (Js.truthy_str (Utils.displayEndDate offer)));
      [reflexivity|].
    destruct (Utils.not_after now _); [reflexivity|].
    rewrite Hends. cbn [negb].
    destruct (Utils.date_of ends) as [u|]; cbn [Utils.not_after];
      [|reflexivity].
    apply Z.leb_gt. now apply Hpast.
  - intros -> -> ->. reflexivity.
Qed.

End WithHost.

Lemma includes_not_empty s pat :
  pat <> EmptyString -> Js.includes s pat = true -> s <> EmptyString.
Proof.
  intros Hpat H ->. cbn in H. destruct pat; [now elim Hpat | discriminate].
Qed.

Lemma truthy_some (m : option string) :
  Js.truthy_str m = true -> exists s, m = Some s /\ s <> EmptyString.
Proof.
  destruct m as [[|c s]|]; try discriminate.
  intros _. eexists. split; [reflexivity | discriminate].
Qed.

(** [getDisplayImageUrl] returns null exactly when the offer has no
    image information at all: no image identifier with a visible
    character and no image address; what it returns otherwise is never
    the empty string, and without a usable identifier it is one of
    the offer's three addresses. *)
Theorem display_image_is_missing_only_without_image_data offer :
  (Utils.getDisplayImageUrl offer = None
   <-> match Utils.imageId offer with
       | Some i => Utils.has_visible i
       | None => false
       end = false
       /\ Js.truthy_str (Utils.imageUrl offer) = false
       /\ Js.truthy_str (Utils.largeImageUrl offer) = false
       /\ Js.truthy_str (Utils.smallImageUrl offer) = false)
  /\ (forall url,
         Utils.getDisplayImageUrl offer = Some url ->
         url <> EmptyString
         /\ (match Utils.imageId offer with
             | Some i => Utils.has_visible i
             | None => false
             end = false ->
             Some url = Utils.imageUrl offer
             \/ Some url = Utils.largeImageUrl offer
             \/ Some url = Utils.smallImageUrl offer)).
Proof.
  unfold Utils.getDisplayImageUrl. cbv zeta.
  set (fallback :=
         if Js.opt_includes (Utils.imageUrl offer)
                            "images.albertsons-media.com"
         then Utils.imageUrl offer
         else if Js.truthy_str (Utils.largeImageUrl offer)
              then Utils.largeImageUrl offer
              else if Js.truthy_str (Utils.smallImageUrl offer)
                   then Utils.smallImageUrl offer
                   else if Js.truthy_str (Utils.imageUrl offer)
                        then Utils.imageUrl offer
                        else None).
  assert (Hdomain :
    Js.opt_includes (Utils.imageUrl offer) "images.albertsons-media.com"
    = true -> Js.truthy_str (Utils.imageUrl offer) = true).
  { destruct (Utils.imageUrl offer) as [[|c s]|]; cbn; try discriminate.
    reflexivity. }
  assert (Hnone :
    fallback = None
    <-> Js.truthy_str (Utils.imageUrl offer) = false
        /\ Js.truthy_str (Utils.largeImageUrl offer) = false
        /\ Js.truthy_str (Utils.smallImageUrl offer) = false).
  { unfold fallback.
    destruct (Js.opt_includes (Utils.imageUrl offer) _) eqn:Ed.
    - specialize (Hdomain eq_refl). rewrite Hdomain.
      destruct (truthy_some _ Hdomain) as [s [-> _]].
      split; [discriminate | intros [H _]; discriminate].
    - destruct (Js.truthy_str (Utils.largeImageUrl offer)) eqn:El.
      + destruct (truthy_some _ El) as [s [-> _]].
        split; [discriminate | intros [_ [H _]]; discriminate].
      + destruct (Js.truthy_str (Utils.smallImageUrl offer)) eqn:Es.
        * destruct (truthy_some _ Es) as [s [-> _]].
          split; [discriminate | intros [_ [_ H]]; discriminate].
        * destruct (Js.truthy_str (Utils.imageUrl offer)) eqn:Ei.
          -- destruct (truthy_some _ Ei) as [s [-> _]].
             split; [discriminate | intros [H _]; discriminate].
          -- split; [now intros _ | reflexivity]. }
  assert (Hsome :
    forall url, fallback = Some url ->
                url <> EmptyString
                /\ (Some url = Utils.imageUrl offer
                    \/ Some url = Utils.largeImageUrl offer
                    \/ Some url = Utils.smallImageUrl offer)).
  { intros url. unfold fallback.
    destruct (Js.opt_includes (Utils.imageUrl offer) _) eqn:Ed.
    - specialize (Hdomain eq_refl).
      destruct (truthy_some _ Hdomain) as [s [E Hs]]. rewrite E.
      intro H. inversion H; subst. split; [exact Hs | now left].
    - destruct (Js.truthy_str (Utils.largeImageUrl offer)) eqn:El.
      + destruct (truthy_some _ El) as [s [E Hs]]. rewrite E.
        intro H. inversion H; subst. split; [exact Hs | right; now left].
      + destruct (Js.truthy_str (Utils.smallImageUrl offer)) eqn:Es.
        * destruct (truthy_some _ Es) as [s [E Hs]]. rewrite E.
          intro H. inversion H; subst.
          split; [exact Hs | right; now right].
        * destruct (Js.truthy_str (Utils.imageUrl offer)) eqn:Ei;
            [|discriminate].
          destruct (truthy_some _ Ei) as [s [E Hs]]. rewrite E.
          intro H. inversion H; subst. split; [exact Hs | now left]. }
  clearbody fallback.
  destruct (Utils.imageId offer) as [i|];
    [destruct (Utils.has_visible i)|].
  - split.
    + split; [discriminate | intros [H _]; discriminate].
    + intros url H. injection H as <-.
      split; discriminate.
  - split.
    + rewrite Hnone. tauto.
    + intros url H. destruct (Hsome url H) as [H1 H2]. tauto.
  - split.
    + rewrite Hnone. tauto.
    + intros url H. destruct (Hsome url H) as [H1 H2]. tauto.
Qed.

End UtilsProps.

(** ** The content script and the scheduler together *)

Module PipelineProps.

Import Background RunSpec SchedulerProps PersistenceProps.

Lemma classifyItem_shape item :
  (exists b, Content.classifyItem item = Content.clip_done b)
  \/ (exists r msg, r <> UNKNOWN
                    /\ Content.classifyItem item = Content.skip r msg).
Proof.
  unfold Content.classifyItem, Content.cannot_clip_reason.
  repeat match goal with
         | |- context [if ?b then _ else _] => destruct b
         end;
    try (left; eexists; reflexivity);
    right; do 2 eexists; (split; [|reflexivity]); discriminate.
Qed.

(** The four shapes of what [clipOffer] returns. *)
Lemma clipOffer_shape authenticated net o :
  let verdict := Content.clipOffer authenticated net o in
  (exists msg, verdict = Content.failure msg)
  \/ (success verdict = true
      /\ wasAlreadyClipped verdict = Some true
      /\ wasSkipped verdict = None)
  \/ (exists b, verdict = Content.clip_done b)
  \/ (exists r msg, r <> UNKNOWN /\ verdict = Content.skip r msg).
Proof.
  cbv zeta. unfold Content.clipOffer.
  destruct (Content.isOfferAlreadyClipped o).
  - right; left. repeat split.
  - destruct authenticated; cbn [negb]; [|left; eexists; reflexivity].
    destruct net as [thrown|code|[[|item items]|]];
      try (left; eexists; reflexivity).
    destruct (classifyItem_shape item) as [H|H]; right; right; tauto.
Qed.

Lemma skip_reason_kept r :
  r <> UNKNOWN ->
  Js.truthy_str (Some (SkipReason_value r)) = true
  /\ is_unknown (Some (SkipReason_value r)) = false.
Proof. destruct r; intro H; try (now elim H); split; reflexivity. Qed.

Section WithHost.

Context {host : HostDate}.

(** With the content script as the tab, what [clipOffer] answers for
    an offer of the batch decides what the pass stores for it: an
    answer that is successful and not a skip, already clipped or not,
    leaves a record under the offer's identifier in the clipped
    collection; a skip whose reason is one of the five permanent ones
    leaves a record in the skipped collection; and a failure whose
    error does not mention an expiry is neither clipped nor recorded,
    so that the offer is tried again by the next run. *)
Theorem content_script_verdict_decides_the_record
        env authenticated net offers i w j o :
  tabs_sendMessage env = Pipeline.content_tab authenticated net ->
  nth_error (batch_at offers i) j = Some o ->
  let verdict :=
    Content.clipOffer (authenticated (i + j)%nat) (net (i + j)%nat) o in
  let result := toResult o (tabs_sendMessage env (i + j)%nat o) in
  let w' := iteration env offers i w in
  (success verdict = true ->
   Js.truthy_flag (wasSkipped verdict) = false ->
   has_clipped_id (stored_clipped w') (id o) = true)
  /\ (Js.truthy_flag (wasSkipped verdict) = true ->
      is_permanent (Js.str_or (reason verdict) (SkipReason_value UNKNOWN))
      = true ->
      has_skipped_id (stored_skipped w') (id o) = true)
  /\ (success verdict = false ->
      expired_pattern (error verdict) = false ->
      counts_as_clipped result = false
      /\ recorded_as_skipped result = false).
Proof.
  intros Htab Hj. cbv zeta. rewrite Htab. unfold Pipeline.content_tab.
  pose proof (clipOffer_shape (authenticated (i + j)%nat)
                              (net (i + j)%nat) o) as Hshape.
  cbv zeta in Hshape.
  set (verdict := Content.clipOffer _ _ o) in *.
  assert (Hin : In (toResult o (Resolved (Content.handleClipOffer verdict)))
                   (results_at env offers i)).
  { apply (nth_error_In _ j). unfold results_at.
    rewrite (dispatch_nth _ _ _ _ _ Hj), Htab. reflexivity. }
  clearbody verdict.
  destruct Hshape
    as [[msg Hv] | [[Hok [Hal Hsk]] | [[b Hv] | [r [msg [Hr Hv]]]]]].
  - rewrite Hv in *. split; [discriminate|]. split; [discriminate|].
    intros _ Hexp. unfold toResult, Content.handleClipOffer, Content.failure.
    cbn [success wasSkipped wasAlreadyClipped reason errorMsg error
         Js.truthy_flag negb andb].
    cbn [Content.failure error] in Hexp. rewrite Hexp.
    split; reflexivity.
  - split; [|split].
    + intros _ _. rewrite iteration_clipped.
      apply mergeClipped_covers.
      apply in_map_iff. eexists. split; [|apply filter_In; split;
                                           [exact Hin|]].
      * unfold toResult, Content.handleClipOffer.
        cbn [success wasSkipped]. rewrite Hsk, Hok. reflexivity.
      * unfold toResult, Content.handleClipOffer, counts_as_clipped.
        cbn [success wasSkipped wasAlreadyClipped].
        rewrite Hsk, Hok, Hal. reflexivity.
    + rewrite Hsk. discriminate.
    + rewrite Hok. discriminate.
  - rewrite Hv in *. split; [|split]; try discriminate.
    intros _ _. rewrite iteration_clipped.
    apply mergeClipped_covers.
    apply in_map_iff. eexists. split; [|apply filter_In; split;
                                         [exact Hin|]].
    + reflexivity.
    + unfold counts_as_clipped. cbn. now rewrite orb_true_r.
  - rewrite Hv in *. destruct (skip_reason_kept r Hr) as [Ht Hu].
    assert (Hres :
      toResult o (Resolved (Content.handleClipOffer (Content.skip r msg)))
      = {| offer := o; r_success := true; r_wasAlreadyClipped := None;
           r_wasSkipped := Some true;
           r_reason := Some (SkipReason_value r);
           r_errorMsg := msg; r_error := None |}).
    { unfold toResult, Content.handleClipOffer, Content.skip.
      cbn [success wasSkipped wasAlreadyClipped reason errorMsg error
           Js.truthy_flag negb andb].
      rewrite Ht, Hu. reflexivity. }
    rewrite Hres in Hin.
    split; [|split]; try discriminate.
    intros _ Hperm. rewrite iteration_skipped.
    apply (mergeSkipped_covers (stored_skipped w) _
             (skipped_record (classifyTime env i)
                {| offer := o; r_success := true;
                   r_wasAlreadyClipped := None;
                   r_wasSkipped := Some true;
                   r_reason := Some (SkipReason_value r);
                   r_errorMsg := msg; r_error := None |})).
    apply in_map. apply filter_In. split; [exact Hin|].
    unfold recorded_as_skipped.
    cbn [r_success r_wasSkipped r_reason r_wasAlreadyClipped
         Js.truthy_flag andb negb].
    exact Hperm.
Qed.

End WithHost.

End PipelineProps.

(** ** Concrete runs *)

Module MoreExamples.

Import Background RunSpec.

(** A list that names offer 1 twice leaves it once in the clipped
    collection. *)
Lemma repeated_offer_is_stored_once :
  let w' :=
    backgroundRun (host := IsoDate.host)
      (Scenario.undisturbed Scenario.all_clipped) Scenario.t0
      MoreScenarios.repeated_offers initialWorld in
  NoDup (map (fun c => id (cc_offer c)) (stored_clipped w'))
  /\ NoDup (map (fun c => id (sc_offer c)) (stored_skipped w')).
Proof.
  apply (RunInvariants.run_keeps_identifiers_distinct
           (host := IsoDate.host)
           (Scenario.undisturbed Scenario.all_clipped) Scenario.t0
           MoreScenarios.repeated_offers initialWorld).
  - vm_compute. constructor.
  - vm_compute. constructor.
Defined.

(** Three offers that all fail with HTTP 500: counted, nothing
    stored. *)
Lemma three_failures_store_nothing :
  let w' :=
    iteration (host := IsoDate.host)
      (Scenario.undisturbed MoreScenarios.all_failed)
      (Scenario.offers_upto 3) 0 initialWorld in
  Storage.clippedCoupons (storage w')
  = Storage.clippedCoupons (storage initialWorld)
  /\ Storage.skippedCoupons (storage w')
     = Storage.skippedCoupons (storage initialWorld)
  /\ processed (currentStats (state w'))
     = processed (currentStats (state initialWorld))
       + Z.of_nat (length (batch_at (Scenario.offers_upto 3) 0)).
Proof.
  apply (RunInvariants.pass_without_success_stores_nothing
           (host := IsoDate.host)
           (Scenario.undisturbed MoreScenarios.all_failed)
           (Scenario.offers_upto 3) 0 initialWorld).
  intros j o _. reflexivity.
Defined.

(** An error text that mentions [past expiry] puts the offer into the
    skipped collection. *)
Lemma past_expiry_error_is_skipped :
  let r :=
    toResult (Scenario.mkOffer 1)
             (MoreScenarios.reply_error "Offer is past expiry date") in
  r_success r = true
  /\ r_wasSkipped r = Some true
  /\ r_reason r = Some (SkipReason_value EXPIRED_OR_INACTIVE)
  /\ has_skipped_id
       (stored_skipped
          (iteration (host := IsoDate.host)
             (Scenario.undisturbed MoreScenarios.all_past_expiry)
             (Scenario.offers_upto 3) 0 initialWorld))
       (id (Scenario.mkOffer 1)) = true.
Proof.
  cbv zeta.
  destruct (RunInvariants.failed_reply_with_expiry_text_is_skipped
              (host := IsoDate.host)
              (Scenario.undisturbed MoreScenarios.all_past_expiry)
              (Scenario.offers_upto 3) 0 initialWorld 0 (Scenario.mkOffer 1)
              (Content.handleClipOffer
                 (Content.failure "Offer is past expiry date")))
    as [Hrewritten _]; try reflexivity.
  destruct (Hrewritten eq_refl) as [H1 [H2 [H3 [Hskipped _]]]].
  destruct (Hskipped eq_refl) as [_ [_ Hstored]].
  repeat split; assumption.
Defined.

(** A start with two offers while a run over thirteen offers waits
    after its first batch: the loop of the first run goes on and counts
    its next five offers against a total of two. *)
Lemma restart_with_two_offers :
  let restarted :=
    started (host := IsoDate.host) (Scenario.t0 + 700)
            (Scenario.offers_upto 2) MoreScenarios.after_first_pass in
  (5 <? length (Scenario.offers_upto 13))%nat
  && isActive (state restarted) = true
  /\ total (currentStats
              (state (iteration (host := IsoDate.host)
                        (Scenario.undisturbed Scenario.all_clipped)
                        (Scenario.offers_upto 13) 5 restarted)))
     < processed (currentStats
                    (state (iteration (host := IsoDate.host)
                              (Scenario.undisturbed Scenario.all_clipped)
                              (Scenario.offers_upto 13) 5 restarted))).
Proof.
  apply (RunInvariants.second_start_does_not_end_first_run
           (host := IsoDate.host)
           (Scenario.undisturbed Scenario.all_clipped)
           (Scenario.offers_upto 13) 5 (Scenario.offers_upto 2)
           (Scenario.t0 + 700) MoreScenarios.after_first_pass).
  - vm_compute. lia.
  - vm_compute. lia.
Defined.

(** Seven offers, nobody stops the run: one session with
    [processed = total = 7] and a duration of a minute. *)
Lemma seven_offers_leave_one_session :
  let w' :=
    backgroundRun (host := IsoDate.host)
      (Scenario.undisturbed Scenario.all_clipped) Scenario.t0
      (Scenario.offers_upto 7) initialWorld in
  let session :=
    Commands.expected_session (host := IsoDate.host) Scenario.t0
      (finishTime (Scenario.undisturbed Scenario.all_clipped))
      (Scenario.offers_upto 7) in
  stored_sessions (storage w')
  = trim_sessions (stored_sessions (storage initialWorld) ++ [session])
  /\ Storage.lastClippingSession (storage w') = Some session.
Proof.
  apply (CommandMoreProps.undisturbed_run_saves_one_session
           (host := IsoDate.host)
           (Scenario.undisturbed Scenario.all_clipped) Scenario.t0
           (Scenario.offers_upto 7) initialWorld).
  intro j. reflexivity.
Defined.

(** A request entering 200 ms after the last call is released a
    second after that call, together with one entering 950 ms after
    it. *)
Lemma request_after_200_ms_waits_800 :
  ContentScript.rateLimit (Scenario.t0 + 200) 0 Scenario.t0
  = Scenario.t0 + 1000
  /\ ContentScript.rateLimit (Scenario.t0 + 950) 0 Scenario.t0
     = ContentScript.rateLimit (Scenario.t0 + 200) 0 Scenario.t0.
Proof.
  destruct (ContentScriptProps.rate_limit_spaces_sequential_calls
              (Scenario.t0 + 200) 0 Scenario.t0) as [_ [_ [_ H]]];
    [lia|].
  destruct (H (Scenario.t0 + 950)) as [Hsame Hat].
  - unfold ContentScript.RATE_LIMIT_MS. lia.
  - unfold ContentScript.RATE_LIMIT_MS. lia.
  - split; [|exact Hsame].
    rewrite Hat. unfold ContentScript.RATE_LIMIT_MS. lia.
Defined.

(** An offer that the gallery reports as clipped is answered at once,
    without credentials and with the network down. *)
Lemma gallery_offer_clipped_elsewhere :
  Content.isOfferAlreadyClipped
    (ContentScript.toCouponOffer Pipeline.clipped_in_gallery) = true
  /\ Content.clipOffer false (Content.FetchThrows None)
       (ContentScript.toCouponOffer Pipeline.clipped_in_gallery)
     = {| success := true; wasAlreadyClipped := Some true;
          wasSkipped := None; reason := None; errorMsg := None;
          error := None;
          resp_clipId :=
            ContentScript.g_clipId Pipeline.clipped_in_gallery;
          resp_clipTs :=
            ContentScript.g_clipTs Pipeline.clipped_in_gallery |}.
Proof.
  apply (ContentScriptProps.provider_clipped_offer_needs_no_request
           Pipeline.clipped_in_gallery false (Content.FetchThrows None));
    reflexivity.
Defined.

(** Twenty coupons on three pages, the second one shown. *)
Lemma second_of_three_pages :
  let pages := Popup.totalPages 20 in
  let first := fst (Popup.pageNumbers 2 pages) in
  let last := snd (Popup.pageNumbers 2 pages) in
  1 <= Popup.previousPage 2 <= pages
  /\ 1 <= Popup.nextPage 20 2 <= pages
  /\ 1 <= Popup.goToPage 20 7 2 <= pages
  /\ 1 <= first <= 2
  /\ 2 <= last <= pages
  /\ last - first + 1 = Z.min Popup.MAX_VISIBLE_PAGES pages.
Proof.
  apply (PopupProps.paging_keeps_the_current_page_in_range 20 7 2).
  vm_compute. split; discriminate.
Defined.

(** Three offers sent to a content script whose provider accepts
    every clip: the second one is in the clipped collection after the
    pass. *)
Lemma accepted_clip_is_stored :
  has_clipped_id
    (stored_clipped
       (iteration (host := IsoDate.host)
          (Scenario.undisturbed
             (Pipeline.content_tab (fun _ => true)
                                   (fun _ => Pipeline.accepted)))
          (Scenario.offers_upto 3) 0 initialWorld))
    (id (Scenario.mkOffer 2)) = true.
Proof.
  destruct (PipelineProps.content_script_verdict_decides_the_record
              (host := IsoDate.host)
              (Scenario.undisturbed
                 (Pipeline.content_tab (fun _ => true)
                                       (fun _ => Pipeline.accepted)))
              (fun _ => true) (fun _ => Pipeline.accepted)
              (Scenario.offers_upto 3) 0 initialWorld 1
              (Scenario.mkOffer 2)) as [H _].
  - reflexivity.
  - reflexivity.
  - apply H; reflexivity.
Defined.



End MoreExamples.
